(** * DocBot Enterprise frontend: service wrappers and page handlers

    A shallow embedding of the TypeScript/JavaScript sources of the
    frontend, followed by the properties of the specification stated
    over it.  The units embedded, and where they are found:
    - AuthService: frontend/src/services/authService.ts;
    - InvoiceService: the second unit of the same file;
    - DashboardService: frontend/src/services/dashboardService.ts;
    - AuthProvider (contexts/AuthContext): unnamed/part_002;
    - the InvoiceUpload page: the second unit of
      frontend/src/pages/InvoiceDetail.tsx;
    - the Dashboard page: the second unit of frontend/src/pages/Settings.tsx;
    - the demo Dashboard: frontend/src/App.js.

    Conventions of the embedding:
    - JavaScript values that cross the HTTP boundary are JSON-like terms
      of type [value]; [VNum n] is the Number nearest to the integer [n],
      which is what [JSON.parse] makes of the integer literal [n]
      (fractions are left out), and [Number_toString] prints it as
      JavaScript does; strings are byte strings (the UTF-8 encoding of
      the JS string);
    - asynchronous service methods are computations in a state-and-
      exception monad over a [world] holding [localStorage], the build
      environment, the backend (an oracle answering each request) and
      the log of the requests handed to axios;
    - [try { .. } catch (error) { .. }] is [try_catch], [throw] is
      [throw], and [throw new Error(m)] raises [new_Error m];
    - a React handler runs over the state of its component, the world and
      the trace of its interface effects; each [setX] call of a [useState]
      pair is a state update. *)

From stdpp Require Import base strings list gmap pretty.
From Stdlib Require Import ZArith QArith Ascii.

#[local] Set Warnings "-register-all".

Local Open Scope Z_scope.
Local Open Scope string_scope.
Local Open Scope list_scope.

(** ** JavaScript values *)

Inductive value : Type :=
| VUndefined
| VNull
| VBool (b : bool)
| VNum (n : Z)
| VStr (s : string)
| VArr (items : list value)
| VObj (fields : list (string * value)).

(** ToBoolean: [undefined], [null], [false], [0] and the empty string are
    falsy, everything else (all arrays and objects included) is truthy. *)
Definition truthy (v : value) : bool :=
  match v with
  | VUndefined | VNull => false
  | VBool b => b
  | VNum n => negb (Z.eqb n 0)
  | VStr s => negb (String.eqb s "")
  | VArr _ | VObj _ => true
  end.

(** [a || b] *)
Definition js_or (a b : value) : value := if truthy a then a else b.

(** Own data property of a parsed JSON object; the first binding of a key
    is the one the object holds. *)
Fixpoint assoc (k : string) (fields : list (string * value)) : value :=
  match fields with
  | [] => VUndefined
  | (k', v) :: rest => if String.eqb k k' then v else assoc k rest
  end.

(** [v?.k]: [undefined] on a nullish base, the property otherwise.  The
    keys read by the sources ([detail], [invoices], [access_token]) are
    own properties of objects only. *)
Definition opt_get (v : value) (k : string) : value :=
  match v with
  | VObj fields => assoc k fields
  | _ => VUndefined
  end.

Definition nullish (v : value) : bool :=
  match v with
  | VUndefined | VNull => true
  | _ => false
  end.

(** ** Number.prototype.toString

    The Number nearest to a positive integer (ties to even), itself an
    integer; [None] when that is Infinity. *)
Definition nearest_Number (n : Z) : option Z :=
  let bits := Z.log2 n + 1 in
  if Z.leb bits 53 then Some n
  else
    let shift := bits - 53 in
    let q := Z.shiftr n shift in
    let r := n - Z.shiftl q shift in
    let half := Z.shiftl 1 (shift - 1) in
    let q' := if Z.ltb half r || (Z.eqb r half && Z.odd q) then q + 1 else q in
    let d := Z.shiftl q' shift in
    if Z.ltb d (2 ^ 1024) then Some d else None.

Definition decimal_digits (n : Z) : Z := Z.of_nat (String.length (pretty n)).

(** The decimal [v] is read as the Number [d]. *)
Definition reads_back (d v : Z) : bool :=
  match nearest_Number v with
  | Some d' => Z.eqb d' d
  | None => false
  end.

(** The decimal of [k] significant digits that is read as [d], if there
    is one: the nearer of the two neighbours of [d], the even one on a
    tie. *)
Definition candidate (d k : Z) : option Z :=
  let unit := 10 ^ (decimal_digits d - k) in
  let lo := (d / unit) * unit in
  let hi := lo + unit in
  match reads_back d lo, reads_back d hi with
  | true, true =>
      if Z.ltb (d - lo) (hi - d) then Some lo
      else if Z.ltb (hi - d) (d - lo) then Some hi
      else if Z.even (lo / unit) then Some lo else Some hi
  | true, false => Some lo
  | false, true => Some hi
  | false, false => None
  end.

(** The decimal with the fewest significant digits that is read as [d];
    seventeen digits always suffice. *)
Fixpoint shortest_decimal (fuel : nat) (d k : Z) : Z :=
  match fuel with
  | O => d
  | S fuel' =>
      if Z.leb (decimal_digits d) k then d
      else match candidate d k with
           | Some v => v
           | None => shortest_decimal fuel' d (k + 1)
           end
  end.

Fixpoint strip_zeros (fuel : nat) (v : Z) : Z :=
  match fuel with
  | O => v
  | S fuel' => if Z.eqb (v mod 10) 0 then strip_zeros fuel' (v / 10) else v
  end.

(** [d.ddde+x], the notation of a Number of more than 21 digits. *)
Definition exponential (v : Z) : string :=
  match pretty (strip_zeros (String.length (pretty v)) v) with
  | String c rest =>
      String c ((if String.eqb rest "" then "" else "." +:+ rest)
                +:+ "e+" +:+ pretty (decimal_digits v - 1))
  | EmptyString => ""
  end.

Definition positive_text (n : Z) : string :=
  match nearest_Number n with
  | None => "Infinity"
  | Some d =>
      let v := shortest_decimal 17 d 1 in
      if Z.leb (decimal_digits v) 21 then pretty v else exponential v
  end.

(** The text of the Number nearest to [n]: its digits up to 2^53, the
    shortest decimal that is read as the same Number beyond, in
    exponential notation from 10^21 on. *)
Definition Number_toString (n : Z) : string :=
  match n with
  | Z0 => "0"
  | Zpos _ => positive_text n
  | Zneg p => "-" +:+ positive_text (Zpos p)
  end.

(** A [number] handed over by a caller: NaN, an infinity, or an
    integer-valued Number ([Integer n] is the Number nearest to [n];
    [Integer 0] stands for both zeros, which are falsy and print alike).
    Fractions are left out. *)
Inductive number :=
| NaN
| Infinity (negative : bool)
| Integer (n : Z).

(** ToBoolean of a number: [0] and [NaN] are falsy. *)
Definition number_truthy (x : number) : bool :=
  match x with
  | NaN => false
  | Infinity _ => true
  | Integer n => negb (Z.eqb n 0)
  end.

(** [x.toString()] *)
Definition Number_prototype_toString (x : number) : string :=
  match x with
  | NaN => "NaN"
  | Infinity false => "Infinity"
  | Infinity true => "-Infinity"
  | Integer n => Number_toString n
  end.

(** ** ToString

    An own property shadows the inherited method of the same name.  The
    properties of a parsed JSON object are data, never functions, so an
    object with an own [toString] has no usable conversion method
    ([valueOf] yields the object itself) and ToString raises a
    TypeError. *)
Definition has_own (k : string) (fields : list (string * value)) : bool :=
  existsb (fun kv => String.eqb k (fst kv)) fields.

(** ToString, as applied by template literals, by the [Error]
    constructor and by [localStorage.setItem]; [None] stands for the
    TypeError.  An array is joined with commas, [null] and [undefined]
    elements giving the empty text. *)
Fixpoint ToString (v : value) : option string :=
  match v with
  | VUndefined => Some "undefined"
  | VNull => Some "null"
  | VBool true => Some "true"
  | VBool false => Some "false"
  | VNum n => Some (Number_toString n)
  | VStr s => Some s
  | VArr items =>
      String.concat "," <$>
        (fix join (l : list value) : option (list string) :=
           match l with
           | [] => Some []
           | x :: rest =>
               match (if nullish x then Some "" else ToString x), join rest with
               | Some s, Some ss => Some (s :: ss)
               | _, _ => None
               end
           end) items
  | VObj fields =>
      if has_own "toString" fields then None else Some "[object Object]"
  end.

(** [v === n] for a number literal [n] *)
Definition strict_eq_num (v : value) (n : Z) : bool :=
  match v with
  | VNum m => Z.eqb m n
  | _ => false
  end.

(** ** HTTP messages *)

Record File := mkFile {
  file_name : string;
  file_type : string;
  file_size : Z }.

Inductive http_method := GET | POST | PUT.

Inductive req_body :=
| NoBody
| JsonBody (v : value)
| FormDataBody (parts : list (string * File)).

Record http_request := mkRequest {
  req_method : http_method;
  req_url : string;
  req_body_of : req_body;
  req_headers : gmap string string }.

Record http_response := mkResponse {
  status : Z;
  data : value }.

(** What the network gives back for one request. *)
Inductive net_reply :=
| Reply (r : http_response)
| NetworkError.

(** ** Exceptions and the state-and-exception monad *)

Inductive exn :=
| AxiosError (response : option http_response)
| JsError (message : string)
| TypeError.

(** What [throw new Error(m)] raises: the Error, whose message is
    [ToString m] (empty when [m] is [undefined]), or the TypeError of
    that conversion. *)
Definition new_Error (m : value) : exn :=
  match m with
  | VUndefined => JsError ""
  | _ => match ToString m with
         | Some message => JsError message
         | None => TypeError
         end
  end.

(** [error.response] is defined on axios errors that carry a response. *)
Definition error_response (e : exn) : option http_response :=
  match e with
  | AxiosError r => r
  | _ => None
  end.

(** [error.response?.status] *)
Definition error_status (e : exn) : value :=
  match error_response e with
  | Some r => VNum (status r)
  | None => VUndefined
  end.

(** [error.response?.data?.detail] *)
Definition error_detail (e : exn) : value :=
  match error_response e with
  | Some r => opt_get (data r) "detail"
  | None => VUndefined
  end.

Inductive result (A : Type) : Type :=
| Ok (a : A)
| Throw (e : exn).
Arguments Ok {A} a.
Arguments Throw {A} e.

Definition SE (S A : Type) : Type := S -> result A * S.

Definition ret {S A} (a : A) : SE S A := fun s => (Ok a, s).

Definition bind {S A B} (m : SE S A) (k : A -> SE S B) : SE S B :=
  fun s =>
    match m s with
    | (Ok a, s') => k a s'
    | (Throw e, s') => (Throw e, s')
    end.

Definition throw {S A} (e : exn) : SE S A := fun s => (Throw e, s).

Definition try_catch {S A} (body : SE S A) (handler : exn -> SE S A) : SE S A :=
  fun s =>
    match body s with
    | (Ok a, s') => (Ok a, s')
    | (Throw e, s') => handler e s'
    end.

(** [try { body } finally { fin }] *)
Definition try_finally {S A} (body : SE S A) (fin : SE S unit) : SE S A :=
  fun s =>
    match body s with
    | (r, s') =>
        match fin s' with
        | (Ok _, s'') => (r, s'')
        | (Throw e, s'') => (Throw e, s'')
        end
    end.

(** Run a computation and keep how it settled, as a promise does. *)
Definition settle {S A} (m : SE S A) : SE S (result A) :=
  fun s => match m s with (r, s') => (Ok r, s') end.

Notation "'let*' x ':=' c 'in' k" := (bind c (fun x => k))
  (at level 10, x name, c at level 100, k at level 200).
Notation "c ';;' k" := (bind c (fun _ => k))
  (at level 100, k at level 200, right associativity).

(** ** The world of the browser tab *)

Record world := mkWorld {
  REACT_APP_API_URL : option string;
  localStorage : gmap string string;
  backend : nat -> http_request -> net_reply;
  sent : list http_request }.

Definition set_localStorage (ls : gmap string string) (w : world) : world :=
  mkWorld (REACT_APP_API_URL w) ls (backend w) (sent w).

Definition log_request (r : http_request) (w : world) : world :=
  mkWorld (REACT_APP_API_URL w) (localStorage w) (backend w) (sent w ++ [r]).

(** [process.env.REACT_APP_API_URL || dflt] *)
Definition base_url_of (dflt : string) (w : world) : string :=
  match REACT_APP_API_URL w with
  | Some s => if String.eqb s "" then dflt else s
  | None => dflt
  end.

Definition api_base_url (dflt : string) : SE world string :=
  fun w => (Ok (base_url_of dflt w), w).

Definition localStorage_getItem (k : string) : SE world (option string) :=
  fun w => (Ok (localStorage w !! k), w).

Definition localStorage_setItem (k v : string) : SE world unit :=
  fun w => (Ok tt, set_localStorage (<[k := v]> (localStorage w)) w).

Definition localStorage_removeItem (k : string) : SE world unit :=
  fun w => (Ok tt, set_localStorage (delete k (localStorage w)) w).

(** ** axios

    One call hands one request to the network.  With the default
    [validateStatus] the promise resolves for a 2xx status and rejects
    with an error carrying the response otherwise; without any response
    it rejects with an error whose [response] is undefined. *)

Definition validateStatus (st : Z) : bool := Z.leb 200 st && Z.ltb st 300.

Definition axios_outcome (reply : net_reply) : result http_response :=
  match reply with
  | Reply resp =>
      if validateStatus (status resp) then Ok resp
      else Throw (AxiosError (Some resp))
  | NetworkError => Throw (AxiosError None)
  end.

Definition axios (r : http_request) : SE world http_response :=
  fun w => (axios_outcome (backend w (length (sent w)) r), log_request r w).

Definition axios_get (url : string) (headers : gmap string string)
  : SE world http_response :=
  axios (mkRequest GET url NoBody headers).

Definition axios_post (url : string) (body : req_body)
    (headers : gmap string string) : SE world http_response :=
  axios (mkRequest POST url body headers).

Definition axios_put (url : string) (body : req_body)
    (headers : gmap string string) : SE world http_response :=
  axios (mkRequest PUT url body headers).

(** ** services/authService.ts *)

Record RegisterData := mkRegisterData {
  reg_email : string;
  reg_password : string;
  reg_first_name : string;
  reg_last_name : string }.

Definition RegisterData_json (d : RegisterData) : value :=
  VObj [("email", VStr (reg_email d)); ("password", VStr (reg_password d));
        ("first_name", VStr (reg_first_name d));
        ("last_name", VStr (reg_last_name d))].

Record ProfileData := mkProfileData {
  prof_first_name : option string;
  prof_last_name : option string;
  prof_email : option string }.

Definition opt_field (k : string) (o : option string) : list (string * value) :=
  match o with
  | Some s => [(k, VStr s)]
  | None => []
  end.

Definition ProfileData_json (d : ProfileData) : value :=
  VObj (opt_field "first_name" (prof_first_name d)
        ++ opt_field "last_name" (prof_last_name d)
        ++ opt_field "email" (prof_email d)).

Module AuthService.

Definition API_BASE_URL : SE world string :=
  api_base_url "https://docbot-enterprise-backend.onrender.com".

Definition getAuthHeaders (token : string) : gmap string string :=
  <["Content-Type" := "application/json"]>
    {[ "Authorization" := "Bearer " +:+ token ]}.

Definition login (email password : string) : SE world value :=
  let* base := API_BASE_URL in
  try_catch
    (let* response :=
       axios_post (base +:+ "/api/v1/auth/login")
         (JsonBody (VObj [("email", VStr email); ("password", VStr password)]))
         ∅ in
     ret (data response))
    (fun error =>
       if strict_eq_num (error_status error) 401
       then throw (new_Error (VStr "Invalid email or password"))
       else throw (new_Error (js_or (error_detail error) (VStr "Login failed")))).

Definition getCurrentUser (token : string) : SE world value :=
  let* base := API_BASE_URL in
  try_catch
    (let* response :=
       axios_get (base +:+ "/api/v1/users/me") (getAuthHeaders token) in
     ret (data response))
    (fun error =>
       if strict_eq_num (error_status error) 401
       then throw (new_Error (VStr "Invalid or expired token"))
       else throw (new_Error (js_or (error_detail error)
                                (VStr "Failed to get user data")))).

Definition refreshToken (token : string) : SE world value :=
  let* base := API_BASE_URL in
  try_catch
    (let* response :=
       axios_post (base +:+ "/api/v1/auth/refresh") (JsonBody (VObj []))
         (getAuthHeaders token) in
     ret (data response))
    (fun error =>
       throw (new_Error (js_or (error_detail error)
                           (VStr "Token refresh failed")))).

Definition register (userData : RegisterData) : SE world value :=
  let* base := API_BASE_URL in
  try_catch
    (let* response :=
       axios_post (base +:+ "/api/v1/auth/register")
         (JsonBody (RegisterData_json userData)) ∅ in
     ret (data response))
    (fun error =>
       if strict_eq_num (error_status error) 400
       then throw (new_Error (js_or (error_detail error)
                                (VStr "Registration failed")))
       else throw (new_Error (VStr "Registration failed"))).

Definition forgotPassword (email : string) : SE world value :=
  let* base := API_BASE_URL in
  try_catch
    (axios_post (base +:+ "/api/v1/auth/forgot-password")
       (JsonBody (VObj [("email", VStr email)])) ∅ ;;
     ret VUndefined)
    (fun error =>
       throw (new_Error (js_or (error_detail error)
                           (VStr "Failed to send reset email")))).

Definition resetPassword (token password : string) : SE world value :=
  let* base := API_BASE_URL in
  try_catch
    (axios_post (base +:+ "/api/v1/auth/reset-password")
       (JsonBody (VObj [("token", VStr token); ("password", VStr password)]))
       ∅ ;;
     ret VUndefined)
    (fun error =>
       throw (new_Error (js_or (error_detail error)
                           (VStr "Failed to reset password")))).

Definition updateProfile (token : string) (userData : ProfileData)
  : SE world value :=
  let* base := API_BASE_URL in
  try_catch
    (let* response :=
       axios_put (base +:+ "/api/v1/users/me")
         (JsonBody (ProfileData_json userData)) (getAuthHeaders token) in
     ret (data response))
    (fun error =>
       throw (new_Error (js_or (error_detail error)
                           (VStr "Failed to update profile")))).

Definition changePassword (token currentPassword newPassword : string)
  : SE world value :=
  let* base := API_BASE_URL in
  try_catch
    (axios_post (base +:+ "/api/v1/auth/change-password")
       (JsonBody (VObj [("current_password", VStr currentPassword);
                        ("new_password", VStr newPassword)]))
       (getAuthHeaders token) ;;
     ret VUndefined)
    (fun error =>
       if strict_eq_num (error_status error) 400
       then throw (new_Error (VStr "Current password is incorrect"))
       else throw (new_Error (js_or (error_detail error)
                                (VStr "Failed to change password")))).

End AuthService.

(** ** URLSearchParams

    The query is an ordered list of name/value pairs; [toString] is the
    application/x-www-form-urlencoded serialiser: alphanumerics and
    [*-._] stay, a space becomes [+], any other byte is percent-encoded
    with upper-case hexadecimal digits. *)

Definition hex_digit (n : N) : ascii :=
  ascii_of_N (if N.ltb n 10 then 48 + n else 55 + n)%N.

Definition urlencoded_safe (c : ascii) : bool :=
  let n := N_of_ascii c in
  (N.leb 48 n && N.leb n 57) || (N.leb 65 n && N.leb n 90)
  || (N.leb 97 n && N.leb n 122)
  || N.eqb n 42 || N.eqb n 45 || N.eqb n 46 || N.eqb n 95.

Definition urlencode_byte (c : ascii) : string :=
  let n := N_of_ascii c in
  if urlencoded_safe c then String c ""
  else if N.eqb n 32 then "+"
  else String "%" (String (hex_digit (n / 16)%N)
                     (String (hex_digit (n mod 16)%N) "")).

Fixpoint urlencode (s : string) : string :=
  match s with
  | EmptyString => ""
  | String c rest => urlencode_byte c +:+ urlencode rest
  end.

Definition URLSearchParams_append (k v : string)
    (q : list (string * string)) : list (string * string) :=
  q ++ [(k, v)].

Definition URLSearchParams_toString (q : list (string * string)) : string :=
  String.concat "&"
    (List.map (fun kv => urlencode (fst kv) +:+ "=" +:+ urlencode (snd kv)) q).

(** [`${token}`] for [token : string | null] *)
Definition template_token (token : option string) : string :=
  match token with
  | Some t => t
  | None => "null"
  end.

(** [response.data.k]: a [TypeError] when the body is [null] or
    [undefined]. *)
Definition get_prop {S} (v : value) (k : string) : SE S value :=
  if nullish v then throw TypeError else ret (opt_get v k).

(** A value used where a string is expected: ToString, which may raise
    its TypeError. *)
Definition to_text {S} (v : value) : SE S string :=
  match ToString v with
  | Some s => ret s
  | None => throw TypeError
  end.

(** ** services/invoiceService.ts *)

Module InvoiceService.

(** [params?: { skip?: number; limit?: number; status_filter?: string }] *)
Record InvoiceQuery := mkQuery {
  skip : option number;
  limit : option number;
  status_filter : option string }.

Definition API_BASE_URL : SE world string :=
  api_base_url "http://localhost:8000".

Definition getAuthHeaders : SE world (gmap string string) :=
  let* token := localStorage_getItem "docbot_token" in
  ret {[ "Authorization" := "Bearer " +:+ template_token token ]}.

Definition uploadInvoice (file : File) : SE world value :=
  let* base := API_BASE_URL in
  try_catch
    (let formData := [("file", file)] in
     let* auth := getAuthHeaders in
     let* response :=
       axios_post (base +:+ "/api/v1/invoices/upload") (FormDataBody formData)
         (<["Content-Type" := "multipart/form-data"]> auth) in
     ret (data response))
    (fun error =>
       if strict_eq_num (error_status error) 401
       then throw (new_Error (VStr "Authentication required"))
       else throw (new_Error (js_or (error_detail error)
                                (VStr "Failed to upload invoice")))).

(** The three guarded [queryParams.append] calls of [getInvoices];
    [params?.skip] of an omitted [params] or an omitted field is
    [undefined]. *)
Definition queryParams (params : option InvoiceQuery)
  : list (string * string) :=
  let q0 := [] in
  let q1 :=
    match params ≫= skip with
    | Some x => if number_truthy x
                then URLSearchParams_append "skip"
                       (Number_prototype_toString x) q0
                else q0
    | None => q0
    end in
  let q2 :=
    match params ≫= limit with
    | Some x => if number_truthy x
                then URLSearchParams_append "limit"
                       (Number_prototype_toString x) q1
                else q1
    | None => q1
    end in
  match params ≫= status_filter with
  | Some s => if truthy (VStr s)
              then URLSearchParams_append "status_filter" s q2 else q2
  | None => q2
  end.

Definition getInvoices (params : option InvoiceQuery) : SE world value :=
  let* base := API_BASE_URL in
  try_catch
    (let q := queryParams params in
     let* auth := getAuthHeaders in
     let* response :=
       axios_get (base +:+ "/api/v1/invoices?" +:+ URLSearchParams_toString q)
         auth in
     ret (data response))
    (fun error =>
       throw (new_Error (js_or (error_detail error)
                           (VStr "Failed to get invoices")))).

Definition getInvoice (invoiceId : Z) : SE world value :=
  let* base := API_BASE_URL in
  try_catch
    (let* auth := getAuthHeaders in
     let* response :=
       axios_get (base +:+ "/api/v1/invoices/" +:+ Number_toString invoiceId)
         auth in
     ret (data response))
    (fun error =>
       throw (new_Error (js_or (error_detail error)
                           (VStr "Failed to get invoice")))).

Definition approveInvoice (invoiceId : Z) : SE world value :=
  let* base := API_BASE_URL in
  try_catch
    (let* auth := getAuthHeaders in
     let* response :=
       axios_put (base +:+ "/api/v1/invoices/" +:+ Number_toString invoiceId
                  +:+ "/approve")
         (JsonBody (VObj [])) auth in
     ret (data response))
    (fun error =>
       throw (new_Error (js_or (error_detail error)
                           (VStr "Failed to approve invoice")))).

End InvoiceService.

(** ** services/dashboardService.ts *)

Module DashboardService.

Definition API_BASE_URL : SE world string :=
  api_base_url "https://docbot-enterprise-backend.onrender.com".

Definition getAuthHeaders : SE world (gmap string string) :=
  let* token := localStorage_getItem "docbot_token" in
  ret (<["Content-Type" := "application/json"]>
         {[ "Authorization" := "Bearer " +:+ template_token token ]}).

Definition getStats : SE world value :=
  let* base := API_BASE_URL in
  try_catch
    (let* auth := getAuthHeaders in
     let* response := axios_get (base +:+ "/api/v1/stats/dashboard") auth in
     ret (data response))
    (fun error =>
       if strict_eq_num (error_status error) 401
       then throw (new_Error (VStr "Authentication required"))
       else throw (new_Error (js_or (error_detail error)
                                (VStr "Failed to get dashboard stats")))).

(** [limit: number = 10]: the default applies when the argument is
    omitted. *)
Definition getRecentInvoices (limit_arg : option Z) : SE world value :=
  let limit := default 10 limit_arg in
  let* base := API_BASE_URL in
  try_catch
    (let* auth := getAuthHeaders in
     let* response :=
       axios_get (base +:+ "/api/v1/invoices?limit=" +:+ Number_toString limit)
         auth in
     let* invoices := get_prop (data response) "invoices" in
     ret (js_or invoices (VArr [])))
    (fun error =>
       if strict_eq_num (error_status error) 401
       then throw (new_Error (VStr "Authentication required"))
       else throw (new_Error (js_or (error_detail error)
                                (VStr "Failed to get recent invoices")))).

End DashboardService.

(** ** The public methods of the three service singletons *)

Inductive service_call :=
| Login (email password : string)
| GetCurrentUser (token : string)
| RefreshToken (token : string)
| Register (userData : RegisterData)
| ForgotPassword (email : string)
| ResetPassword (token password : string)
| UpdateProfile (token : string) (userData : ProfileData)
| ChangePassword (token currentPassword newPassword : string)
| UploadInvoice (file : File)
| GetInvoices (params : option InvoiceService.InvoiceQuery)
| GetInvoice (invoiceId : Z)
| ApproveInvoice (invoiceId : Z)
| GetStats
| GetRecentInvoices (limit_arg : option Z).

Definition invoke (c : service_call) : SE world value :=
  match c with
  | Login e p => AuthService.login e p
  | GetCurrentUser t => AuthService.getCurrentUser t
  | RefreshToken t => AuthService.refreshToken t
  | Register d => AuthService.register d
  | ForgotPassword e => AuthService.forgotPassword e
  | ResetPassword t p => AuthService.resetPassword t p
  | UpdateProfile t d => AuthService.updateProfile t d
  | ChangePassword t c n => AuthService.changePassword t c n
  | UploadInvoice f => InvoiceService.uploadInvoice f
  | GetInvoices q => InvoiceService.getInvoices q
  | GetInvoice i => InvoiceService.getInvoice i
  | ApproveInvoice i => InvoiceService.approveInvoice i
  | GetStats => DashboardService.getStats
  | GetRecentInvoices l => DashboardService.getRecentInvoices l
  end.

(** The calls that pass an [Authorization] header. *)
Definition authenticated (c : service_call) : bool :=
  match c with
  | Login _ _ | Register _ | ForgotPassword _ | ResetPassword _ _ => false
  | _ => true
  end.

(** ** React components

    A component handler runs over its own state, the world, and the trace
    of the user-interface effects it performs.  [RenderError e] records
    that a state updater handed to React raised [e]: the handler that
    queued it has returned by then, the update is not applied, and the
    error surfaces in React's rendering of the component. *)

Inductive ui_event :=
| ShowNotification (message : value) (kind : string)
| NavigateTo (path : string)
| RevokeObjectURL (url : string)
| ConsoleError (label : string)
| RenderError (e : exn).

Record ctx (St : Type) := mkCtx {
  cstate : St;
  cworld : world;
  cevents : list ui_event }.
Arguments mkCtx {St} _ _ _.
Arguments cstate {St} _.
Arguments cworld {St} _.
Arguments cevents {St} _.

Definition liftW {St A} (m : SE world A) : SE (ctx St) A :=
  fun c =>
    match m (cworld c) with
    | (r, w') => (r, mkCtx (cstate c) w' (cevents c))
    end.

Definition emit {St} (e : ui_event) : SE (ctx St) unit :=
  fun c => (Ok tt, mkCtx (cstate c) (cworld c) (cevents c ++ [e])).

Definition get_state {St} : SE (ctx St) St :=
  fun c => (Ok (cstate c), c).

Definition set_state {St} (f : St -> St) : SE (ctx St) unit :=
  fun c => (Ok tt, mkCtx (f (cstate c)) (cworld c) (cevents c)).

(** ** contexts/AuthContext.tsx *)

Module AuthContext.

(** [user] and [token] hold [null] or whatever the backend returned. *)
Record state := mkState {
  user : value;
  token : value;
  loading : bool }.

Definition initial : state := mkState VNull VNull true.

Definition setUser (u : value) : SE (ctx state) unit :=
  set_state (fun s => mkState u (token s) (loading s)).

Definition setToken (t : value) : SE (ctx state) unit :=
  set_state (fun s => mkState (user s) t (loading s)).

Definition setLoading (b : bool) : SE (ctx state) unit :=
  set_state (fun s => mkState (user s) (token s) b).

Definition initAuth : SE (ctx state) unit :=
  let* storedToken := liftW (localStorage_getItem "docbot_token") in
  match storedToken with
  | Some t =>
      if truthy (VStr t) then
        try_catch
          (setToken (VStr t) ;;
           let* userData := liftW (AuthService.getCurrentUser t) in
           setUser userData)
          (fun error =>
             emit (ConsoleError "Failed to validate token:") ;;
             liftW (localStorage_removeItem "docbot_token") ;;
             setToken VNull)
      else ret tt
  | None => ret tt
  end ;;
  setLoading false.

(** [response.access_token] is whatever the body holds.
    [localStorage.setItem] applies ToString to it, which may raise; the
    template literal of the header then gives the same text. *)
Definition login (email password : string) : SE (ctx state) unit :=
  try_catch
    (let* response := liftW (AuthService.login email password) in
     let* access_token := get_prop response "access_token" in
     setToken access_token ;;
     let* text := to_text access_token in
     liftW (localStorage_setItem "docbot_token" text) ;;
     let* userData := liftW (AuthService.getCurrentUser text) in
     setUser userData)
    (fun error => throw error).

Definition logout : SE (ctx state) unit :=
  setUser VNull ;;
  setToken VNull ;;
  liftW (localStorage_removeItem "docbot_token").

End AuthContext.

(** ** pages/InvoiceUpload.tsx *)

Module InvoiceUpload.

Record UploadedFile := mkUploaded {
  file : File;
  preview : option string }.

(** [uploadProgress] is a percentage; the quotient is kept exact. *)
Record state := mkState {
  files : list UploadedFile;
  uploading : bool;
  uploadProgress : Q }.

Definition setFiles (fs : list UploadedFile) : SE (ctx state) unit :=
  set_state (fun s => mkState fs (uploading s) (uploadProgress s)).

Definition setUploading (b : bool) : SE (ctx state) unit :=
  set_state (fun s => mkState (files s) b (uploadProgress s)).

Definition setUploadProgress (p : Q) : SE (ctx state) unit :=
  set_state (fun s => mkState (files s) (uploading s) p).

(** [files.map(async (uploadedFile, index) => ..)]: every callback runs
    up to its [await], so every upload is started, in list order, before
    any of them completes. *)
Fixpoint start_uploads (fs : list UploadedFile)
  : SE (ctx state) (list (result value)) :=
  match fs with
  | [] => ret []
  | f :: rest =>
      let* p := liftW (settle (InvoiceService.uploadInvoice (file f))) in
      let* ps := start_uploads rest in
      ret (p :: ps)
  end.

(** The order in which the [n] pending uploads complete: the indices of
    [sched] first (out-of-range and repeated ones dropped), then the
    remaining uploads in list order. *)
Definition completion_order (n : nat) (sched : list nat) : list nat :=
  let chosen := remove_dups (filter (fun i => (i < n)%nat) sched) in
  chosen ++ list_difference (seq 0 n) chosen.

(** [((index + 1) / files.length) * 100] *)
Definition progress_of (index n : nat) : Q :=
  (inject_Z (Z.of_nat (index + 1)) / inject_Z (Z.of_nat n) * 100)%Q.

(** The rest of the [map] callback, run when upload [index] completes. *)
Definition upload_completed (n : nat) (promises : list (result value))
    (index : nat) : SE (ctx state) value :=
  match promises !! index with
  | Some (Ok response) =>
      setUploadProgress (progress_of index n) ;; ret response
  | Some (Throw e) => throw e
  | None => throw TypeError
  end.

(** [await Promise.all(uploadPromises)]: completions are handled in
    order until one rejects, which rejects the whole. *)
Fixpoint await_all (n : nat) (promises : list (result value))
    (order : list nat) : SE (ctx state) unit :=
  match order with
  | [] => ret tt
  | i :: rest => upload_completed n promises i ;; await_all n promises rest
  end.

(** The completions that arrive after [Promise.all] has rejected. *)
Fixpoint late_completions (promises : list (result value))
    (order : list nat) : list nat :=
  match order with
  | [] => []
  | i :: rest =>
      match promises !! i with
      | Some (Ok _) => late_completions promises rest
      | _ => rest
      end
  end.

Fixpoint run_late (n : nat) (promises : list (result value))
    (order : list nat) : SE (ctx state) unit :=
  match order with
  | [] => ret tt
  | i :: rest =>
      try_catch (upload_completed n promises i ;; ret tt)
                (fun _ => ret tt) ;;
      run_late n promises rest
  end.

Fixpoint revoke_previews (fs : list UploadedFile) : SE (ctx state) unit :=
  match fs with
  | [] => ret tt
  | f :: rest =>
      match preview f with
      | Some url => if truthy (VStr url) then emit (RevokeObjectURL url)
                    else ret tt
      | None => ret tt
      end ;;
      revoke_previews rest
  end.

(** [sched] fixes the order in which the uploads complete.  The [map]
    callbacks are async functions, so starting them cannot throw; it is
    written ahead of the [try] block, which keeps the pending results at
    hand for the completions that arrive after a rejection. *)
Definition handleUpload (sched : list nat) : SE (ctx state) unit :=
  let* st := get_state in
  let files := files st in
  let n := length files in
  if Nat.eqb n 0 then
    emit (ShowNotification
            (VStr "Please select at least one file to upload") "error")
  else
    setUploading true ;;
    setUploadProgress 0 ;;
    let* uploadPromises := start_uploads files in
    let order := completion_order n sched in
    try_finally
      (try_catch
         (await_all n uploadPromises order ;;
          emit (ShowNotification
                  (VStr ("Successfully uploaded " +:+ pretty n +:+ " invoice"
                         +:+ (if Nat.ltb 1 n then "s" else "")))
                  "success") ;;
          revoke_previews files ;;
          setFiles [] ;;
          emit (NavigateTo "/invoices"))
         (fun error =>
            emit (ConsoleError "Upload failed:") ;;
            emit (ShowNotification
                    (js_or (error_detail error)
                           (VStr "Failed to upload invoices"))
                    "error")))
      (setUploading false ;; setUploadProgress 0) ;;
    run_late n uploadPromises (late_completions uploadPromises order).

(** [onDrop(acceptedFiles)]: each accepted file becomes an entry, with a
    preview when its MIME type starts with [image/]; the entries are
    appended to the selection.  [createObjectURL] stands for the
    browser's [URL.createObjectURL]. *)
Definition onDrop (createObjectURL : File -> string)
    (acceptedFiles : list File) : SE (ctx state) unit :=
  let newFiles :=
    map (fun f =>
           if String.prefix "image/" (file_type f)
           then mkUploaded f (Some (createObjectURL f))
           else mkUploaded f None)
        acceptedFiles in
  set_state (fun prev =>
               mkState (files prev ++ newFiles) (uploading prev)
                       (uploadProgress prev)).

(** [removeFile(index)] hands [setFiles] an updater and returns.  When
    React runs the updater on the current list, reading
    [newFiles[index].preview] raises a TypeError if there is no entry at
    [index]; otherwise the preview, if any, is revoked and
    [splice(index, 1)] takes the entry out. *)
Definition removeFile (index : Z) : SE (ctx state) unit :=
  let* prev := get_state in
  let newFiles := files prev in
  match (if Z.ltb index 0 then None else newFiles !! Z.to_nat index) with
  | None => emit (RenderError TypeError)
  | Some entry =>
      match preview entry with
      | Some url => if truthy (VStr url) then emit (RevokeObjectURL url)
                    else ret tt
      | None => ret tt
      end ;;
      setFiles (delete (Z.to_nat index) newFiles)
  end.

End InvoiceUpload.

(** ** pages/Dashboard.tsx *)

Module DashboardPage.

Record state := mkState {
  stats : value;
  recentInvoices : value;
  loading : bool }.

Definition initial : state := mkState VNull (VArr []) true.

Definition setStats (v : value) : SE (ctx state) unit :=
  set_state (fun s => mkState v (recentInvoices s) (loading s)).

Definition setRecentInvoices (v : value) : SE (ctx state) unit :=
  set_state (fun s => mkState (stats s) v (loading s)).

Definition setLoading (b : bool) : SE (ctx state) unit :=
  set_state (fun s => mkState (stats s) (recentInvoices s) b).

(** [Promise.all] of the two requests; [stats_first] tells which of the
    two settles first, hence whose rejection is the one observed. *)
Definition Promise_all2 (stats_first : bool) (p1 p2 : result value)
  : SE (ctx state) (value * value) :=
  match p1, p2 with
  | Ok a, Ok b => ret (a, b)
  | Throw e, Ok _ => throw e
  | Ok _, Throw e => throw e
  | Throw e1, Throw e2 => throw (if stats_first then e1 else e2)
  end.

Definition fetchDashboardData (stats_first : bool) : SE (ctx state) unit :=
  try_finally
    (try_catch
       (let* p1 := liftW (settle DashboardService.getStats) in
        let* p2 := liftW (settle (DashboardService.getRecentInvoices None)) in
        let* both := Promise_all2 stats_first p1 p2 in
        setStats (fst both) ;;
        setRecentInvoices (snd both))
       (fun error =>
          emit (ConsoleError "Failed to fetch dashboard data:") ;;
          emit (ShowNotification (VStr "Failed to load dashboard data")
                  "error")))
    (setLoading false).

(** The [value] of each of the four stat cards; the template literal of
    the last one applies ToString, which may raise. *)
Definition statCards (st : state) : result (list (string * value)) :=
  match ToString (js_or (opt_get (stats st) "processing_accuracy") (VNum 0)) with
  | Some accuracy =>
      Ok [("Total Invoices",
           js_or (opt_get (stats st) "total_invoices") (VNum 0));
          ("Pending Review",
           js_or (opt_get (stats st) "pending_review") (VNum 0));
          ("Approved", js_or (opt_get (stats st) "approved_invoices") (VNum 0));
          ("Accuracy Rate", VStr (accuracy +:+ "%"))]
  | None => Throw TypeError
  end.

(** [if (loading) return <LoadingSpinner />]: the cards are rendered only
    once loading has ended ([None] stands for the spinner). *)
Definition visible_cards (st : state)
  : result (option (list (string * value))) :=
  if loading st then Ok None
  else match statCards st with
       | Ok cards => Ok (Some cards)
       | Throw e => Throw e
       end.

End DashboardPage.

(** ** App.js: the demo dashboard *)

Module DemoDashboard.

Record Stats := mkStats {
  total_invoices : Z;
  pending_review : Z;
  approved_invoices : Z;
  total_amount : string }.

(** [useState(null)] *)
Definition initial : option Stats := None.

(** The body of the [useEffect(.., [])] hook, run once after the first
    render. *)
Definition mount_effect : SE (ctx (option Stats)) unit :=
  set_state (fun _ => Some (mkStats 47 8 39 "23456.78")).

Inductive view :=
| LoadingText (text : string)
| StatCards (cards : list (string * string)).

(** [{stats ? (..cards..) : (<p>Loading dashboard data...</p>)}] *)
Definition render (stats : option Stats) : view :=
  match stats with
  | Some s =>
      StatCards [("Total Invoices", Number_toString (total_invoices s));
                 ("Pending Review", Number_toString (pending_review s));
                 ("Total Amount", "$" +:+ total_amount s)]
  | None => LoadingText "Loading dashboard data..."
  end.

(** A freshly mounted component. *)
Definition mounted (w : world) : ctx (option Stats) := mkCtx initial w [].

(** The first [n + 1] renders of a mounted component: one of the
    initial state, then, the effect having run, [n] of the state it
    left; nothing else ever calls [setStats]. *)
Definition renders (n : nat) (w : world)
  : list view * ctx (option Stats) :=
  let c0 := mounted w in
  let c1 := snd (mount_effect c0) in
  (render (cstate c0) :: replicate n (render (cstate c1)), c1).

End DemoDashboard.

(** ** App.js: the demo login and upload forms

    These two forms talk to the backend with [fetch], which resolves for
    every HTTP answer ([response.ok] tells the 2xx ones apart) and
    rejects with a TypeError only when there is no answer.
    [response.json()] rejects when the body is not JSON; as no JSON text
    parses to [undefined], a body of [VUndefined] stands for such an
    answer. *)

Inductive demo_event :=
| Alert (message : string)
| DemoConsoleError (label : string)
| OnLogin (token : value).

Record page (St : Type) := mkPage {
  pstate : St;
  pworld : world;
  ptrace : list demo_event }.
Arguments mkPage {St} _ _ _.
Arguments pstate {St} _.
Arguments pworld {St} _.
Arguments ptrace {St} _.

Definition liftP {St A} (m : SE world A) : SE (page St) A :=
  fun c =>
    match m (pworld c) with
    | (r, w') => (r, mkPage (pstate c) w' (ptrace c))
    end.

Definition note {St} (e : demo_event) : SE (page St) unit :=
  fun c => (Ok tt, mkPage (pstate c) (pworld c) (ptrace c ++ [e])).

Definition get_pstate {St} : SE (page St) St :=
  fun c => (Ok (pstate c), c).

Definition set_pstate {St} (f : St -> St) : SE (page St) unit :=
  fun c => (Ok tt, mkPage (f (pstate c)) (pworld c) (ptrace c)).

Definition fetch (r : http_request) : SE world http_response :=
  fun w =>
    (match backend w (length (sent w)) r with
     | Reply resp => Ok resp
     | NetworkError => Throw TypeError
     end,
     log_request r w).

(** [response.ok] *)
Definition response_ok (resp : http_response) : bool :=
  validateStatus (status resp).

(** [await response.json()] *)
Definition response_json {S} (resp : http_response) : SE S value :=
  match data resp with
  | VUndefined => throw (JsError "Unexpected end of JSON input")
  | v => ret v
  end.

Module DemoLogin.

Record state := mkState {
  email : string;
  password : string;
  loading : bool }.

(** [useState('demo@docbot.com')], [useState('password')],
    [useState(false)] *)
Definition initial : state := mkState "demo@docbot.com" "password" false.

Definition setLoading (b : bool) : SE (page state) unit :=
  set_pstate (fun s => mkState (email s) (password s) b).

Definition handleSubmit : SE (page state) unit :=
  let* st := get_pstate in
  setLoading true ;;
  try_catch
    (let* response :=
       liftP (fetch
                (mkRequest POST
                   "https://docbot-enterprise-backend.onrender.com/api/v1/auth/login"
                   (JsonBody (VObj [("email", VStr (email st));
                                    ("password", VStr (password st))]))
                   {[ "Content-Type" := "application/json" ]})) in
     if response_ok response then
       let* data := response_json response in
       let* access_token := get_prop data "access_token" in
       let* text := to_text access_token in
       liftP (localStorage_setItem "token" text) ;;
       note (OnLogin access_token)
     else
       note (Alert "Login failed. Try with demo credentials or register new account."))
    (fun error =>
       note (DemoConsoleError "Login error:") ;;
       note (Alert "Login error. Backend might be starting up.")) ;;
  setLoading false.

End DemoLogin.

Module DemoUpload.

Record state := mkState {
  file : option File;
  uploading : bool;
  result : value }.

(** [useState(null)], [useState(false)], [useState(null)] *)
Definition initial : state := mkState None false VNull.

Definition setUploading (b : bool) : SE (page state) unit :=
  set_pstate (fun s => mkState (file s) b (result s)).

Definition setResult (v : value) : SE (page state) unit :=
  set_pstate (fun s => mkState (file s) (uploading s) v).

Definition handleUpload : SE (page state) unit :=
  let* st := get_pstate in
  match file st with
  | None => ret tt
  | Some f =>
      setUploading true ;;
      let formData := [("file", f)] in
      try_catch
        (let* response :=
           liftP (fetch
                    (mkRequest POST
                       "https://docbot-enterprise-backend.onrender.com/api/v1/invoices/upload"
                       (FormDataBody formData) ∅)) in
         if response_ok response then
           let* data := response_json response in
           setResult data
         else note (Alert "Upload failed"))
        (fun error =>
           note (DemoConsoleError "Upload error:") ;;
           note (Alert "Upload error")) ;;
      setUploading false
  end.

End DemoUpload.

(** ** What goes on the wire

    The request each service method hands to axios, as a function of the
    call and of the world it is made in (the REST endpoints and the
    bearer-header convention of the frontend). *)

Definition remote_base (w : world) : string :=
  base_url_of "https://docbot-enterprise-backend.onrender.com" w.

Definition local_base (w : world) : string :=
  base_url_of "http://localhost:8000" w.

Definition stored_bearer (w : world) : string :=
  "Bearer " +:+ template_token (localStorage w !! "docbot_token").

Definition request_of (c : service_call) (w : world) : http_request :=
  match c with
  | Login e p =>
      mkRequest POST (remote_base w +:+ "/api/v1/auth/login")
        (JsonBody (VObj [("email", VStr e); ("password", VStr p)])) ∅
  | GetCurrentUser t =>
      mkRequest GET (remote_base w +:+ "/api/v1/users/me") NoBody
        (AuthService.getAuthHeaders t)
  | RefreshToken t =>
      mkRequest POST (remote_base w +:+ "/api/v1/auth/refresh")
        (JsonBody (VObj [])) (AuthService.getAuthHeaders t)
  | Register d =>
      mkRequest POST (remote_base w +:+ "/api/v1/auth/register")
        (JsonBody (RegisterData_json d)) ∅
  | ForgotPassword e =>
      mkRequest POST (remote_base w +:+ "/api/v1/auth/forgot-password")
        (JsonBody (VObj [("email", VStr e)])) ∅
  | ResetPassword t p =>
      mkRequest POST (remote_base w +:+ "/api/v1/auth/reset-password")
        (JsonBody (VObj [("token", VStr t); ("password", VStr p)])) ∅
  | UpdateProfile t d =>
      mkRequest PUT (remote_base w +:+ "/api/v1/users/me")
        (JsonBody (ProfileData_json d)) (AuthService.getAuthHeaders t)
  | ChangePassword t cur new =>
      mkRequest POST (remote_base w +:+ "/api/v1/auth/change-password")
        (JsonBody (VObj [("current_password", VStr cur);
                         ("new_password", VStr new)]))
        (AuthService.getAuthHeaders t)
  | UploadInvoice f =>
      mkRequest POST (local_base w +:+ "/api/v1/invoices/upload")
        (FormDataBody [("file", f)])
        (<["Content-Type" := "multipart/form-data"]>
           {[ "Authorization" := stored_bearer w ]})
  | GetInvoices q =>
      mkRequest GET
        (local_base w +:+ "/api/v1/invoices?"
         +:+ URLSearchParams_toString (InvoiceService.queryParams q))
        NoBody {[ "Authorization" := stored_bearer w ]}
  | GetInvoice i =>
      mkRequest GET (local_base w +:+ "/api/v1/invoices/" +:+ Number_toString i)
        NoBody {[ "Authorization" := stored_bearer w ]}
  | ApproveInvoice i =>
      mkRequest PUT
        (local_base w +:+ "/api/v1/invoices/" +:+ Number_toString i
         +:+ "/approve")
        (JsonBody (VObj [])) {[ "Authorization" := stored_bearer w ]}
  | GetStats =>
      mkRequest GET (remote_base w +:+ "/api/v1/stats/dashboard") NoBody
        (<["Content-Type" := "application/json"]>
           {[ "Authorization" := stored_bearer w ]})
  | GetRecentInvoices l =>
      mkRequest GET
        (remote_base w +:+ "/api/v1/invoices?limit="
         +:+ Number_toString (default 10 l))
        NoBody
        (<["Content-Type" := "application/json"]>
           {[ "Authorization" := stored_bearer w ]})
  end.

(** The fallback text of each method's final [throw]. *)
Definition default_message (c : service_call) : string :=
  match c with
  | Login _ _ => "Login failed"
  | GetCurrentUser _ => "Failed to get user data"
  | RefreshToken _ => "Token refresh failed"
  | Register _ => "Registration failed"
  | ForgotPassword _ => "Failed to send reset email"
  | ResetPassword _ _ => "Failed to reset password"
  | UpdateProfile _ _ => "Failed to update profile"
  | ChangePassword _ _ _ => "Failed to change password"
  | UploadInvoice _ => "Failed to upload invoice"
  | GetInvoices _ => "Failed to get invoices"
  | GetInvoice _ => "Failed to get invoice"
  | ApproveInvoice _ => "Failed to approve invoice"
  | GetStats => "Failed to get dashboard stats"
  | GetRecentInvoices _ => "Failed to get recent invoices"
  end.

(** What [throw new Error(error.response?.data?.detail || dflt)] raises
    for an error that carries the response [resp]: an Error with the text
    of a truthy detail, the TypeError of ToString when that detail has no
    text, an Error with the fallback when the detail is absent or
    falsy. *)
Definition surfaced_error (resp : http_response) (dflt : string) : exn :=
  let detail := opt_get (data resp) "detail" in
  if truthy detail
  then match ToString detail with
       | Some message => JsError message
       | None => TypeError
       end
  else JsError dflt.

(** What a service method may throw: an Error of its own, or the
    TypeError of a conversion. *)
Definition service_error (e : exn) : Prop :=
  e = TypeError \/ exists message, e = JsError message.

(** The text thrown for a 401 answer by the methods for which it does not
    depend on the body. *)
Definition fixed_401_text (c : service_call) : option string :=
  match c with
  | UploadInvoice _ | GetStats | GetRecentInvoices _ =>
      Some "Authentication required"
  | Login _ _ => Some "Invalid email or password"
  | GetCurrentUser _ => Some "Invalid or expired token"
  | Register _ => Some "Registration failed"
  | _ => None
  end.

(** The backend answers with status 401 when [r] is the [i]-th request
    it receives. *)
Definition answers_401 (w : world) (i : nat) (r : http_request) : Prop :=
  exists resp, backend w i r = Reply resp /\ status resp = 401.

(** A world whose backend answers every request with [resp]. *)
Definition world_answering (resp : http_response) : world :=
  mkWorld None (<["docbot_token" := "tok"]> ∅) (fun _ _ => Reply resp) [].

(** The entry a parameter contributes to the query. *)
Definition query_entry (k : string) (v : option string) : list (string * string) :=
  match v with
  | Some s => [(k, s)]
  | None => []
  end.

(** The numbers that pass the truthiness test. *)
Definition nonzero (x : option number) : option number :=
  match x with
  | Some y => if number_truthy y then Some y else None
  | None => None
  end.

Definition nonempty (s : option string) : option string :=
  match s with
  | Some "" => None
  | other => other
  end.

(** Logging several requests at once. *)
Definition log_requests (rs : list http_request) (w : world) : world :=
  mkWorld (REACT_APP_API_URL w) (localStorage w) (backend w) (sent w ++ rs).

(** A component computation that leaves the world as it found it. *)
Definition keeps_world {St A} (m : SE (ctx St) A) : Prop :=
  forall c, cworld (snd (m c)) = cworld c.

(** The backend answers every request with some 2xx response. *)
Definition replies_2xx (w : world) : Prop :=
  forall i r, exists resp,
    backend w i r = Reply resp /\ validateStatus (status resp) = true.

Definition is_Ok {A} (r : result A) : bool :=
  match r with
  | Ok _ => true
  | Throw _ => false
  end.

(** How the uploads of [fs], started one after the other in [w], settle. *)
Fixpoint upload_results (fs : list InvoiceUpload.UploadedFile) (w : world)
  : list (result value) :=
  match fs with
  | [] => []
  | f :: rest =>
      fst (InvoiceService.uploadInvoice (InvoiceUpload.file f) w)
      :: upload_results rest
           (snd (InvoiceService.uploadInvoice (InvoiceUpload.file f) w))
  end.

(** The revocations [files.forEach] performs after a successful upload. *)
Definition preview_revocations (fs : list InvoiceUpload.UploadedFile)
  : list ui_event :=
  omap (fun f =>
          match InvoiceUpload.preview f with
          | Some url => if truthy (VStr url) then Some (RevokeObjectURL url)
                        else None
          | None => None
          end) fs.

(** The base URL a call is sent to. *)
Definition base_of (c : service_call) (w : world) : string :=
  match c with
  | UploadInvoice _ | GetInvoices _ | GetInvoice _ | ApproveInvoice _ =>
      local_base w
  | _ => remote_base w
  end.

(** The characters a form-urlencoded component is made of. *)
Definition urlencoded_char (c : ascii) : bool :=
  urlencoded_safe c
  || N.eqb (N_of_ascii c) 43 || N.eqb (N_of_ascii c) 37.

Fixpoint string_forall (P : ascii -> bool) (s : string) : bool :=
  match s with
  | EmptyString => true
  | String c rest => P c && string_forall P rest
  end.

Fixpoint count_char (c : ascii) (s : string) : nat :=
  match s with
  | EmptyString => 0
  | String c' rest =>
      (if Ascii.eqb c c' then 1 else 0) + count_char c rest
  end%nat.

(** ** Reading a query string back

    The application/x-www-form-urlencoded parser, as a server applies it
    to what follows the '?': the text is cut at every '&' and the empty
    pieces are dropped; each piece is cut at its first '=' (without one
    the value is empty); in the name and in the value '+' is read as a
    space and '%XX' as the byte it encodes. *)
Definition hex_value (c : ascii) : option N :=
  let n := N_of_ascii c in
  if N.leb 48 n && N.leb n 57 then Some (n - 48)%N
  else if N.leb 65 n && N.leb n 70 then Some (n - 55)%N
  else if N.leb 97 n && N.leb n 102 then Some (n - 87)%N
  else None.

Fixpoint form_decode (s : string) : string :=
  match s with
  | EmptyString => ""
  | String c rest =>
      if Ascii.eqb c "+" then String " " (form_decode rest)
      else if Ascii.eqb c "%" then
        match rest with
        | String h (String l rest') =>
            match hex_value h, hex_value l with
            | Some a, Some b =>
                String (ascii_of_N (16 * a + b)) (form_decode rest')
            | _, _ => String c (form_decode rest)
            end
        | _ => String c (form_decode rest)
        end
      else String c (form_decode rest)
  end.

Fixpoint split_on (sep : ascii) (s : string) : list string :=
  match s with
  | EmptyString => [""]
  | String c rest =>
      if Ascii.eqb c sep then "" :: split_on sep rest
      else match split_on sep rest with
           | piece :: pieces => String c piece :: pieces
           | [] => [String c ""]
           end
  end.

(** The text before the first [sep] and the text after it. *)
Fixpoint cut_at (sep : ascii) (s : string) : string * string :=
  match s with
  | EmptyString => ("", "")
  | String c rest =>
      if Ascii.eqb c sep then ("", rest)
      else (String c (fst (cut_at sep rest)), snd (cut_at sep rest))
  end.

Definition parse_pair (piece : string) : list (string * string) :=
  if String.eqb piece "" then []
  else [(form_decode (fst (cut_at "=" piece)),
         form_decode (snd (cut_at "=" piece)))].

Definition parse_query (s : string) : list (string * string) :=
  flat_map parse_pair (split_on "&" s).

(** The methods that hand back the body of a 2xx answer as it is. *)
Definition returns_body (c : service_call) : bool :=
  match c with
  | ForgotPassword _ | ResetPassword _ _ | ChangePassword _ _ _
  | GetRecentInvoices _ => false
  | _ => true
  end.

(** How axios settles the request of call [c] made in world [w]. *)
Definition outcome_of (c : service_call) (w : world) : result http_response :=
  axios_outcome (backend w (length (sent w)) (request_of c w)).

(** A backend that answers the login request with a token and every
    later request with [later]. *)
Definition login_backend (later : net_reply) : nat -> http_request -> net_reply :=
  fun i _ =>
    match i with
    | O => Reply (mkResponse 200 (VObj [("access_token", VStr "jwt-1")]))
    | _ => later
    end.

(** The context [c] with the upload progress replaced by [p]. *)
Definition with_progress (p : Q) (c : ctx InvoiceUpload.state)
  : ctx InvoiceUpload.state :=
  mkCtx (InvoiceUpload.mkState (InvoiceUpload.files (cstate c))
           (InvoiceUpload.uploading (cstate c)) p)
        (cworld c) (cevents c).

(** The text of the notification after [n] successful uploads. *)
Definition success_text (n : nat) : string :=
  "Successfully uploaded " +:+ pretty n +:+ " invoice"
  +:+ (if Nat.ltb 1 n then "s" else "").

(** The revocation [removeFile] performs for an entry. *)
Definition entry_revocation (entry : InvoiceUpload.UploadedFile)
  : list ui_event :=
  match InvoiceUpload.preview entry with
  | Some url => if truthy (VStr url) then [RevokeObjectURL url] else []
  | None => []
  end.

(** [error.response?.data?.detail] of the rejection a promise settled
    with. *)
Definition error_detail_of {A} (p : result A) : value :=
  match p with
  | Ok _ => VUndefined
  | Throw e => error_detail e
  end.

(** The requests of the two demo forms. *)
Definition demo_login_request (st : DemoLogin.state) : http_request :=
  mkRequest POST
    "https://docbot-enterprise-backend.onrender.com/api/v1/auth/login"
    (JsonBody (VObj [("email", VStr (DemoLogin.email st));
                     ("password", VStr (DemoLogin.password st))]))
    {[ "Content-Type" := "application/json" ]}.

Definition demo_upload_request (f : File) : http_request :=
  mkRequest POST
    "https://docbot-enterprise-backend.onrender.com/api/v1/invoices/upload"
    (FormDataBody [("file", f)]) ∅.

(** * Properties *)

(** ** Running a service method *)

Lemma truthy_nonempty (s : string) : s <> "" -> truthy (VStr s) = true.
Proof. intros H. destruct s; [congruence | reflexivity]. Qed.

Lemma new_Error_surfaced (resp : http_response) (dflt : string) :
  new_Error (js_or (opt_get (data resp) "detail") (VStr dflt))
  = surfaced_error resp dflt.
Proof.
  unfold surfaced_error, js_or.
  destruct (opt_get (data resp) "detail") as [| |b|n|s|l|l]; cbn [truthy];
    try reflexivity.
  - destruct b; reflexivity.
  - destruct (Z.eqb n 0); reflexivity.
  - destruct (String.eqb s ""); reflexivity.
Qed.

Ltac run_service :=
  cbv beta iota zeta delta
    [invoke bind try_catch ret throw fst snd
     api_base_url localStorage_getItem get_prop
     axios axios_get axios_post axios_put
     AuthService.API_BASE_URL AuthService.login AuthService.getCurrentUser
     AuthService.refreshToken AuthService.register
     AuthService.forgotPassword AuthService.resetPassword
     AuthService.updateProfile AuthService.changePassword
     InvoiceService.API_BASE_URL InvoiceService.getAuthHeaders
     InvoiceService.uploadInvoice InvoiceService.getInvoices
     InvoiceService.getInvoice InvoiceService.approveInvoice
     DashboardService.API_BASE_URL DashboardService.getAuthHeaders
     DashboardService.getStats DashboardService.getRecentInvoices].

Lemma invoke_world (c : service_call) (w : world) :
  snd (invoke c w) = log_request (request_of c w) w.
Proof.
  destruct c; run_service;
    (destruct (axios_outcome _) as [resp|e]; repeat case_match;
     simplify_eq; reflexivity).
Qed.

Lemma status_401_rejected (resp : http_response) :
  status resp = 401 -> axios_outcome (Reply resp) = Throw (AxiosError (Some resp)).
Proof. intros Hs. unfold axios_outcome. rewrite Hs. reflexivity. Qed.

Lemma status_400_rejected (resp : http_response) :
  status resp = 400 -> axios_outcome (Reply resp) = Throw (AxiosError (Some resp)).
Proof. intros Hs. unfold axios_outcome. rewrite Hs. reflexivity. Qed.

Lemma status_2xx_resolved (resp : http_response) :
  validateStatus (status resp) = true -> axios_outcome (Reply resp) = Ok resp.
Proof. intros Hs. unfold axios_outcome. rewrite Hs. reflexivity. Qed.

(** Bring the request named by a hypothesis to the shape the unfolded
    method has, and use the hypothesis. *)
Ltac use_reply H :=
  unfold request_of, remote_base, local_base, stored_bearer in H;
  run_service; rewrite H.

(** ** Error mapping of the services *)

Ltac solve_rejected Hreply Hrej Hs :=
  use_reply Hreply; rewrite Hrej;
  cbn [error_status error_response error_detail strict_eq_num];
  rewrite ?Hs; cbn [Z.eqb Pos.eqb];
  rewrite ?new_Error_surfaced.

(** A 401 answer to one of the calls whose 401 text does not depend on
    the body. *)
Lemma invoke_answers_401 (c : service_call) (w : world) (msg : string) :
  answers_401 w (length (sent w)) (request_of c w) ->
  fixed_401_text c = Some msg ->
  invoke c w = (Throw (JsError msg), log_request (request_of c w) w).
Proof.
  intros (resp & Hreply & Hs) Hmsg.
  pose proof (status_401_rejected resp Hs) as Hrej.
  destruct c; try discriminate Hmsg; injection Hmsg as <-;
    solve_rejected Hreply Hrej Hs; reflexivity.
Qed.

(** C1 (as amended). When the backend answers a call with status 401, the
    method throws, and nothing but the logged request changes in the
    world.  It throws the Error "Authentication required" for
    uploadInvoice, getStats and getRecentInvoices, "Invalid email or
    password" for login, "Invalid or expired token" for getCurrentUser
    and "Registration failed" for register.  The methods that do not
    inspect the status throw an Error with the text of the server's
    detail when that detail is truthy, the TypeError of ToString when
    such a detail has no text, and an Error with the method's fallback
    text when the detail is absent or falsy. *)
Theorem status_401_error_messages
    (c : service_call) (w : world) (resp : http_response) :
  backend w (length (sent w)) (request_of c w) = Reply resp ->
  status resp = 401 ->
  invoke c w =
    (Throw
       match c with
       | UploadInvoice _ | GetStats | GetRecentInvoices _ =>
           JsError "Authentication required"
       | Login _ _ => JsError "Invalid email or password"
       | GetCurrentUser _ => JsError "Invalid or expired token"
       | Register _ => JsError "Registration failed"
       | _ =>
           let detail := opt_get (data resp) "detail" in
           if truthy detail
           then match ToString detail with
                | Some message => JsError message
                | None => TypeError
                end
           else JsError (default_message c)
       end,
     log_request (request_of c w) w).
Proof.
  intros Hreply Hs.
  pose proof (status_401_rejected resp Hs) as Hrej.
  destruct c; solve_rejected Hreply Hrej Hs; reflexivity.
Qed.

Lemma status_401_error_messages_witness :
  let resp := mkResponse 401 (VObj [("detail", VStr "Not authenticated")]) in
  let w := world_answering resp in
  backend w (length (sent w)) (request_of GetStats w) = Reply resp
  /\ status resp = 401
  /\ invoke GetStats w =
       (Throw (JsError "Authentication required"),
        log_request (request_of GetStats w) w).
Proof.
  split; [reflexivity | split; [reflexivity |]].
  apply (status_401_error_messages GetStats _
           (mkResponse 401 (VObj [("detail", VStr "Not authenticated")])));
    reflexivity.
Defined.

(** C1, as stated, fails: a 401 answer to login is not reported as
    "Authentication required". *)
Lemma login_401_is_not_authentication_required :
  fst (invoke (Login "demo@docbot.com" "password")
         (world_answering (mkResponse 401 VNull)))
  = Throw (JsError "Invalid email or password")
  /\ fst (invoke (Login "demo@docbot.com" "password")
            (world_answering (mkResponse 401 VNull)))
     <> Throw (JsError "Authentication required").
Proof. split; [reflexivity | discriminate]. Qed.

(** "Authentication required" is also what a non-401 answer produces when
    it carries that text as its detail. *)
Lemma authentication_required_without_401 :
  fst (invoke GetStats
         (world_answering
            (mkResponse 403 (VObj [("detail", VStr "Authentication required")]))))
  = Throw (JsError "Authentication required").
Proof. reflexivity. Qed.

(** A 401 answer whose detail is an object with an own [toString]
    property makes a method that surfaces the detail throw a TypeError;
    a detail of 10^21 is surfaced as JavaScript prints that number. *)
Example refreshToken_401_detail_without_text :
  fst (invoke (RefreshToken "tok")
         (world_answering
            (mkResponse 401 (VObj [("detail", VObj [("toString", VNum 1)])]))))
  = Throw TypeError
  /\ fst (invoke (RefreshToken "tok")
            (world_answering
               (mkResponse 401 (VObj [("detail", VNum (10 ^ 21))]))))
     = Throw (JsError "1e+21").
Proof. split; reflexivity. Qed.

(** C2 (as amended). When the backend answers a call with status 400,
    changePassword throws "Current password is incorrect" whatever the
    body says.  Every other method throws an Error whose message is the
    text of the body's detail when that detail is truthy (for a string:
    the detail itself, when not empty), the TypeError of ToString when
    such a detail has no text, and an Error with the method's fallback
    text when the detail is absent or falsy. *)
Theorem status_400_error_messages
    (c : service_call) (w : world) (resp : http_response) :
  backend w (length (sent w)) (request_of c w) = Reply resp ->
  status resp = 400 ->
  let detail := opt_get (data resp) "detail" in
  fst (invoke c w) =
    Throw
      match c with
      | ChangePassword _ _ _ => JsError "Current password is incorrect"
      | _ =>
          if truthy detail
          then match ToString detail with
               | Some message => JsError message
               | None => TypeError
               end
          else JsError (default_message c)
      end
  /\ (forall s, detail = VStr s -> s <> "" ->
       fst (invoke c w) =
         Throw (JsError match c with
                        | ChangePassword _ _ _ => "Current password is incorrect"
                        | _ => s
                        end)).
Proof.
  intros Hreply Hs detail.
  pose proof (status_400_rejected resp Hs) as Hrej.
  assert (Hrun : fst (invoke c w) =
    Throw
      match c with
      | ChangePassword _ _ _ => JsError "Current password is incorrect"
      | _ => surfaced_error resp (default_message c)
      end).
  { destruct c; solve_rejected Hreply Hrej Hs; reflexivity. }
  split.
  - rewrite Hrun. destruct c; reflexivity.
  - intros s Hd Hne. rewrite Hrun. unfold surfaced_error.
    fold detail. rewrite Hd, (truthy_nonempty s Hne).
    destruct c; reflexivity.
Qed.

Lemma status_400_error_messages_witness :
  let resp :=
    mkResponse 400 (VObj [("detail", VStr "Email already registered")]) in
  let w := world_answering resp in
  let c := Register (mkRegisterData "a@b.c" "pw" "A" "B") in
  backend w (length (sent w)) (request_of c w) = Reply resp
  /\ status resp = 400
  /\ fst (invoke c w) = Throw (JsError "Email already registered").
Proof.
  split; [reflexivity | split; [reflexivity |]].
  apply (proj1 (status_400_error_messages
                  (Register (mkRegisterData "a@b.c" "pw" "A" "B"))
                  (world_answering
                     (mkResponse 400
                        (VObj [("detail", VStr "Email already registered")])))
                  (mkResponse 400
                     (VObj [("detail", VStr "Email already registered")]))
                  eq_refl eq_refl)).
Defined.

(** C2, as stated, fails: changePassword drops the detail of a 400
    answer. *)
Lemma changePassword_400_drops_detail :
  fst (invoke (ChangePassword "tok" "old" "new")
         (world_answering
            (mkResponse 400 (VObj [("detail", VStr "New password is too short")]))))
  = Throw (JsError "Current password is incorrect")
  /\ fst (invoke (ChangePassword "tok" "old" "new")
            (world_answering
               (mkResponse 400 (VObj [("detail", VStr "New password is too short")]))))
     <> Throw (JsError "New password is too short").
Proof. split; [reflexivity | discriminate]. Qed.

(** An empty detail is falsy, so the fallback text replaces it. *)
Lemma register_400_empty_detail :
  fst (invoke (Register (mkRegisterData "a@b.c" "pw" "A" "B"))
         (world_answering (mkResponse 400 (VObj [("detail", VStr "")]))))
  = Throw (JsError "Registration failed").
Proof. reflexivity. Qed.

(** ** Requests

    C5. One invocation of a service method hands exactly one request to
    axios, whatever the backend answers: the log of requests grows by the
    request of that call and by nothing else, so nothing is retried,
    nothing is sent twice and no result is produced without a request. *)
Theorem one_request_per_invocation (c : service_call) (w : world) :
  sent (snd (invoke c w)) = sent w ++ [request_of c w]
  /\ length (sent (snd (invoke c w))) = S (length (sent w)).
Proof.
  rewrite invoke_world. cbn [log_request sent]. split; [reflexivity |].
  rewrite length_app. cbn [length]. lia.
Qed.



(** Without a stored token the header reads "Bearer null". *)
Lemma bearer_null_without_token :
  req_headers (request_of GetStats (mkWorld None ∅ (fun _ _ => NetworkError) []))
    !! "Authorization" = Some "Bearer null".
Proof. reflexivity. Qed.

(** ** dashboardService.getRecentInvoices *)

(** C9 (as amended). On a 2xx answer getRecentInvoices throws "Failed to
    get recent invoices" when the body is null or undefined; otherwise it
    returns the empty array when the invoices field is absent or falsy
    (null, false, 0 or the empty string) and exactly that field in every
    other case.  With the limit argument omitted the request is issued
    with limit=10. *)
Theorem getRecentInvoices_result
    (lim : option Z) (w : world) (resp : http_response) :
  backend w (length (sent w)) (request_of (GetRecentInvoices lim) w) = Reply resp ->
  validateStatus (status resp) = true ->
  fst (DashboardService.getRecentInvoices lim w) =
    (if nullish (data resp)
     then Throw (JsError "Failed to get recent invoices")
     else Ok match opt_get (data resp) "invoices" with
             | VUndefined | VNull | VBool false | VNum 0 | VStr "" => VArr []
             | v => v
             end)
  /\ exists r,
       sent (snd (DashboardService.getRecentInvoices None w)) = sent w ++ [r]
       /\ req_url r = remote_base w +:+ "/api/v1/invoices?limit=10".
Proof.
  intros Hreply Hok. split.
  - pose proof (status_2xx_resolved resp Hok) as Hres.
    change (DashboardService.getRecentInvoices lim)
      with (invoke (GetRecentInvoices lim)).
    use_reply Hreply. rewrite Hres.
    destruct (nullish (data resp)); [reflexivity |].
    cbn [fst]. unfold js_or.
    destruct (opt_get (data resp) "invoices") as [| |[]|[]|[]| |]; reflexivity.
  - exists (request_of (GetRecentInvoices None) w). split; [| reflexivity].
    change (DashboardService.getRecentInvoices None)
      with (invoke (GetRecentInvoices None)).
    rewrite invoke_world. reflexivity.
Qed.

Lemma getRecentInvoices_result_witness :
  let resp :=
    mkResponse 200 (VObj [("invoices", VArr [VObj [("id", VNum 7)]])]) in
  let w := world_answering resp in
  backend w (length (sent w)) (request_of (GetRecentInvoices None) w) = Reply resp
  /\ validateStatus (status resp) = true
  /\ fst (DashboardService.getRecentInvoices None w)
     = Ok (VArr [VObj [("id", VNum 7)]]).
Proof.
  split; [reflexivity | split; [reflexivity |]].
  apply (getRecentInvoices_result None
           (world_answering
              (mkResponse 200 (VObj [("invoices", VArr [VObj [("id", VNum 7)]])])))
           (mkResponse 200 (VObj [("invoices", VArr [VObj [("id", VNum 7)]])])));
    reflexivity.
Defined.

(** C9, as stated, fails: an invoices field that is present and not null,
    but falsy, is replaced by the empty array; and a field that is not an
    array is returned as it is. *)
Lemma getRecentInvoices_falsy_field :
  fst (DashboardService.getRecentInvoices None
         (world_answering (mkResponse 200 (VObj [("invoices", VBool false)]))))
  = Ok (VArr [])
  /\ Ok (VArr []) <> Ok (VBool false)
  /\ fst (DashboardService.getRecentInvoices None
            (world_answering (mkResponse 200 (VObj [("invoices", VStr "none")]))))
     = Ok (VStr "none").
Proof. split; [reflexivity | split; [discriminate | reflexivity]]. Qed.

(** ** invoiceService.getInvoices *)

Lemma queryParams_entries (params : option InvoiceService.InvoiceQuery) :
  InvoiceService.queryParams params =
    query_entry "skip"
      (Number_prototype_toString <$> nonzero (params ≫= InvoiceService.skip))
    ++ query_entry "limit"
         (Number_prototype_toString <$> nonzero (params ≫= InvoiceService.limit))
    ++ query_entry "status_filter"
         (nonempty (params ≫= InvoiceService.status_filter)).
Proof.
  unfold InvoiceService.queryParams, nonzero, URLSearchParams_append.
  destruct (params ≫= InvoiceService.skip) as [x|];
    [destruct (number_truthy x) |];
    (destruct (params ≫= InvoiceService.limit) as [y|];
     [destruct (number_truthy y) |]);
    destruct (params ≫= InvoiceService.status_filter) as [[|]|];
    reflexivity.
Qed.

Lemma elem_of_query_entry (k k' v : string) (o : option string) :
  (k', v) ∈ query_entry k o <-> k' = k /\ o = Some v.
Proof.
  destruct o as [s|]; cbn [query_entry].
  - rewrite list_elem_of_singleton. split.
    + intros [= -> ->]. done.
    + intros [-> [= ->]]. done.
  - rewrite elem_of_nil. split; [done | intros [_ [=]]].
Qed.

Lemma number_truthy_spec (x : number) :
  number_truthy x = true <-> x <> Integer 0 /\ x <> NaN.
Proof.
  destruct x as [|b|n]; cbn [number_truthy].
  - split; [discriminate | intros [_ H]; done].
  - split; [intros _; split; discriminate | done].
  - rewrite negb_true_iff, Z.eqb_neq. split.
    + intros Hn. split; [intros [= ->]; done | discriminate].
    + intros [Hn _] ->. done.
Qed.

Lemma nonzero_Some (o : option number) (x : number) :
  nonzero o = Some x <-> o = Some x /\ x <> Integer 0 /\ x <> NaN.
Proof.
  rewrite <- number_truthy_spec. unfold nonzero.
  destruct o as [y|]; [destruct (number_truthy y) eqn:Hy |]; split;
    try (intros [= <-]; done); try (intros [[=] ?]; done);
    intros [[= ->] H]; congruence.
Qed.

Lemma nonempty_Some (o : option string) (s : string) :
  nonempty o = Some s <-> o = Some s /\ s <> "".
Proof.
  destruct o as [[|]|]; cbn; split; try (intros [= <-]; done);
    try (intros [[=] ?]; subst; done); try done;
    intros [[= <-] H]; done.
Qed.

(** *** The text of a number *)

Lemma nearest_Number_pos (n d : Z) :
  0 < n -> nearest_Number n = Some d -> 0 < d.
Proof.
  unfold nearest_Number. intros Hn.
  destruct (Z.leb (Z.log2 n + 1) 53) eqn:Hbits; [intros [= <-]; exact Hn |].
  apply Z.leb_gt in Hbits. cbv zeta.
  set (shift := Z.log2 n + 1 - 53).
  set (q := Z.shiftr n shift).
  assert (Hshift : 0 <= shift) by (unfold shift; lia).
  assert (Hq : 0 < q).
  { unfold q. rewrite Z.shiftr_div_pow2 by exact Hshift.
    apply Z.div_str_pos. split; [apply Z.pow_pos_nonneg; lia |].
    transitivity (2 ^ Z.log2 n); [| apply Z.log2_spec; exact Hn].
    apply Z.pow_le_mono_r; unfold shift; lia. }
  match goal with
  | |- (if _ then Some (Z.shiftl ?x shift) else None) = _ -> _ =>
      assert (Hq' : 0 < x) by (destruct (_ || _); lia);
      revert Hq'; generalize x
  end.
  intros q' Hq'.
  destruct (Z.ltb _ _); [| discriminate]. intros [= <-].
  rewrite Z.shiftl_mul_pow2 by exact Hshift.
  apply Z.mul_pos_pos; [exact Hq' | apply Z.pow_pos_nonneg; lia].
Qed.

Lemma candidate_reads_back (d k v : Z) :
  candidate d k = Some v -> reads_back d v = true.
Proof.
  unfold candidate. cbv zeta.
  destruct (reads_back d (d / _ * _)) eqn:Hlo;
    destruct (reads_back d (d / _ * _ + _)) eqn:Hhi;
    repeat case_match; intros [= <-]; assumption.
Qed.

Lemma shortest_decimal_reads_back (fuel : nat) (d k : Z) :
  shortest_decimal fuel d k = d
  \/ reads_back d (shortest_decimal fuel d k) = true.
Proof.
  revert k. induction fuel as [|fuel IH]; intros k; [left; reflexivity |].
  cbn [shortest_decimal].
  destruct (Z.leb (decimal_digits d) k); [left; reflexivity |].
  destruct (candidate d k) as [v|] eqn:Hv; [| apply IH].
  right. exact (candidate_reads_back d k v Hv).
Qed.

Lemma append_nonempty (a b : string) (c : ascii) : a +:+ String c b <> "".
Proof. destruct a; discriminate. Qed.

Lemma exponential_not_zero (v : Z) : exponential v <> "0".
Proof.
  unfold exponential.
  destruct (pretty (strip_zeros _ v)) as [|c rest]; [discriminate |].
  intros [= _ H]. revert H. apply append_nonempty.
Qed.

Lemma positive_text_not_zero (n : Z) : 0 < n -> positive_text n <> "0".
Proof.
  intros Hn. unfold positive_text.
  destruct (nearest_Number n) as [d|] eqn:Hd; [| discriminate].
  pose proof (nearest_Number_pos n d Hn Hd) as Hpos. cbv zeta.
  destruct (Z.leb _ 21); [| apply exponential_not_zero].
  intros Hzero.
  assert (Hv : shortest_decimal 17 d 1 = 0)
    by (apply (inj (pretty : Z -> string)); exact Hzero).
  destruct (shortest_decimal_reads_back 17 d 1) as [Heq | Hback].
  - lia.
  - rewrite Hv in Hback. unfold reads_back in Hback.
    change (nearest_Number 0) with (Some 0) in Hback.
    apply Z.eqb_eq in Hback. lia.
Qed.

Lemma Number_toString_zero (n : Z) : Number_toString n = "0" -> n = 0.
Proof.
  destruct n as [|p|p]; cbn [Number_toString]; [reflexivity | |].
  - intros H. exfalso. revert H. apply positive_text_not_zero. lia.
  - discriminate.
Qed.

Lemma Number_prototype_toString_zero (x : number) :
  Number_prototype_toString x = "0" -> x = Integer 0.
Proof.
  destruct x as [|[]|n]; cbn [Number_prototype_toString]; try discriminate.
  intros H. f_equal. apply Number_toString_zero. exact H.
Qed.

(** *** Serialising a query and reading it back *)

Lemma string_forall_app P (a b : string) :
  string_forall P (a +:+ b) = string_forall P a && string_forall P b.
Proof.
  induction a as [|c a IH]; [reflexivity |].
  change (String c a +:+ b) with (String c (a +:+ b)).
  cbn [string_forall]. rewrite IH. apply andb_assoc.
Qed.

Lemma count_char_app c (a b : string) :
  count_char c (a +:+ b) = (count_char c a + count_char c b)%nat.
Proof.
  induction a as [|c' a IH]; [reflexivity |].
  change (String c' a +:+ b) with (String c' (a +:+ b)).
  cbn [count_char]. rewrite IH. lia.
Qed.

Lemma urlencode_byte_chars (c : ascii) :
  string_forall urlencoded_char (urlencode_byte c) = true.
Proof. destruct c as [[] [] [] [] [] [] [] []]; vm_compute; reflexivity. Qed.

Lemma urlencode_chars (s : string) :
  string_forall urlencoded_char (urlencode s) = true.
Proof.
  induction s as [|c s IH]; [reflexivity |].
  cbn [urlencode]. rewrite string_forall_app, urlencode_byte_chars, IH.
  reflexivity.
Qed.

Lemma count_char_excluded P c (s : string) :
  string_forall P s = true -> P c = false -> count_char c s = 0%nat.
Proof.
  intros Hs Hc. induction s as [|c' s IH]; [reflexivity |].
  cbn in *. apply andb_prop in Hs as [Hc' Hs].
  rewrite (IH Hs).
  destruct (Ascii.eqb c c') eqn:Heq; [| reflexivity].
  apply Ascii.eqb_eq in Heq. subst c'. congruence.
Qed.

Lemma string_forall_weaken (P Q : ascii -> bool) (s : string) :
  (forall c, P c = true -> Q c = true) ->
  string_forall P s = true -> string_forall Q s = true.
Proof.
  intros HPQ. induction s as [|c s IH]; [reflexivity |].
  cbn. intros H. apply andb_prop in H as [Hc Hs].
  rewrite (HPQ c Hc), (IH Hs). reflexivity.
Qed.

Lemma urlencode_without (sep : ascii) (s : string) :
  urlencoded_char sep = false ->
  string_forall (fun c => negb (Ascii.eqb c sep)) (urlencode s) = true.
Proof.
  intros Hsep.
  apply (string_forall_weaken urlencoded_char); [| apply urlencode_chars].
  intros c Hc. destruct (Ascii.eqb_spec c sep) as [-> |]; [congruence | reflexivity].
Qed.

Lemma form_decode_urlencode_byte (c : ascii) (t : string) :
  form_decode (urlencode_byte c +:+ t) = String c (form_decode t).
Proof. destruct c as [[] [] [] [] [] [] [] []]; reflexivity. Qed.

Lemma form_decode_urlencode (s : string) : form_decode (urlencode s) = s.
Proof.
  induction s as [|c s IH]; [reflexivity |].
  cbn [urlencode]. rewrite form_decode_urlencode_byte, IH. reflexivity.
Qed.

Lemma cut_at_app (sep : ascii) (a b : string) :
  string_forall (fun c => negb (Ascii.eqb c sep)) a = true ->
  cut_at sep (a +:+ String sep b) = (a, b).
Proof.
  induction a as [|c a IH]; intros Ha.
  - change ("" +:+ String sep b) with (String sep b).
    cbn [cut_at]. rewrite Ascii.eqb_refl. reflexivity.
  - change (String c a +:+ String sep b) with (String c (a +:+ String sep b)).
    cbn [string_forall] in Ha. apply andb_prop in Ha as [Hc Ha].
    cbn [cut_at]. apply negb_true_iff in Hc. rewrite Hc, (IH Ha). reflexivity.
Qed.

Lemma split_on_without (sep : ascii) (a : string) :
  string_forall (fun c => negb (Ascii.eqb c sep)) a = true ->
  split_on sep a = [a].
Proof.
  induction a as [|c a IH]; intros Ha; [reflexivity |].
  cbn [string_forall] in Ha. apply andb_prop in Ha as [Hc Ha].
  cbn [split_on]. apply negb_true_iff in Hc. rewrite Hc, (IH Ha). reflexivity.
Qed.

Lemma split_on_app (sep : ascii) (a b : string) :
  string_forall (fun c => negb (Ascii.eqb c sep)) a = true ->
  split_on sep (a +:+ String sep b) = a :: split_on sep b.
Proof.
  induction a as [|c a IH]; intros Ha.
  - change ("" +:+ String sep b) with (String sep b).
    cbn [split_on]. rewrite Ascii.eqb_refl. reflexivity.
  - change (String c a +:+ String sep b) with (String c (a +:+ String sep b)).
    cbn [string_forall] in Ha. apply andb_prop in Ha as [Hc Ha].
    cbn [split_on]. apply negb_true_iff in Hc. rewrite Hc, (IH Ha). reflexivity.
Qed.

(** One serialised parameter is read back as the parameter. *)
Lemma parse_pair_entry (k v : string) :
  string_forall (fun c => negb (Ascii.eqb c "&"))
    (urlencode k +:+ "=" +:+ urlencode v) = true
  /\ parse_pair (urlencode k +:+ "=" +:+ urlencode v) = [(k, v)].
Proof.
  split.
  - rewrite !string_forall_app.
    rewrite !(urlencode_without "&") by reflexivity. reflexivity.
  - unfold parse_pair.
    change (urlencode k +:+ "=" +:+ urlencode v)
      with (urlencode k +:+ String "=" (urlencode v)).
    rewrite (cut_at_app "=") by (apply urlencode_without; reflexivity).
    cbn [fst snd]. rewrite !form_decode_urlencode.
    destruct (urlencode k); reflexivity.
Qed.

(** Whatever the parameters, the text [toString] produces is read back
    as exactly these parameters. *)
Lemma parse_query_URLSearchParams_toString (q : list (string * string)) :
  parse_query (URLSearchParams_toString q) = q.
Proof.
  unfold parse_query, URLSearchParams_toString.
  induction q as [|[k v] rest IH]; [reflexivity |].
  destruct (parse_pair_entry k v) as (Hamp & Hpair).
  cbn [List.map String.concat fst snd].
  revert Hamp Hpair.
  generalize (urlencode k +:+ "=" +:+ urlencode v). intros entry Hamp Hpair.
  destruct rest as [|kv' rest'].
  - cbn [List.map]. rewrite (split_on_without "&" entry Hamp).
    cbn [flat_map]. rewrite Hpair. reflexivity.
  - cbn [List.map] in *.
    revert IH. generalize (String.concat "&"
      ((urlencode (fst kv') +:+ "=" +:+ urlencode (snd kv'))
       :: List.map (fun kv0 => urlencode (fst kv0) +:+ "=" +:+ urlencode (snd kv0))
            rest')).
    intros tail IH.
    change (entry +:+ "&" +:+ tail) with (entry +:+ String "&" tail).
    rewrite (split_on_app "&" entry tail Hamp).
    cbn [flat_map]. rewrite Hpair, IH. reflexivity.
Qed.

(** C10 (as amended). getInvoices appends a parameter only for a truthy
    value.  The query string of its one request, read back as a server
    reads it, holds skip and limit, under their own names and with the
    text JavaScript gives the number, exactly when they are given and are
    neither 0 nor NaN, and status_filter exactly when it is given and not
    empty, in this order and nothing else.  Hence no request of
    getInvoices carries skip=0 or limit=0. *)
Theorem getInvoices_omits_falsy_parameters
    (params : option InvoiceService.InvoiceQuery) (w : world) :
  exists query : string,
    sent (snd (InvoiceService.getInvoices params w)) =
      sent w ++ [mkRequest GET
                   (local_base w +:+ "/api/v1/invoices?" +:+ query)
                   NoBody {[ "Authorization" := stored_bearer w ]}]
    /\ parse_query query =
         query_entry "skip"
           (Number_prototype_toString <$> nonzero (params ≫= InvoiceService.skip))
         ++ query_entry "limit"
              (Number_prototype_toString <$>
                 nonzero (params ≫= InvoiceService.limit))
         ++ query_entry "status_filter"
              (nonempty (params ≫= InvoiceService.status_filter))
    /\ (forall k v, (k, v) ∈ parse_query query <->
          (k = "skip"
           /\ exists x, params ≫= InvoiceService.skip = Some x
                        /\ x <> Integer 0 /\ x <> NaN
                        /\ v = Number_prototype_toString x)
          \/ (k = "limit"
              /\ exists x, params ≫= InvoiceService.limit = Some x
                           /\ x <> Integer 0 /\ x <> NaN
                           /\ v = Number_prototype_toString x)
          \/ (k = "status_filter"
              /\ params ≫= InvoiceService.status_filter = Some v
              /\ v <> ""))
    /\ (("skip", "0") ∉ parse_query query)
    /\ (("limit", "0") ∉ parse_query query).
Proof.
  exists (URLSearchParams_toString (InvoiceService.queryParams params)).
  rewrite parse_query_URLSearchParams_toString.
  assert (Hq : forall k v, (k, v) ∈ InvoiceService.queryParams params <->
     (k = "skip"
      /\ exists x, params ≫= InvoiceService.skip = Some x
                   /\ x <> Integer 0 /\ x <> NaN
                   /\ v = Number_prototype_toString x)
     \/ (k = "limit"
         /\ exists x, params ≫= InvoiceService.limit = Some x
                      /\ x <> Integer 0 /\ x <> NaN
                      /\ v = Number_prototype_toString x)
     \/ (k = "status_filter"
         /\ params ≫= InvoiceService.status_filter = Some v
         /\ v <> "")).
  { intros k v. rewrite queryParams_entries, !elem_of_app, !elem_of_query_entry.
    rewrite nonempty_Some, !fmap_Some.
    setoid_rewrite nonzero_Some.
    split.
    - intros [[-> (x & (H1 & H2 & H3) & ->)]
             | [[-> (x & (H1 & H2 & H3) & ->)] | [-> [H1 H2]]]];
        [left | right; left | right; right]; eauto 10.
    - intros [[-> (x & H1 & H2 & H3 & ->)]
             | [[-> (x & H1 & H2 & H3 & ->)] | [-> [H1 H2]]]];
        [left | right; left | right; right]; eauto 10. }
  split; [| split; [apply queryParams_entries | split; [exact Hq | split]]].
  - change (InvoiceService.getInvoices params) with (invoke (GetInvoices params)).
    rewrite invoke_world. reflexivity.
  - rewrite Hq. intros [[_ (x & _ & Hx & _ & Hp)] | [[[=] _] | [[=] _]]].
    symmetry in Hp. apply Number_prototype_toString_zero in Hp. done.
  - rewrite Hq. intros [[[=] _] | [[_ (x & _ & Hx & _ & Hp)] | [[=] _]]].
    symmetry in Hp. apply Number_prototype_toString_zero in Hp. done.
Qed.

(** C10, as stated, fails: NaN is a number other than zero, yet it is
    falsy, so a skip or limit of NaN is left out of the query. *)
Lemma getInvoices_omits_NaN :
  req_url <$> sent (snd (InvoiceService.getInvoices
                           (Some (InvoiceService.mkQuery (Some NaN)
                                    (Some (Integer 25)) None))
                           (world_answering (mkResponse 200 (VObj [])))))
  = ["http://localhost:8000/api/v1/invoices?limit=25"]
  /\ NaN <> Integer 0
  /\ (forall v, ("skip", v) ∉ parse_query "limit=25").
Proof.
  split; [reflexivity | split; [discriminate |]].
  intros v Hin. apply list_elem_of_singleton in Hin. discriminate Hin.
Qed.

Example getInvoices_skip_zero :
  req_url <$> sent (snd (InvoiceService.getInvoices
                           (Some (InvoiceService.mkQuery (Some (Integer 0))
                                    (Some (Integer 25))
                                    (Some "needs review")))
                           (world_answering (mkResponse 200 (VObj [])))))
  = ["http://localhost:8000/api/v1/invoices?limit=25&status_filter=needs+review"]
  /\ parse_query "limit=25&status_filter=needs+review"
     = [("limit", "25"); ("status_filter", "needs review")].
Proof. split; reflexivity. Qed.

(** ** AuthContext.logout *)

(** C6. logout sets user and token to null and removes 'docbot_token'
    from localStorage; the loading flag, every other localStorage key,
    the request log and the interface trace are as before. *)
Theorem logout_effect (c : ctx AuthContext.state) :
  AuthContext.logout c =
    (Ok tt,
     mkCtx (AuthContext.mkState VNull VNull (AuthContext.loading (cstate c)))
           (mkWorld (REACT_APP_API_URL (cworld c))
                    (delete "docbot_token" (localStorage (cworld c)))
                    (backend (cworld c)) (sent (cworld c)))
           (cevents c))
  /\ forall k,
       localStorage (cworld (snd (AuthContext.logout c))) !! k =
         if decide (k = "docbot_token") then None
         else localStorage (cworld c) !! k.
Proof.
  split; [reflexivity |].
  intros k. cbn. case_decide as Hk.
  - subst k. apply lookup_delete_eq.
  - apply lookup_delete_ne. congruence.
Qed.

(** The key written by the demo login of App.js ('token') is one of the
    keys logout leaves alone. *)
Example logout_keeps_other_keys :
  let w := mkWorld None (<["token" := "abc"]> (<["docbot_token" := "abc"]> ∅))
             (fun _ _ => NetworkError) [] in
  let c := mkCtx (AuthContext.mkState (VObj [("id", VNum 1)]) (VStr "abc") false)
             w [] in
  map_to_list (localStorage (cworld (snd (AuthContext.logout c))))
  = [("token", "abc")].
Proof. reflexivity. Qed.

(** ** The demo dashboard of App.js *)

(** C8 (as amended). Whatever the world, the demo Dashboard issues no
    request and its effect stores total_invoices = 47, pending_review = 8,
    approved_invoices = 39 and total_amount = "23456.78"; the first
    render, made before the effect, shows the loading text, and every
    later render shows 47, 8 and $23456.78 (approved_invoices is stored
    but not displayed). *)
Theorem demo_dashboard_renders (n : nat) (w : world) :
  DemoDashboard.renders n w =
    (DemoDashboard.LoadingText "Loading dashboard data..."
       :: replicate n
            (DemoDashboard.StatCards
               [("Total Invoices", "47"); ("Pending Review", "8");
                ("Total Amount", "$23456.78")]),
     mkCtx (Some (DemoDashboard.mkStats 47 8 39 "23456.78")) w []).
Proof. reflexivity. Qed.

(** C8, as stated, fails at the first render: no statistic is displayed
    before the effect has run. *)
Lemma demo_dashboard_first_render :
  head (fst (DemoDashboard.renders 3
               (mkWorld None ∅ (fun _ _ => NetworkError) [])))
  = Some (DemoDashboard.LoadingText "Loading dashboard data...")
  /\ DemoDashboard.render DemoDashboard.initial
     <> DemoDashboard.StatCards
          [("Total Invoices", "47"); ("Pending Review", "8");
           ("Total Amount", "$23456.78")].
Proof. split; [reflexivity | discriminate]. Qed.

(** ** Stepping through a handler *)

Section Stepping.
Context {St A B : Type}.
Implicit Types (c : ctx St) (k : A -> SE (ctx St) B).

Lemma bind_Ok (m : SE (ctx St) A) k c a c' :
  m c = (Ok a, c') -> bind m k c = k a c'.
Proof. intros H. unfold bind. rewrite H. reflexivity. Qed.

Lemma bind_Throw (m : SE (ctx St) A) k c e c' :
  m c = (Throw e, c') -> bind m k c = (Throw e, c').
Proof. intros H. unfold bind. rewrite H. reflexivity. Qed.

Lemma try_catch_Throw (m : SE (ctx St) A) (h : exn -> SE (ctx St) A) c e c' :
  m c = (Throw e, c') -> try_catch m h c = h e c'.
Proof. intros H. unfold try_catch. rewrite H. reflexivity. Qed.

Lemma keeps_world_bind (m : SE (ctx St) A) k :
  keeps_world m -> (forall a, keeps_world (k a)) -> keeps_world (bind m k).
Proof.
  intros Hm Hk c. unfold bind. specialize (Hm c).
  destruct (m c) as [[a|e] c']; cbn [snd] in *; [| exact Hm].
  rewrite Hk. exact Hm.
Qed.

Lemma keeps_world_try_catch (m : SE (ctx St) A) (h : exn -> SE (ctx St) A) :
  keeps_world m -> (forall e, keeps_world (h e)) -> keeps_world (try_catch m h).
Proof.
  intros Hm Hh c. unfold try_catch. specialize (Hm c).
  destruct (m c) as [[a|e] c']; cbn [snd] in *; [exact Hm |].
  rewrite Hh. exact Hm.
Qed.

Lemma keeps_world_try_finally (m : SE (ctx St) A) (fin : SE (ctx St) unit) :
  keeps_world m -> keeps_world fin -> keeps_world (try_finally m fin).
Proof.
  intros Hm Hf c. unfold try_finally. specialize (Hm c).
  destruct (m c) as [r c']. specialize (Hf c').
  destruct (fin c') as [[u|e] c'']; cbn [snd] in *; congruence.
Qed.

Lemma keeps_world_ret (a : A) : keeps_world (ret a : SE (ctx St) A).
Proof. intros c. reflexivity. Qed.

Lemma keeps_world_throw (e : exn) : keeps_world (throw e : SE (ctx St) A).
Proof. intros c. reflexivity. Qed.

End Stepping.

Lemma keeps_world_emit {St} (e : ui_event) : keeps_world (emit e : SE (ctx St) unit).
Proof. intros c. reflexivity. Qed.

Lemma keeps_world_set_state {St} (f : St -> St) : keeps_world (set_state f).
Proof. intros c. reflexivity. Qed.

Create HintDb frame discriminated.
#[local] Hint Resolve keeps_world_ret keeps_world_throw keeps_world_emit
  keeps_world_set_state : frame.
#[local] Hint Extern 2 (keeps_world (bind _ _)) =>
  apply keeps_world_bind; [| intros ?] : frame.
#[local] Hint Extern 2 (keeps_world (try_catch _ _)) =>
  apply keeps_world_try_catch; [| intros ?] : frame.
#[local] Hint Extern 2 (keeps_world (try_finally _ _)) =>
  apply keeps_world_try_finally : frame.

(** ** InvoiceUpload.handleUpload *)

Lemma keeps_world_upload_completed n ps i :
  keeps_world (InvoiceUpload.upload_completed n ps i).
Proof.
  unfold InvoiceUpload.upload_completed, InvoiceUpload.setUploadProgress.
  destruct (ps !! i) as [[v|e]|]; auto with frame.
Qed.
#[local] Hint Resolve keeps_world_upload_completed : frame.

Lemma keeps_world_await_all n ps order :
  keeps_world (InvoiceUpload.await_all n ps order).
Proof. induction order as [|i rest IH]; cbn; auto with frame. Qed.

Lemma keeps_world_run_late n ps order :
  keeps_world (InvoiceUpload.run_late n ps order).
Proof. induction order as [|i rest IH]; cbn; auto with frame. Qed.

Lemma keeps_world_revoke_previews fs :
  keeps_world (InvoiceUpload.revoke_previews fs).
Proof.
  induction fs as [|f rest IH]; cbn [InvoiceUpload.revoke_previews];
    auto with frame.
  destruct (InvoiceUpload.preview f) as [url|]; [destruct (truthy (VStr url)) |];
    auto with frame.
Qed.
#[local] Hint Resolve keeps_world_await_all keeps_world_run_late
  keeps_world_revoke_previews : frame.
#[local] Hint Extern 1 (keeps_world (InvoiceUpload.setFiles _)) =>
  apply keeps_world_set_state : frame.
#[local] Hint Extern 1 (keeps_world (InvoiceUpload.setUploading _)) =>
  apply keeps_world_set_state : frame.
#[local] Hint Extern 1 (keeps_world (InvoiceUpload.setUploadProgress _)) =>
  apply keeps_world_set_state : frame.

Lemma log_requests_nil (w : world) : log_requests [] w = w.
Proof. destruct w. unfold log_requests. cbn. rewrite app_nil_r. reflexivity. Qed.

Lemma log_requests_cons r rs w :
  log_requests rs (log_request r w) = log_requests (r :: rs) w.
Proof. unfold log_requests, log_request. cbn. rewrite <- app_assoc. reflexivity. Qed.

Lemma log_request_twice r1 r2 w :
  log_request r2 (log_request r1 w) = log_requests [r1; r2] w.
Proof. unfold log_requests, log_request. cbn. rewrite <- app_assoc. reflexivity. Qed.

Lemma request_of_log_request c r w :
  request_of c (log_request r w) = request_of c w.
Proof. destruct c; reflexivity. Qed.

Lemma liftW_settle {St A} (m : SE world A) (c : ctx St) r w' :
  m (cworld c) = (r, w') ->
  liftW (settle m) c = (Ok r, mkCtx (cstate c) w' (cevents c)).
Proof. intros H. unfold liftW, settle. rewrite H. reflexivity. Qed.

Lemma liftW_run {St A} (m : SE world A) (c : ctx St) r w' :
  m (cworld c) = (r, w') ->
  liftW m c = (r, mkCtx (cstate c) w' (cevents c)).
Proof. intros H. unfold liftW. rewrite H. reflexivity. Qed.

(** Starting the uploads never throws: it records one request per file, in
    list order, and yields the pending result of each. *)
Lemma start_uploads_results fs (c : ctx InvoiceUpload.state) :
  InvoiceUpload.start_uploads fs c =
    (Ok (upload_results fs (cworld c)),
     mkCtx (cstate c)
       (log_requests
          (map (fun f => request_of (UploadInvoice (InvoiceUpload.file f)) (cworld c)) fs)
          (cworld c))
       (cevents c)).
Proof.
  revert c. induction fs as [|f rest IH]; intros [st w ev].
  - cbn. rewrite log_requests_nil. reflexivity.
  - cbn [InvoiceUpload.start_uploads upload_results cworld cstate cevents].
    pose proof (invoke_world (UploadInvoice (InvoiceUpload.file f)) w) as Hw.
    cbn [invoke] in Hw.
    destruct (InvoiceService.uploadInvoice (InvoiceUpload.file f) w)
      as [p w'] eqn:Hup.
    cbn [fst snd] in *. subst w'.
    erewrite bind_Ok; [| apply liftW_settle; exact Hup].
    rewrite (bind_Ok _ _ _ _ _ (IH _)).
    cbn [cstate cworld cevents map].
    rewrite log_requests_cons.
    rewrite (map_ext _ _
               (fun f' => request_of_log_request
                            (UploadInvoice (InvoiceUpload.file f')) _ w)).
    reflexivity.
Qed.

(** C3. With no file selected handleUpload shows the error notification
    'Please select at least one file to upload' and does nothing else:
    the file list, the uploading flag, the progress and the world are
    untouched and no request is issued.  Otherwise it issues one upload
    request per selected file, in list order, and no other request,
    whatever the backend answers and in whatever order the uploads
    complete. *)
Theorem handleUpload_requests
    (sched : list nat) (fs : list InvoiceUpload.UploadedFile)
    (up : bool) (pr : Q) (w : world) (ev : list ui_event) :
  InvoiceUpload.handleUpload sched (mkCtx (InvoiceUpload.mkState [] up pr) w ev) =
    (Ok tt,
     mkCtx (InvoiceUpload.mkState [] up pr) w
       (ev ++ [ShowNotification
                 (VStr "Please select at least one file to upload") "error"]))
  /\ sent (cworld (snd (InvoiceUpload.handleUpload sched
                          (mkCtx (InvoiceUpload.mkState fs up pr) w ev)))) =
       sent w ++ map (fun f => request_of (UploadInvoice (InvoiceUpload.file f)) w) fs
  /\ forall f, request_of (UploadInvoice (InvoiceUpload.file f)) w =
       mkRequest POST (local_base w +:+ "/api/v1/invoices/upload")
         (FormDataBody [("file", InvoiceUpload.file f)])
         (<["Content-Type" := "multipart/form-data"]>
            {[ "Authorization" := stored_bearer w ]}).
Proof.
  split; [reflexivity | split; [| reflexivity]].
  unfold InvoiceUpload.handleUpload.
  rewrite (bind_Ok _ _ _ _ _ (eq_refl : get_state _ = (Ok _, _))).
  cbn [cstate InvoiceUpload.files].
  destruct fs as [|f rest]; [cbn; rewrite app_nil_r; reflexivity |].
  change (Nat.eqb (length (f :: rest)) 0) with false. cbv iota.
  set (fs := f :: rest).
  unfold InvoiceUpload.setUploading at 1.
  rewrite (bind_Ok _ _ _ _ _ (eq_refl : set_state _ _ = (Ok _, _))).
  unfold InvoiceUpload.setUploadProgress at 1.
  rewrite (bind_Ok _ _ _ _ _ (eq_refl : set_state _ _ = (Ok _, _))).
  cbn [cstate cworld cevents].
  rewrite (bind_Ok _ _ _ _ _ (start_uploads_results fs _)).
  match goal with
  | |- context [cworld (snd (?m ?c1))] =>
      assert (Hk : keeps_world m) by auto 20 with frame
  end.
  rewrite Hk. reflexivity.
Qed.

(** * Further properties of the services *)

Lemma new_Error_VStr (s : string) : new_Error (VStr s) = JsError s.
Proof. reflexivity. Qed.

Lemma new_Error_service_error (m : value) : service_error (new_Error m).
Proof.
  unfold new_Error, service_error.
  destruct m; try destruct (ToString _); eauto.
Qed.

Lemma service_error_detail (e : exn) :
  service_error e -> error_detail e = VUndefined.
Proof. intros [-> | (m & ->)]; reflexivity. Qed.

Lemma strict_eq_num_ne (s n : Z) : s <> n -> strict_eq_num (VNum s) n = false.
Proof. intros H. cbn. apply Z.eqb_neq. exact H. Qed.

(** X1. The axios error never leaves a service method.  A method either
    returns, or throws an Error built by the method itself, or throws the
    TypeError of ToString; the last happens only when an answer outside
    2xx carries a truthy detail that has no text. *)
Theorem services_throw_only_Error (c : service_call) (w : world) :
  (exists v, fst (invoke c w) = Ok v)
  \/ (exists message, fst (invoke c w) = Throw (JsError message))
  \/ (fst (invoke c w) = Throw TypeError
      /\ exists resp,
           backend w (length (sent w)) (request_of c w) = Reply resp
           /\ validateStatus (status resp) = false
           /\ truthy (opt_get (data resp) "detail") = true
           /\ ToString (opt_get (data resp) "detail") = None).
Proof.
  destruct (backend w (length (sent w)) (request_of c w)) as [resp|] eqn:Hreply.
  - destruct (validateStatus (status resp)) eqn:Hok.
    + pose proof (status_2xx_resolved resp Hok) as Hres.
      destruct c; use_reply Hreply; rewrite Hres; eauto.
      destruct (nullish (data resp)); eauto.
    + right.
      assert (Hrej : axios_outcome (Reply resp) = Throw (AxiosError (Some resp))).
      { unfold axios_outcome. rewrite Hok. reflexivity. }
      assert (Hsurf : forall dflt,
        (exists message,
           @Throw value (surfaced_error resp dflt) = Throw (JsError message))
        \/ (@Throw value (surfaced_error resp dflt) = Throw TypeError
            /\ exists resp',
                 Reply resp = Reply resp'
                 /\ validateStatus (status resp') = false
                 /\ truthy (opt_get (data resp') "detail") = true
                 /\ ToString (opt_get (data resp') "detail") = None)).
      { intros dflt. unfold surfaced_error.
        destruct (truthy _) eqn:Ht; [destruct (ToString _) eqn:Hs |]; eauto 10. }
      destruct c; use_reply Hreply; rewrite Hrej;
        cbn [error_status error_response error_detail];
        repeat case_match; simplify_eq; cbv beta iota;
        rewrite ?new_Error_surfaced, ?new_Error_VStr;
        first [left; eexists; reflexivity | apply Hsurf].
  - right. left. destruct c; use_reply Hreply; eauto.
Qed.

Example services_throw_TypeError :
  fst (invoke GetStats
         (world_answering
            (mkResponse 500 (VObj [("detail", VArr [VObj [("toString", VNull)]])]))))
  = Throw TypeError.
Proof. reflexivity. Qed.

(** X2. When the request gets no answer at all, every method throws its
    own fallback text, and the world changes by the logged request
    only. *)
Theorem no_response_gives_fallback (c : service_call) (w : world) :
  backend w (length (sent w)) (request_of c w) = NetworkError ->
  invoke c w =
    (Throw (JsError (default_message c)), log_request (request_of c w) w).
Proof.
  intros Hreply.
  destruct c; use_reply Hreply; reflexivity.
Qed.

Lemma no_response_gives_fallback_witness :
  let w := mkWorld None ∅ (fun _ _ => NetworkError) [] in
  backend w (length (sent w)) (request_of (Login "a@b.c" "pw") w) = NetworkError
  /\ fst (invoke (Login "a@b.c" "pw") w) = Throw (JsError "Login failed").
Proof.
  split; [reflexivity |].
  rewrite (no_response_gives_fallback (Login "a@b.c" "pw")
             (mkWorld None ∅ (fun _ _ => NetworkError) []));
    reflexivity.
Defined.

(** X3. On a 2xx answer the methods that return something return the
    body of the response untouched; forgotPassword, resetPassword and
    changePassword return undefined; getRecentInvoices returns the
    invoices field of the body, or the empty array in its place. *)
Theorem success_returns_body
    (c : service_call) (w : world) (resp : http_response) :
  backend w (length (sent w)) (request_of c w) = Reply resp ->
  validateStatus (status resp) = true ->
  fst (invoke c w) =
    match c with
    | ForgotPassword _ | ResetPassword _ _ | ChangePassword _ _ _ =>
        Ok VUndefined
    | GetRecentInvoices _ =>
        if nullish (data resp)
        then Throw (JsError "Failed to get recent invoices")
        else Ok (js_or (opt_get (data resp) "invoices") (VArr []))
    | _ => Ok (data resp)
    end.
Proof.
  intros Hreply Hok.
  pose proof (status_2xx_resolved resp Hok) as Hres.
  destruct c; use_reply Hreply; rewrite Hres; try reflexivity.
  destruct (nullish (data resp)); reflexivity.
Qed.

Lemma success_returns_body_witness :
  let resp := mkResponse 201 (VObj [("invoice_id", VNum 12)]) in
  let w := world_answering resp in
  let c := UploadInvoice (mkFile "a.pdf" "application/pdf" 10) in
  backend w (length (sent w)) (request_of c w) = Reply resp
  /\ validateStatus (status resp) = true
  /\ fst (invoke c w) = Ok (VObj [("invoice_id", VNum 12)]).
Proof.
  split; [reflexivity | split; [reflexivity |]].
  apply (success_returns_body
           (UploadInvoice (mkFile "a.pdf" "application/pdf" 10))
           (world_answering (mkResponse 201 (VObj [("invoice_id", VNum 12)])))
           (mkResponse 201 (VObj [("invoice_id", VNum 12)])));
    reflexivity.
Defined.

(** X4. For an answer outside 2xx whose status is neither 400 nor 401,
    register always throws "Registration failed"; every other method
    throws an Error with the text of the body's detail when that detail
    is truthy, the TypeError of ToString when such a detail has no text,
    and an Error with its fallback text when the detail is absent or
    falsy. *)
Theorem other_status_error_messages
    (c : service_call) (w : world) (resp : http_response) :
  backend w (length (sent w)) (request_of c w) = Reply resp ->
  validateStatus (status resp) = false ->
  status resp <> 400 ->
  status resp <> 401 ->
  fst (invoke c w) =
    Throw
      match c with
      | Register _ => JsError "Registration failed"
      | _ =>
          let detail := opt_get (data resp) "detail" in
          if truthy detail
          then match ToString detail with
               | Some message => JsError message
               | None => TypeError
               end
          else JsError (default_message c)
      end.
Proof.
  intros Hreply Hbad H400 H401.
  assert (Hrej : axios_outcome (Reply resp) = Throw (AxiosError (Some resp))).
  { unfold axios_outcome. rewrite Hbad. reflexivity. }
  destruct c; use_reply Hreply; rewrite Hrej;
    cbn [error_status error_response error_detail];
    rewrite ?(strict_eq_num_ne _ _ H400), ?(strict_eq_num_ne _ _ H401);
    rewrite ?new_Error_surfaced; reflexivity.
Qed.

Lemma other_status_error_messages_witness :
  let resp := mkResponse 500 (VObj [("detail", VStr "Database unavailable")]) in
  let w := world_answering resp in
  backend w (length (sent w)) (request_of GetStats w) = Reply resp
  /\ validateStatus (status resp) = false
  /\ status resp <> 400
  /\ status resp <> 401
  /\ fst (invoke GetStats w) = Throw (JsError "Database unavailable").
Proof.
  split; [reflexivity | split; [reflexivity |]].
  split; [discriminate | split; [discriminate |]].
  apply (other_status_error_messages GetStats
           (world_answering
              (mkResponse 500 (VObj [("detail", VStr "Database unavailable")])))
           (mkResponse 500 (VObj [("detail", VStr "Database unavailable")])));
    [reflexivity | reflexivity | discriminate | discriminate].
Defined.

(** X5. No service method writes to the browser: localStorage, the
    configured base URL and the backend are the same after a call as
    before it, whether the call returns or throws. *)
Theorem services_leave_storage (c : service_call) (w : world) :
  localStorage (snd (invoke c w)) = localStorage w
  /\ REACT_APP_API_URL (snd (invoke c w)) = REACT_APP_API_URL w
  /\ backend (snd (invoke c w)) = backend w.
Proof. rewrite invoke_world. repeat split. Qed.

(** X6. login, register, forgotPassword and resetPassword pass no headers
    to axios, so their request carries no Authorization header even when
    a token is stored. *)
Theorem unauthenticated_requests_have_no_headers
    (c : service_call) (w : world) :
  authenticated c = false ->
  exists r,
    sent (snd (invoke c w)) = sent w ++ [r]
    /\ req_headers r = ∅
    /\ req_headers r !! "Authorization" = None.
Proof.
  intros Hc. exists (request_of c w). split.
  - rewrite invoke_world. reflexivity.
  - destruct c; try discriminate Hc; split; reflexivity.
Qed.

Lemma unauthenticated_requests_have_no_headers_witness :
  let w := world_answering (mkResponse 200 (VObj [])) in
  authenticated (Login "a@b.c" "pw") = false
  /\ exists r,
       sent (snd (invoke (Login "a@b.c" "pw") w)) = sent w ++ [r]
       /\ req_headers r = ∅
       /\ req_headers r !! "Authorization" = None.
Proof.
  split; [reflexivity |].
  apply (unauthenticated_requests_have_no_headers (Login "a@b.c" "pw")
           (world_answering (mkResponse 200 (VObj []))));
    reflexivity.
Defined.

(** X7. Every request goes to a path under /api/v1/ of the base URL.
    A non-empty REACT_APP_API_URL is the base of every call; without it
    (unset or empty) the invoice methods go to http://localhost:8000
    while the auth and dashboard methods go to
    https://docbot-enterprise-backend.onrender.com. *)
Theorem request_base_url (c : service_call) (w : world) :
  (exists r path,
     sent (snd (invoke c w)) = sent w ++ [r]
     /\ req_url r = base_of c w +:+ "/api/v1/" +:+ path)
  /\ base_of c w =
       match REACT_APP_API_URL w with
       | Some (String a s) => String a s
       | _ =>
           match c with
           | UploadInvoice _ | GetInvoices _ | GetInvoice _ | ApproveInvoice _ =>
               "http://localhost:8000"
           | _ => "https://docbot-enterprise-backend.onrender.com"
           end
       end.
Proof.
  split.
  - exists (request_of c w). rewrite invoke_world.
    destruct c; eexists; (split; [reflexivity |]);
      cbn [request_of req_url base_of];
      match goal with
      | |- ?b +:+ ?u = ?b +:+ "/api/v1/" +:+ ?p =>
          apply (f_equal (String.append b))
      end; cbn [String.append]; reflexivity.
  - unfold base_of, local_base, remote_base, base_url_of.
    destruct (REACT_APP_API_URL w) as [[|a s]|]; destruct c; reflexivity.
Qed.

(** * Further properties of AuthContext *)

Ltac use_outcome H :=
  unfold outcome_of, request_of, remote_base, local_base, stored_bearer in H;
  run_service; rewrite H.

Lemma invoke_rejected (c : service_call) (w : world) (e0 : exn) :
  outcome_of c w = Throw e0 ->
  exists e,
    invoke c w = (Throw e, log_request (request_of c w) w)
    /\ service_error e.
Proof.
  intros H.
  destruct c; use_outcome H; repeat case_match;
    eexists; (split; [reflexivity | apply new_Error_service_error]).
Qed.

Lemma invoke_resolved (c : service_call) (w : world) (resp : http_response) :
  outcome_of c w = Ok resp ->
  returns_body c = true ->
  invoke c w = (Ok (data resp), log_request (request_of c w) w).
Proof.
  intros H Hc.
  destruct c; try discriminate Hc; use_outcome H; reflexivity.
Qed.

Lemma try_catch_Ok {St A} (m : SE (ctx St) A) (h : exn -> SE (ctx St) A) c a c' :
  m c = (Ok a, c') -> try_catch m h c = (Ok a, c').
Proof. intros H. unfold try_catch. rewrite H. reflexivity. Qed.

Lemma initAuth_no_token st w ev :
  localStorage w !! "docbot_token" = None
  \/ localStorage w !! "docbot_token" = Some "" ->
  AuthContext.initAuth (mkCtx st w ev) =
    (Ok tt,
     mkCtx (AuthContext.mkState (AuthContext.user st) (AuthContext.token st) false)
       w ev).
Proof.
  intros H. unfold AuthContext.initAuth.
  erewrite bind_Ok; [| apply liftW_run; reflexivity].
  cbn [cworld cstate cevents]. destruct H as [-> | ->]; reflexivity.
Qed.

Lemma initAuth_resolved t st w ev resp :
  localStorage w !! "docbot_token" = Some t ->
  t <> "" ->
  outcome_of (GetCurrentUser t) w = Ok resp ->
  AuthContext.initAuth (mkCtx st w ev) =
    (Ok tt,
     mkCtx (AuthContext.mkState (data resp) (VStr t) false)
       (log_request (request_of (GetCurrentUser t) w) w) ev).
Proof.
  intros Hls Ht Hout.
  pose proof (invoke_resolved (GetCurrentUser t) w resp Hout eq_refl) as Hget.
  cbn [invoke] in Hget.
  unfold AuthContext.initAuth.
  erewrite bind_Ok; [| apply liftW_run; reflexivity].
  cbn [cworld cstate cevents]. rewrite Hls, (truthy_nonempty t Ht).
  match goal with
  | |- bind ?m _ ?c0 = _ =>
      assert (Htry : m c0 =
        (Ok tt,
         mkCtx (AuthContext.mkState (data resp) (VStr t) (AuthContext.loading st))
           (log_request (request_of (GetCurrentUser t) w) w) ev))
  end.
  { apply try_catch_Ok.
    unfold AuthContext.setToken at 1.
    erewrite bind_Ok; [| reflexivity].
    erewrite bind_Ok; [| apply liftW_run; exact Hget].
    reflexivity. }
  rewrite (bind_Ok _ _ _ _ _ Htry). reflexivity.
Qed.

Lemma initAuth_rejected t st w ev e0 :
  localStorage w !! "docbot_token" = Some t ->
  t <> "" ->
  outcome_of (GetCurrentUser t) w = Throw e0 ->
  AuthContext.initAuth (mkCtx st w ev) =
    (Ok tt,
     mkCtx (AuthContext.mkState (AuthContext.user st) VNull false)
       (set_localStorage (delete "docbot_token" (localStorage w))
          (log_request (request_of (GetCurrentUser t) w) w))
       (ev ++ [ConsoleError "Failed to validate token:"])).
Proof.
  intros Hls Ht Hout.
  destruct (invoke_rejected (GetCurrentUser t) w e0 Hout) as (m & Hget & _).
  cbn [invoke] in Hget.
  unfold AuthContext.initAuth.
  erewrite bind_Ok; [| apply liftW_run; reflexivity].
  cbn [cworld cstate cevents]. rewrite Hls, (truthy_nonempty t Ht).
  match goal with
  | |- bind ?m _ ?c0 = _ =>
      assert (Htry : m c0 =
        (Ok tt,
         mkCtx (AuthContext.mkState (AuthContext.user st) VNull
                  (AuthContext.loading st))
           (set_localStorage (delete "docbot_token" (localStorage w))
              (log_request (request_of (GetCurrentUser t) w) w))
           (ev ++ [ConsoleError "Failed to validate token:"])))
  end.
  { erewrite try_catch_Throw; cycle 1.
    { unfold AuthContext.setToken at 1.
      erewrite bind_Ok; [| reflexivity].
      apply bind_Throw. apply liftW_run. exact Hget. }
    reflexivity. }
  rewrite (bind_Ok _ _ _ _ _ Htry). reflexivity.
Qed.

(** X8. initAuth has three outcomes.  Without a stored token (or with an
    empty one) it sends nothing and only ends loading.  With a token the
    backend accepts, it keeps the token, stores the returned user and
    ends loading.  When the validation fails for any reason (a status
    outside 2xx or no answer at all) it reports to the console, removes
    the stored token, sets token to null and ends loading. *)
Theorem initAuth_outcomes (st : AuthContext.state) (w : world)
    (ev : list ui_event) :
  (localStorage w !! "docbot_token" = None
   \/ localStorage w !! "docbot_token" = Some "" ->
   AuthContext.initAuth (mkCtx st w ev) =
     (Ok tt,
      mkCtx (AuthContext.mkState (AuthContext.user st) (AuthContext.token st)
               false) w ev))
  /\ (forall t resp,
        localStorage w !! "docbot_token" = Some t -> t <> "" ->
        outcome_of (GetCurrentUser t) w = Ok resp ->
        AuthContext.initAuth (mkCtx st w ev) =
          (Ok tt,
           mkCtx (AuthContext.mkState (data resp) (VStr t) false)
             (log_request (request_of (GetCurrentUser t) w) w) ev))
  /\ (forall t e0,
        localStorage w !! "docbot_token" = Some t -> t <> "" ->
        outcome_of (GetCurrentUser t) w = Throw e0 ->
        AuthContext.initAuth (mkCtx st w ev) =
          (Ok tt,
           mkCtx (AuthContext.mkState (AuthContext.user st) VNull false)
             (set_localStorage (delete "docbot_token" (localStorage w))
                (log_request (request_of (GetCurrentUser t) w) w))
             (ev ++ [ConsoleError "Failed to validate token:"]))).
Proof.
  split; [| split].
  - apply initAuth_no_token.
  - intros t resp. apply initAuth_resolved.
  - intros t e0. apply initAuth_rejected.
Qed.

Lemma initAuth_outcomes_witness :
  let w := mkWorld None (<["docbot_token" := "tok"]> ∅)
             (fun _ _ => NetworkError) [] in
  localStorage w !! "docbot_token" = Some "tok"
  /\ "tok" <> ""
  /\ outcome_of (GetCurrentUser "tok") w = Throw (AxiosError None)
  /\ localStorage
       (cworld (snd (AuthContext.initAuth (mkCtx AuthContext.initial w []))))
       !! "docbot_token" = None.
Proof.
  split; [reflexivity | split; [discriminate | split; [reflexivity |]]].
  rewrite (proj2 (proj2 (initAuth_outcomes AuthContext.initial
             (mkWorld None (<["docbot_token" := "tok"]> ∅)
                (fun _ _ => NetworkError) []) []))
             "tok" (AxiosError None));
    [reflexivity | reflexivity | discriminate | reflexivity].
Defined.

(** X9. Started from the initial state, initAuth never throws, always
    ends with loading false, and leaves the token of the context in step
    with the stored one: either the token is null, no user is set and
    nothing usable is stored, or the token is exactly the stored,
    non-empty one. *)
Theorem initAuth_agrees_with_storage (w : world) (ev : list ui_event) :
  let c' := snd (AuthContext.initAuth (mkCtx AuthContext.initial w ev)) in
  fst (AuthContext.initAuth (mkCtx AuthContext.initial w ev)) = Ok tt
  /\ AuthContext.loading (cstate c') = false
  /\ ((AuthContext.token (cstate c') = VNull
       /\ AuthContext.user (cstate c') = VNull
       /\ (localStorage (cworld c') !! "docbot_token" = None
           \/ localStorage (cworld c') !! "docbot_token" = Some ""))
      \/ (exists t, AuthContext.token (cstate c') = VStr t /\ t <> ""
                    /\ localStorage (cworld c') !! "docbot_token" = Some t)).
Proof.
  cbv zeta.
  destruct (localStorage w !! "docbot_token") as [t|] eqn:Hls.
  - destruct (decide (t = "")) as [-> | Ht].
    + rewrite (initAuth_no_token _ w ev (or_intror Hls)). cbn.
      split; [reflexivity | split; [reflexivity |]]. left. auto.
    + destruct (outcome_of (GetCurrentUser t) w) as [resp|e0] eqn:Hout.
      * rewrite (initAuth_resolved t _ w ev resp Hls Ht Hout). cbn.
        split; [reflexivity | split; [reflexivity |]]. right. eauto.
      * rewrite (initAuth_rejected t _ w ev e0 Hls Ht Hout). cbn.
        split; [reflexivity | split; [reflexivity |]]. left.
        rewrite lookup_delete_eq. auto.
  - rewrite (initAuth_no_token _ w ev (or_introl Hls)). cbn.
    split; [reflexivity | split; [reflexivity |]]. left. auto.
Qed.

(** The first steps of login when the login call resolves with a body:
    the token of the context is set before anything else. *)
Lemma login_prefix email password st w ev resp
    (k : value -> SE (ctx AuthContext.state) unit) :
  outcome_of (Login email password) w = Ok resp ->
  nullish (data resp) = false ->
  bind (liftW (AuthService.login email password))
    (fun response =>
       let* access_token := get_prop response "access_token" in
       AuthContext.setToken access_token ;;
       k access_token)
    (mkCtx st w ev)
  = k (opt_get (data resp) "access_token")
      (mkCtx (AuthContext.mkState (AuthContext.user st)
                (opt_get (data resp) "access_token")
                (AuthContext.loading st))
         (log_request (request_of (Login email password) w) w) ev).
Proof.
  intros Hout Hbody.
  pose proof (invoke_resolved (Login email password) w resp Hout eq_refl)
    as Hlogin.
  cbn [invoke] in Hlogin.
  erewrite bind_Ok; [| apply liftW_run; exact Hlogin].
  unfold get_prop. rewrite Hbody.
  erewrite bind_Ok; [| reflexivity].
  unfold AuthContext.setToken.
  erewrite bind_Ok; [| reflexivity].
  reflexivity.
Qed.

Lemma login_resolved email password st w ev resp tok :
  outcome_of (Login email password) w = Ok resp ->
  nullish (data resp) = false ->
  ToString (opt_get (data resp) "access_token") = Some tok ->
  AuthContext.login email password (mkCtx st w ev) =
    match AuthService.getCurrentUser tok
            (set_localStorage (<["docbot_token" := tok]> (localStorage w))
               (log_request (request_of (Login email password) w) w))
    with
    | (Ok u, w2) =>
        (Ok tt,
         mkCtx (AuthContext.mkState u (opt_get (data resp) "access_token")
                  (AuthContext.loading st)) w2 ev)
    | (Throw e, w2) =>
        (Throw e,
         mkCtx (AuthContext.mkState (AuthContext.user st)
                  (opt_get (data resp) "access_token")
                  (AuthContext.loading st)) w2 ev)
    end.
Proof.
  intros Hout Hbody Htext.
  set (tokv := opt_get (data resp) "access_token") in *.
  set (w1 := set_localStorage _ _).
  unfold AuthContext.login.
  destruct (AuthService.getCurrentUser tok w1) as [[u|e] w2] eqn:Hget.
  - apply try_catch_Ok. rewrite (login_prefix _ _ _ _ _ resp _ Hout Hbody).
    fold tokv. unfold to_text. rewrite Htext.
    erewrite bind_Ok; [| reflexivity].
    erewrite bind_Ok; [| apply liftW_run; reflexivity].
    erewrite bind_Ok; [| apply liftW_run; exact Hget]. reflexivity.
  - erewrite try_catch_Throw; [reflexivity |].
    rewrite (login_prefix _ _ _ _ _ resp _ Hout Hbody).
    fold tokv. unfold to_text. rewrite Htext.
    erewrite bind_Ok; [| reflexivity].
    erewrite bind_Ok; [| apply liftW_run; reflexivity].
    apply bind_Throw. apply liftW_run. exact Hget.
Qed.

Lemma login_without_text email password st w ev resp :
  outcome_of (Login email password) w = Ok resp ->
  nullish (data resp) = false ->
  ToString (opt_get (data resp) "access_token") = None ->
  AuthContext.login email password (mkCtx st w ev) =
    (Throw TypeError,
     mkCtx (AuthContext.mkState (AuthContext.user st)
              (opt_get (data resp) "access_token") (AuthContext.loading st))
       (log_request (request_of (Login email password) w) w) ev).
Proof.
  intros Hout Hbody Htext.
  unfold AuthContext.login.
  erewrite try_catch_Throw; [reflexivity |].
  rewrite (login_prefix _ _ _ _ _ resp _ Hout Hbody).
  apply bind_Throw. unfold to_text. rewrite Htext. reflexivity.
Qed.

Lemma login_rejected email password st w ev e0 :
  outcome_of (Login email password) w = Throw e0 ->
  exists e,
    AuthContext.login email password (mkCtx st w ev) =
      (Throw e,
       mkCtx st (log_request (request_of (Login email password) w) w) ev)
    /\ service_error e.
Proof.
  intros Hout.
  destruct (invoke_rejected (Login email password) w e0 Hout)
    as (e & Hlogin & He).
  cbn [invoke] in Hlogin. exists e. split; [| exact He].
  unfold AuthContext.login.
  erewrite try_catch_Throw; [reflexivity |].
  apply bind_Throw. apply liftW_run. exact Hlogin.
Qed.

Lemma login_null_body email password st w ev resp :
  outcome_of (Login email password) w = Ok resp ->
  nullish (data resp) = true ->
  AuthContext.login email password (mkCtx st w ev) =
    (Throw TypeError,
     mkCtx st (log_request (request_of (Login email password) w) w) ev).
Proof.
  intros Hout Hbody.
  pose proof (invoke_resolved (Login email password) w resp Hout eq_refl)
    as Hlogin.
  cbn [invoke] in Hlogin.
  unfold AuthContext.login.
  erewrite try_catch_Throw; [reflexivity |].
  erewrite bind_Ok; [| apply liftW_run; exact Hlogin].
  apply bind_Throw. unfold get_prop. rewrite Hbody. reflexivity.
Qed.

(** X10. When the login call resolves with a body whose access_token has
    a text and the user fetch made with it resolves too, login sets the
    token, stores its text under 'docbot_token', then sets the user to
    the body of the second answer; it issues exactly these two requests,
    the second one with the text of the new token as bearer, and leaves
    loading alone. *)
Theorem login_success email password st w ev resp1 resp2 tok :
  let tokv := opt_get (data resp1) "access_token" in
  let w1 :=
    set_localStorage (<["docbot_token" := tok]> (localStorage w))
      (log_request (request_of (Login email password) w) w) in
  outcome_of (Login email password) w = Ok resp1 ->
  nullish (data resp1) = false ->
  ToString tokv = Some tok ->
  outcome_of (GetCurrentUser tok) w1 = Ok resp2 ->
  AuthContext.login email password (mkCtx st w ev) =
    (Ok tt,
     mkCtx (AuthContext.mkState (data resp2) tokv (AuthContext.loading st))
       (mkWorld (REACT_APP_API_URL w)
          (<["docbot_token" := tok]> (localStorage w))
          (backend w)
          (sent w ++ [request_of (Login email password) w;
                      request_of (GetCurrentUser tok) w]))
       ev)
  /\ req_headers (request_of (GetCurrentUser tok) w)
       !! "Authorization" = Some ("Bearer " +:+ tok).
Proof.
  intros tokv w1 H1 Hbody Htext H2. split.
  - rewrite (login_resolved _ _ st w ev resp1 tok H1 Hbody Htext). fold w1.
    pose proof (invoke_resolved (GetCurrentUser tok) w1 resp2 H2 eq_refl)
      as Hget.
    cbn [invoke] in Hget. rewrite Hget.
    unfold w1, log_request, set_localStorage. cbn.
    rewrite <- app_assoc. reflexivity.
  - cbn [request_of req_headers]. unfold AuthService.getAuthHeaders.
    rewrite (lookup_insert_ne (M:=gmap string)) by discriminate.
    apply lookup_singleton_eq.
Qed.

Lemma login_success_witness :
  let user := VObj [("id", VNum 1); ("email", VStr "a@b.c")] in
  let w := mkWorld None ∅ (login_backend (Reply (mkResponse 200 user))) [] in
  let c' := snd (AuthContext.login "a@b.c" "pw" (mkCtx AuthContext.initial w [])) in
  AuthContext.token (cstate c') = VStr "jwt-1"
  /\ AuthContext.user (cstate c') = user
  /\ localStorage (cworld c') !! "docbot_token" = Some "jwt-1"
  /\ length (sent (cworld c')) = 2%nat.
Proof.
  cbv zeta.
  rewrite (proj1 (login_success "a@b.c" "pw" AuthContext.initial
             (mkWorld None ∅
                (login_backend
                   (Reply (mkResponse 200
                             (VObj [("id", VNum 1); ("email", VStr "a@b.c")]))))
                [])
             []
             (mkResponse 200 (VObj [("access_token", VStr "jwt-1")]))
             (mkResponse 200 (VObj [("id", VNum 1); ("email", VStr "a@b.c")]))
             "jwt-1" eq_refl eq_refl eq_refl eq_refl)).
  repeat split; reflexivity.
Defined.

(** X11. login stores the token before it fetches the user: when the
    login call resolves with a token that has a text but the user fetch
    is rejected, login throws what the service throws, yet the context
    already holds the new token and localStorage already holds its text;
    the user is unchanged. *)
Theorem login_keeps_token_when_user_fetch_fails
    email password st w ev resp1 e0 tok :
  let tokv := opt_get (data resp1) "access_token" in
  let w1 :=
    set_localStorage (<["docbot_token" := tok]> (localStorage w))
      (log_request (request_of (Login email password) w) w) in
  outcome_of (Login email password) w = Ok resp1 ->
  nullish (data resp1) = false ->
  ToString tokv = Some tok ->
  outcome_of (GetCurrentUser tok) w1 = Throw e0 ->
  exists e,
    AuthContext.login email password (mkCtx st w ev) =
      (Throw e,
       mkCtx (AuthContext.mkState (AuthContext.user st) tokv
                (AuthContext.loading st))
         (log_request (request_of (GetCurrentUser tok) w1) w1) ev)
    /\ (e = TypeError \/ exists message, e = JsError message)
    /\ localStorage (log_request (request_of (GetCurrentUser tok) w1) w1)
         !! "docbot_token" = Some tok.
Proof.
  intros tokv w1 H1 Hbody Htext H2.
  destruct (invoke_rejected (GetCurrentUser tok) w1 e0 H2) as (e & Hget & He).
  cbn [invoke] in Hget.
  exists e. split; [| split; [exact He |]].
  - rewrite (login_resolved _ _ st w ev resp1 tok H1 Hbody Htext). fold w1.
    rewrite Hget. reflexivity.
  - cbn. apply lookup_insert_eq.
Qed.

Lemma login_keeps_token_when_user_fetch_fails_witness :
  let w := mkWorld None ∅ (login_backend NetworkError) [] in
  let r := AuthContext.login "a@b.c" "pw" (mkCtx AuthContext.initial w []) in
  fst r = Throw (JsError "Failed to get user data")
  /\ AuthContext.token (cstate (snd r)) = VStr "jwt-1"
  /\ AuthContext.user (cstate (snd r)) = VNull
  /\ localStorage (cworld (snd r)) !! "docbot_token" = Some "jwt-1".
Proof.
  cbv zeta.
  destruct (login_keeps_token_when_user_fetch_fails "a@b.c" "pw"
              AuthContext.initial
              (mkWorld None ∅ (login_backend NetworkError) []) []
              (mkResponse 200 (VObj [("access_token", VStr "jwt-1")]))
              (AxiosError None) "jwt-1" eq_refl eq_refl eq_refl eq_refl)
    as (e & Hrun & He & Hls).
  repeat split; reflexivity.
Defined.

(** X12. When the login call itself is rejected, login rethrows what the
    service throws and changes nothing: user, token, loading and
    localStorage are as before and no second request is made.  A 2xx
    answer whose body is null or undefined fails in the same way, with
    the TypeError of reading access_token.  When the body holds an
    access_token that has no text, the token of the context is set to it
    before localStorage.setItem raises its TypeError: nothing is stored
    and no second request is made. *)
Theorem login_failure_changes_nothing email password st w ev :
  (forall e0,
     outcome_of (Login email password) w = Throw e0 ->
     exists e,
       AuthContext.login email password (mkCtx st w ev) =
         (Throw e,
          mkCtx st (log_request (request_of (Login email password) w) w) ev)
       /\ (e = TypeError \/ exists message, e = JsError message))
  /\ (forall resp,
        outcome_of (Login email password) w = Ok resp ->
        nullish (data resp) = true ->
        AuthContext.login email password (mkCtx st w ev) =
          (Throw TypeError,
           mkCtx st (log_request (request_of (Login email password) w) w) ev))
  /\ (forall resp,
        outcome_of (Login email password) w = Ok resp ->
        nullish (data resp) = false ->
        ToString (opt_get (data resp) "access_token") = None ->
        AuthContext.login email password (mkCtx st w ev) =
          (Throw TypeError,
           mkCtx (AuthContext.mkState (AuthContext.user st)
                    (opt_get (data resp) "access_token")
                    (AuthContext.loading st))
             (log_request (request_of (Login email password) w) w) ev)).
Proof.
  split; [| split].
  - intros e0. apply login_rejected.
  - intros resp. apply login_null_body.
  - intros resp. apply login_without_text.
Qed.

Lemma login_failure_changes_nothing_witness :
  let w := world_answering (mkResponse 503 VNull) in
  outcome_of (Login "a@b.c" "pw") w
    = Throw (AxiosError (Some (mkResponse 503 VNull)))
  /\ AuthContext.login "a@b.c" "pw" (mkCtx AuthContext.initial w []) =
       (Throw (JsError "Login failed"),
        mkCtx AuthContext.initial
          (log_request (request_of (Login "a@b.c" "pw") w) w) []).
Proof.
  split; [reflexivity |].
  destruct (proj1 (login_failure_changes_nothing "a@b.c" "pw"
                     AuthContext.initial
                     (world_answering (mkResponse 503 VNull)) [])
              (AxiosError (Some (mkResponse 503 VNull))) eq_refl)
    as (e & Hrun & He).
  reflexivity.
Defined.

Example login_token_without_text :
  let w := world_answering
             (mkResponse 200
                (VObj [("access_token", VObj [("toString", VNum 1)])])) in
  let r := AuthContext.login "a@b.c" "pw" (mkCtx AuthContext.initial w []) in
  fst r = Throw TypeError
  /\ AuthContext.token (cstate (snd r)) = VObj [("toString", VNum 1)]
  /\ localStorage (cworld (snd r)) = localStorage w
  /\ length (sent (cworld (snd r))) = 1%nat.
Proof. repeat split; reflexivity. Qed.

(** X13. logout is idempotent, and after it initAuth has nothing to
    validate: it sends no request and leaves user and token null. *)
Theorem logout_then_initAuth (c : ctx AuthContext.state) :
  snd (AuthContext.logout (snd (AuthContext.logout c)))
    = snd (AuthContext.logout c)
  /\ AuthContext.initAuth (snd (AuthContext.logout c)) =
       (Ok tt,
        mkCtx (AuthContext.mkState VNull VNull false)
          (cworld (snd (AuthContext.logout c))) (cevents c)).
Proof.
  split.
  - cbn. rewrite delete_delete_eq. reflexivity.
  - destruct c as [st w ev].
    change (snd (AuthContext.logout (mkCtx st w ev)))
      with (mkCtx (AuthContext.mkState VNull VNull (AuthContext.loading st))
              (set_localStorage (delete "docbot_token" (localStorage w)) w) ev).
    apply initAuth_no_token. left. cbn. apply lookup_delete_eq.
Qed.

(** X14. A session survives a reload: after a successful login with a
    token that has a non-empty text, a fresh AuthProvider whose
    validation request is accepted ends with the stored text as its token
    and the returned body as its user. *)
Theorem reload_restores_session email password st w ev resp1 resp2 resp3 tok :
  let w1 :=
    set_localStorage (<["docbot_token" := tok]> (localStorage w))
      (log_request (request_of (Login email password) w) w) in
  let w2 := cworld (snd (AuthContext.login email password (mkCtx st w ev))) in
  outcome_of (Login email password) w = Ok resp1 ->
  nullish (data resp1) = false ->
  ToString (opt_get (data resp1) "access_token") = Some tok ->
  tok <> "" ->
  outcome_of (GetCurrentUser tok) w1 = Ok resp2 ->
  outcome_of (GetCurrentUser tok) w2 = Ok resp3 ->
  AuthContext.initAuth (mkCtx AuthContext.initial w2 []) =
    (Ok tt,
     mkCtx (AuthContext.mkState (data resp3) (VStr tok) false)
       (log_request (request_of (GetCurrentUser tok) w2) w2) []).
Proof.
  intros w1 w2 H1 Hbody Htext Htok H2 H3.
  apply initAuth_resolved; [| exact Htok | exact H3].
  unfold w2. rewrite (login_resolved _ _ st w ev resp1 tok H1 Hbody Htext).
  fold w1.
  pose proof (invoke_resolved (GetCurrentUser tok) w1 resp2 H2 eq_refl) as Hget.
  cbn [invoke] in Hget. rewrite Hget. cbn. apply lookup_insert_eq.
Qed.

Lemma reload_restores_session_witness :
  let user := VObj [("id", VNum 1)] in
  let w := mkWorld None ∅ (login_backend (Reply (mkResponse 200 user))) [] in
  let w2 := cworld (snd (AuthContext.login "a@b.c" "pw"
                           (mkCtx AuthContext.initial w []))) in
  cstate (snd (AuthContext.initAuth (mkCtx AuthContext.initial w2 [])))
  = AuthContext.mkState user (VStr "jwt-1") false.
Proof.
  cbv zeta.
  rewrite (reload_restores_session "a@b.c" "pw" AuthContext.initial
             (mkWorld None ∅
                (login_backend (Reply (mkResponse 200 (VObj [("id", VNum 1)]))))
                [])
             []
             (mkResponse 200 (VObj [("access_token", VStr "jwt-1")]))
             (mkResponse 200 (VObj [("id", VNum 1)]))
             (mkResponse 200 (VObj [("id", VNum 1)])) "jwt-1");
    [reflexivity | reflexivity | reflexivity | reflexivity | discriminate
     | reflexivity | reflexivity].
Defined.

(** * Further properties of the Dashboard page *)

Lemma fetchDashboardData_run b st w ev :
  DashboardPage.fetchDashboardData b (mkCtx st w ev) =
    (Ok tt,
     match fst (DashboardService.getStats w),
           fst (DashboardService.getRecentInvoices None
                  (snd (DashboardService.getStats w))) with
     | Ok statsData, Ok invoicesData =>
         mkCtx (DashboardPage.mkState statsData invoicesData false)
           (snd (DashboardService.getRecentInvoices None
                   (snd (DashboardService.getStats w))))
           ev
     | _, _ =>
         mkCtx (DashboardPage.mkState (DashboardPage.stats st)
                  (DashboardPage.recentInvoices st) false)
           (snd (DashboardService.getRecentInvoices None
                   (snd (DashboardService.getStats w))))
           (ev ++ [ConsoleError "Failed to fetch dashboard data:";
                   ShowNotification (VStr "Failed to load dashboard data")
                     "error"])
     end).
Proof.
  unfold DashboardPage.fetchDashboardData, try_finally, try_catch, bind,
    liftW, settle.
  cbn [cworld cstate cevents].
  destruct (DashboardService.getStats w) as [r1 w1].
  cbn [cworld cstate cevents fst snd].
  destruct (DashboardService.getRecentInvoices None w1) as [r2 w2].
  destruct r1 as [a|e1], r2 as [r|e2], b; cbn;
    rewrite <- ?app_assoc; reflexivity.
Qed.

(** X15. The Dashboard page loads all or nothing.  fetchDashboardData
    never throws, always issues the stats request and then the
    recent-invoices request, and always ends loading.  Only when both
    calls return are stats and recentInvoices replaced, silently; when
    either throws, both keep their previous values, even if the other
    call returned, and one error notification is shown. *)
Theorem dashboard_loads_all_or_nothing
    (b : bool) (st : DashboardPage.state) (w : world) (ev : list ui_event) :
  let p1 := DashboardService.getStats w in
  let p2 := DashboardService.getRecentInvoices None (snd p1) in
  let c' := snd (DashboardPage.fetchDashboardData b (mkCtx st w ev)) in
  fst (DashboardPage.fetchDashboardData b (mkCtx st w ev)) = Ok tt
  /\ DashboardPage.loading (cstate c') = false
  /\ sent (cworld c') =
       sent w ++ [request_of GetStats w; request_of (GetRecentInvoices None) w]
  /\ match fst p1, fst p2 with
     | Ok statsData, Ok invoicesData =>
         DashboardPage.stats (cstate c') = statsData
         /\ DashboardPage.recentInvoices (cstate c') = invoicesData
         /\ cevents c' = ev
     | _, _ =>
         DashboardPage.stats (cstate c') = DashboardPage.stats st
         /\ DashboardPage.recentInvoices (cstate c')
            = DashboardPage.recentInvoices st
         /\ cevents c' =
              ev ++ [ConsoleError "Failed to fetch dashboard data:";
                     ShowNotification (VStr "Failed to load dashboard data")
                       "error"]
     end.
Proof.
  cbv zeta. rewrite fetchDashboardData_run. cbn [fst snd].
  assert (Hsent :
    sent (snd (DashboardService.getRecentInvoices None
                 (snd (DashboardService.getStats w))))
    = sent w ++ [request_of GetStats w; request_of (GetRecentInvoices None) w]).
  { change (DashboardService.getStats w) with (invoke GetStats w).
    change (DashboardService.getRecentInvoices None)
      with (invoke (GetRecentInvoices None)).
    rewrite !invoke_world, request_of_log_request. cbn.
    rewrite <- app_assoc. reflexivity. }
  destruct (fst (DashboardService.getStats w)) as [a|e1];
    destruct (fst (DashboardService.getRecentInvoices None
                     (snd (DashboardService.getStats w)))) as [r|e2];
    cbn [cstate cworld cevents DashboardPage.loading DashboardPage.stats
         DashboardPage.recentInvoices];
    repeat split; exact Hsent.
Qed.

(** X16. Before the fetch has ended the page shows the spinner instead of
    the cards.  When the fetch fails on a freshly mounted page, the four
    cards are shown with 0, 0, 0 and "0%". *)
Theorem dashboard_cards_after_failure (b : bool) (w : world) (ev : list ui_event) :
  let p1 := DashboardService.getStats w in
  let p2 := DashboardService.getRecentInvoices None (snd p1) in
  is_Ok (fst p1) && is_Ok (fst p2) = false ->
  DashboardPage.visible_cards DashboardPage.initial = Ok None
  /\ DashboardPage.visible_cards
       (cstate (snd (DashboardPage.fetchDashboardData b
                       (mkCtx DashboardPage.initial w ev))))
     = Ok (Some [("Total Invoices", VNum 0); ("Pending Review", VNum 0);
                 ("Approved", VNum 0); ("Accuracy Rate", VStr "0%")]).
Proof.
  cbv zeta. intros Hfail. split; [reflexivity |].
  rewrite fetchDashboardData_run. cbn [snd].
  destruct (fst (DashboardService.getStats w)) as [a|e1];
    destruct (fst (DashboardService.getRecentInvoices None
                     (snd (DashboardService.getStats w)))) as [r|e2];
    try discriminate Hfail; reflexivity.
Qed.

Lemma dashboard_cards_after_failure_witness :
  let w := world_answering (mkResponse 500 VNull) in
  is_Ok (fst (DashboardService.getStats w))
  && is_Ok (fst (DashboardService.getRecentInvoices None
                   (snd (DashboardService.getStats w)))) = false
  /\ DashboardPage.visible_cards
       (cstate (snd (DashboardPage.fetchDashboardData true
                       (mkCtx DashboardPage.initial w []))))
     = Ok (Some [("Total Invoices", VNum 0); ("Pending Review", VNum 0);
                 ("Approved", VNum 0); ("Accuracy Rate", VStr "0%")]).
Proof.
  split; [reflexivity |].
  apply (dashboard_cards_after_failure true
           (world_answering (mkResponse 500 VNull)) []).
  reflexivity.
Defined.

(** * Further properties of the InvoiceUpload page *)

(** X17. removeFile at a position that holds an entry takes exactly that
    entry out: the list is one shorter, the entries before keep their
    place and the entries after move up by one; the preview of the
    removed entry, if it has one, is revoked; nothing else changes. *)
Theorem removeFile_in_range
    (i : nat) (entry : InvoiceUpload.UploadedFile)
    (fs : list InvoiceUpload.UploadedFile) (up : bool) (pr : Q)
    (w : world) (ev : list ui_event) :
  fs !! i = Some entry ->
  InvoiceUpload.removeFile (Z.of_nat i)
    (mkCtx (InvoiceUpload.mkState fs up pr) w ev) =
    (Ok tt,
     mkCtx (InvoiceUpload.mkState (take i fs ++ drop (S i) fs) up pr) w
       (ev ++ entry_revocation entry))
  /\ S (length (take i fs ++ drop (S i) fs)) = length fs
  /\ forall j,
       (take i fs ++ drop (S i) fs) !! j =
         if decide (j < i)%nat then fs !! j else fs !! S j.
Proof.
  intros Hi. rewrite <- delete_take_drop. split; [| split].
  - unfold InvoiceUpload.removeFile.
    erewrite bind_Ok; [| reflexivity].
    cbn [InvoiceUpload.files].
    assert (Hneg : Z.ltb (Z.of_nat i) 0 = false) by (apply Z.ltb_ge; lia).
    rewrite Hneg, Nat2Z.id. cbv iota. cbn [InvoiceUpload.files cstate].
    rewrite Hi. unfold entry_revocation.
    destruct (InvoiceUpload.preview entry) as [url|];
      [destruct (truthy (VStr url)) |];
      cbn; rewrite ?app_nil_r; reflexivity.
  - rewrite length_delete by eauto.
    apply lookup_lt_Some in Hi. lia.
  - intros j. case_decide.
    + apply list_lookup_delete_lt. assumption.
    + apply list_lookup_delete_ge. lia.
Qed.

Lemma removeFile_in_range_witness :
  let a := InvoiceUpload.mkUploaded (mkFile "a.pdf" "application/pdf" 10) None in
  let b := InvoiceUpload.mkUploaded (mkFile "b.png" "image/png" 20)
             (Some "blob:b") in
  let w := world_answering (mkResponse 200 VNull) in
  [a; b; a] !! 1%nat = Some b
  /\ InvoiceUpload.removeFile 1
       (mkCtx (InvoiceUpload.mkState [a; b; a] false 0) w []) =
       (Ok tt,
        mkCtx (InvoiceUpload.mkState [a; a] false 0) w
          [RevokeObjectURL "blob:b"]).
Proof.
  split; [reflexivity |].
  apply (proj1 (removeFile_in_range 1
           (InvoiceUpload.mkUploaded (mkFile "b.png" "image/png" 20)
              (Some "blob:b"))
           [InvoiceUpload.mkUploaded (mkFile "a.pdf" "application/pdf" 10) None;
            InvoiceUpload.mkUploaded (mkFile "b.png" "image/png" 20)
              (Some "blob:b");
            InvoiceUpload.mkUploaded (mkFile "a.pdf" "application/pdf" 10) None]
           false 0 (world_answering (mkResponse 200 VNull)) [] eq_refl)).
Defined.

(** X18. removeFile at a negative position, or at one past the end of the
    list, returns normally like any other call.  The updater it queued
    raises a TypeError when React runs it, before anything is revoked or
    taken out: the selection, the flags and the world stay as they
    were. *)
Theorem removeFile_out_of_range
    (index : Z) (c : ctx InvoiceUpload.state) :
  index < 0 \/ Z.of_nat (length (InvoiceUpload.files (cstate c))) <= index ->
  InvoiceUpload.removeFile index c =
    (Ok tt, mkCtx (cstate c) (cworld c) (cevents c ++ [RenderError TypeError])).
Proof.
  intros Hrange. unfold InvoiceUpload.removeFile.
  erewrite bind_Ok; [| reflexivity].
  destruct (Z.ltb index 0) eqn:Hneg; [reflexivity |].
  apply Z.ltb_ge in Hneg.
  rewrite lookup_ge_None_2 by lia. reflexivity.
Qed.

Lemma removeFile_out_of_range_witness :
  let c := mkCtx (InvoiceUpload.mkState
                    [InvoiceUpload.mkUploaded
                       (mkFile "a.png" "image/png" 10) (Some "blob:a")]
                    false 0)
             (world_answering (mkResponse 200 VNull)) [] in
  (1 < 0 \/ Z.of_nat (length (InvoiceUpload.files (cstate c))) <= 1)
  /\ InvoiceUpload.removeFile 1 c =
       (Ok tt, mkCtx (cstate c) (cworld c) [RenderError TypeError]).
Proof.
  cbv zeta. split; [right; cbn; lia |].
  apply removeFile_out_of_range. right. cbn. lia.
Defined.

(** X19. Dropping one file and removing the entry it was given undoes the
    drop: the selection, the flags and the world are as before, and the
    preview URL created for an image is revoked again. *)
Theorem onDrop_then_removeFile
    (createObjectURL : File -> string) (f : File)
    (c : ctx InvoiceUpload.state) :
  let c1 := snd (InvoiceUpload.onDrop createObjectURL [f] c) in
  InvoiceUpload.removeFile
    (Z.of_nat (length (InvoiceUpload.files (cstate c)))) c1 =
    (Ok tt,
     mkCtx (cstate c) (cworld c)
       (cevents c ++
          if String.prefix "image/" (file_type f)
             && truthy (VStr (createObjectURL f))
          then [RevokeObjectURL (createObjectURL f)] else [])).
Proof.
  destruct c as [[fs up pr] w ev]. cbv zeta.
  cbn [InvoiceUpload.onDrop set_state snd cstate cworld cevents
       InvoiceUpload.files InvoiceUpload.uploading InvoiceUpload.uploadProgress
       map].
  set (entry := if String.prefix "image/" (file_type f)
                then InvoiceUpload.mkUploaded f (Some (createObjectURL f))
                else InvoiceUpload.mkUploaded f None).
  assert (Hi : (fs ++ [entry]) !! length fs = Some entry)
    by apply list_lookup_middle, eq_refl.
  unfold InvoiceUpload.removeFile.
  erewrite bind_Ok; [| reflexivity].
  cbn [InvoiceUpload.files cstate].
  assert (Hneg : Z.ltb (Z.of_nat (length fs)) 0 = false)
    by (apply Z.ltb_ge; lia).
  rewrite Hneg, Nat2Z.id. cbv iota. cbn [InvoiceUpload.files cstate].
  rewrite Hi.
  assert (Hdel : delete (length fs) (fs ++ [entry]) = fs)
    by (rewrite delete_middle; apply app_nil_r).
  subst entry.
  destruct (String.prefix "image/" (file_type f));
    cbn [InvoiceUpload.preview andb];
    [destruct (truthy (VStr (createObjectURL f))) |];
    cbn; rewrite Hdel, ?app_nil_r; reflexivity.
Qed.

Lemma replies_2xx_log_request r w : replies_2xx w -> replies_2xx (log_request r w).
Proof. intros H i q. exact (H i q). Qed.

Lemma upload_results_length fs w : length (upload_results fs w) = length fs.
Proof.
  revert w. induction fs as [|f rest IH]; intros w; [reflexivity |].
  cbn. rewrite IH. reflexivity.
Qed.

(** Every upload settles as a value or as an [Error] of the service. *)
Lemma upload_results_settled fs w :
  Forall (fun p => is_Ok p = true \/ error_detail_of p = VUndefined)
    (upload_results fs w).
Proof.
  revert w. induction fs as [|f rest IH]; intros w; [constructor |].
  cbn [upload_results]. constructor; [| apply IH].
  change (InvoiceService.uploadInvoice (InvoiceUpload.file f))
    with (invoke (UploadInvoice (InvoiceUpload.file f))).
  destruct (outcome_of (UploadInvoice (InvoiceUpload.file f)) w)
    as [resp|e0] eqn:Hout.
  - rewrite (invoke_resolved _ w resp Hout eq_refl). left. reflexivity.
  - destruct (invoke_rejected _ w e0 Hout) as (e & -> & He). right.
    exact (service_error_detail e He).
Qed.

Lemma upload_results_2xx fs w :
  replies_2xx w -> forallb is_Ok (upload_results fs w) = true.
Proof.
  revert w. induction fs as [|f rest IH]; intros w Hw; [reflexivity |].
  cbn [upload_results forallb].
  change (InvoiceService.uploadInvoice (InvoiceUpload.file f))
    with (invoke (UploadInvoice (InvoiceUpload.file f))).
  destruct (Hw (length (sent w))
              (request_of (UploadInvoice (InvoiceUpload.file f)) w))
    as (resp & Hreply & Hok).
  assert (Hout : outcome_of (UploadInvoice (InvoiceUpload.file f)) w = Ok resp).
  { unfold outcome_of. rewrite Hreply. apply status_2xx_resolved. exact Hok. }
  rewrite (invoke_resolved _ w resp Hout eq_refl). cbn [fst snd is_Ok andb].
  apply IH. apply replies_2xx_log_request. exact Hw.
Qed.

Lemma with_progress_id (c : ctx InvoiceUpload.state) :
  with_progress (InvoiceUpload.uploadProgress (cstate c)) c = c.
Proof. destruct c as [[fs up pr] w ev]. reflexivity. Qed.

Lemma with_progress_twice p q (c : ctx InvoiceUpload.state) :
  with_progress p (with_progress q c) = with_progress p c.
Proof. reflexivity. Qed.

Lemma upload_completed_Ok n ps i v (c : ctx InvoiceUpload.state) :
  ps !! i = Some (Ok v) ->
  InvoiceUpload.upload_completed n ps i c =
    (Ok v, with_progress (InvoiceUpload.progress_of i n) c).
Proof. intros H. unfold InvoiceUpload.upload_completed. rewrite H. reflexivity. Qed.

Lemma upload_completed_Throw n ps i e (c : ctx InvoiceUpload.state) :
  ps !! i = Some (Throw e) ->
  InvoiceUpload.upload_completed n ps i c = (Throw e, c).
Proof. intros H. unfold InvoiceUpload.upload_completed. rewrite H. reflexivity. Qed.

(** Awaiting the uploads either sees them all succeed or stops at a
    rejected one; on the way only the progress moves. *)
Lemma await_all_cases n ps order (c : ctx InvoiceUpload.state) :
  Forall (fun i => (i < length ps)%nat) order ->
  (Forall (fun i => exists v, ps !! i = Some (Ok v)) order
   /\ InvoiceUpload.late_completions ps order = []
   /\ exists p, InvoiceUpload.await_all n ps order c = (Ok tt, with_progress p c))
  \/ (exists i e p,
        i ∈ order /\ ps !! i = Some (Throw e)
        /\ InvoiceUpload.await_all n ps order c = (Throw e, with_progress p c)).
Proof.
  intros Hrange. revert c.
  induction Hrange as [|i rest Hi Hrest IH]; intros c.
  - left. split; [constructor | split; [reflexivity |]].
    exists (InvoiceUpload.uploadProgress (cstate c)).
    rewrite with_progress_id. reflexivity.
  - apply lookup_lt_is_Some_2 in Hi as [[v|e] Hp].
    + destruct (IH (with_progress (InvoiceUpload.progress_of i n) c))
        as [(Hall & Hlate & p & Hrun) | (j & e & p & Hj & Hpj & Hrun)].
      * left. split; [constructor; eauto | split].
        { cbn [InvoiceUpload.late_completions]. rewrite Hp. exact Hlate. }
        exists p. cbn [InvoiceUpload.await_all].
        rewrite (bind_Ok _ _ _ _ _ (upload_completed_Ok n ps i v c Hp)).
        exact Hrun.
      * right. exists j, e, p. split; [right; exact Hj | split; [exact Hpj |]].
        cbn [InvoiceUpload.await_all].
        rewrite (bind_Ok _ _ _ _ _ (upload_completed_Ok n ps i v c Hp)).
        exact Hrun.
    + right. exists i, e, (InvoiceUpload.uploadProgress (cstate c)).
      split; [left | split; [exact Hp |]].
      cbn [InvoiceUpload.await_all]. rewrite with_progress_id.
      exact (bind_Throw _ _ _ _ _ (upload_completed_Throw n ps i e c Hp)).
Qed.

Lemma run_late_progress n ps order (c : ctx InvoiceUpload.state) :
  exists p, InvoiceUpload.run_late n ps order c = (Ok tt, with_progress p c).
Proof.
  revert c. induction order as [|i rest IH]; intros c.
  - exists (InvoiceUpload.uploadProgress (cstate c)).
    rewrite with_progress_id. reflexivity.
  - cbn [InvoiceUpload.run_late].
    assert (Hstep : exists q,
      try_catch (InvoiceUpload.upload_completed n ps i ;; ret tt)
        (fun _ => ret tt) c = (Ok tt, with_progress q c)).
    { destruct (ps !! i) as [[v|e]|] eqn:Hp.
      - exists (InvoiceUpload.progress_of i n). apply try_catch_Ok.
        rewrite (bind_Ok _ _ _ _ _ (upload_completed_Ok n ps i v c Hp)).
        reflexivity.
      - exists (InvoiceUpload.uploadProgress (cstate c)).
        rewrite with_progress_id.
        rewrite (try_catch_Throw _ _ _ _ _
                   (bind_Throw _ _ _ _ _ (upload_completed_Throw n ps i e c Hp))).
        reflexivity.
      - exists (InvoiceUpload.uploadProgress (cstate c)).
        rewrite with_progress_id.
        erewrite try_catch_Throw; [reflexivity |].
        apply bind_Throw. unfold InvoiceUpload.upload_completed.
        rewrite Hp. reflexivity. }
    destruct Hstep as (q & Hstep).
    rewrite (bind_Ok _ _ _ _ _ Hstep).
    destruct (IH (with_progress q c)) as (p & Hrun).
    exists p. rewrite Hrun. reflexivity.
Qed.

Lemma revoke_previews_run fs (c : ctx InvoiceUpload.state) :
  InvoiceUpload.revoke_previews fs c =
    (Ok tt, mkCtx (cstate c) (cworld c) (cevents c ++ preview_revocations fs)).
Proof.
  revert c. induction fs as [|f rest IH]; intros [st w ev].
  - cbn. rewrite app_nil_r. reflexivity.
  - cbn [InvoiceUpload.revoke_previews preview_revocations omap list_omap].
    fold (@omap list _ _ _
            (fun f => match InvoiceUpload.preview f with
                      | Some url => if truthy (VStr url)
                                    then Some (RevokeObjectURL url) else None
                      | None => None
                      end) rest).
    destruct (InvoiceUpload.preview f) as [url|];
      [destruct (truthy (VStr url)) |];
      (erewrite bind_Ok; [| reflexivity]); rewrite IH;
      cbn [cstate cworld cevents]; rewrite <- ?app_assoc; reflexivity.
Qed.

Lemma completion_order_range n sched :
  Forall (fun i => (i < n)%nat) (InvoiceUpload.completion_order n sched).
Proof.
  unfold InvoiceUpload.completion_order. apply Forall_app. split.
  - apply Forall_forall. intros i Hi.
    apply elem_of_remove_dups, list_elem_of_filter in Hi. tauto.
  - apply Forall_forall. intros i Hi.
    apply list_elem_of_difference in Hi as [Hi _].
    apply elem_of_seq in Hi. lia.
Qed.

Lemma completion_order_complete n sched i :
  (i < n)%nat -> i ∈ InvoiceUpload.completion_order n sched.
Proof.
  intros Hi. unfold InvoiceUpload.completion_order.
  set (chosen := remove_dups _).
  apply elem_of_app.
  destruct (decide (i ∈ chosen)) as [Hin | Hout]; [left; exact Hin | right].
  apply list_elem_of_difference. split; [| exact Hout].
  apply elem_of_seq. lia.
Qed.

Lemma forallb_is_Ok_true (ps : list (result value)) :
  (forall j, (j < length ps)%nat -> exists v, ps !! j = Some (Ok v)) ->
  forallb is_Ok ps = true.
Proof.
  intros H. apply Is_true_true, forallb_True, Forall_lookup.
  intros j x Hj.
  destruct (H j (lookup_lt_Some _ _ _ Hj)) as (v & Hv).
  rewrite Hv in Hj. injection Hj as <-. exact I.
Qed.

Lemma forallb_is_Ok_false (ps : list (result value)) i e :
  ps !! i = Some (Throw e) -> forallb is_Ok ps = false.
Proof.
  intros Hi. destruct (forallb is_Ok ps) eqn:Hall; [| reflexivity].
  apply Is_true_true, forallb_True in Hall.
  pose proof (Forall_lookup_1 _ _ _ _ Hall Hi) as Hbad. destruct Hbad.
Qed.

(** How handleUpload ends when at least one file is selected. *)
Lemma handleUpload_outcome sched f fs up pr w ev :
  exists p,
    InvoiceUpload.handleUpload sched
      (mkCtx (InvoiceUpload.mkState (f :: fs) up pr) w ev) =
      (Ok tt,
       if forallb is_Ok (upload_results (f :: fs) w)
       then
         mkCtx (InvoiceUpload.mkState [] false 0)
           (log_requests
              (map (fun g => request_of (UploadInvoice (InvoiceUpload.file g)) w)
                 (f :: fs)) w)
           (ev ++ ShowNotification (VStr (success_text (length (f :: fs))))
                    "success"
                  :: preview_revocations (f :: fs) ++ [NavigateTo "/invoices"])
       else
         mkCtx (InvoiceUpload.mkState (f :: fs) false p)
           (log_requests
              (map (fun g => request_of (UploadInvoice (InvoiceUpload.file g)) w)
                 (f :: fs)) w)
           (ev ++ [ConsoleError "Upload failed:";
                   ShowNotification (VStr "Failed to upload invoices") "error"])).
Proof.
  set (files := f :: fs).
  set (ps := upload_results files w).
  set (w' := log_requests _ w).
  set (n := length files).
  set (order := InvoiceUpload.completion_order n sched).
  set (c1 := mkCtx (InvoiceUpload.mkState files true 0) w' ev).
  assert (Hlen : length ps = n) by apply upload_results_length.
  assert (Hrange : Forall (fun i => (i < length ps)%nat) order).
  { rewrite Hlen. apply completion_order_range. }
  unfold InvoiceUpload.handleUpload.
  rewrite (bind_Ok _ _ _ _ _ (eq_refl : get_state _ = (Ok _, _))).
  cbn [cstate InvoiceUpload.files].
  change (Nat.eqb (length files) 0) with false. cbv iota.
  unfold InvoiceUpload.setUploading at 1.
  rewrite (bind_Ok _ _ _ _ _ (eq_refl : set_state _ _ = (Ok _, _))).
  unfold InvoiceUpload.setUploadProgress at 1.
  rewrite (bind_Ok _ _ _ _ _ (eq_refl : set_state _ _ = (Ok _, _))).
  cbn [cstate cworld cevents InvoiceUpload.files InvoiceUpload.uploading
       InvoiceUpload.uploadProgress].
  rewrite (bind_Ok _ _ _ _ _ (start_uploads_results files _)).
  cbn [cstate cworld cevents].
  fold ps. fold w'. fold n. fold order. fold c1.
  destruct (await_all_cases n ps order c1 Hrange)
    as [(Hall & Hlate & p & Hrun) | (i & e & p & Hi & Hpi & Hrun)].
  - (* every upload succeeded *)
    assert (Hok : forallb is_Ok ps = true).
    { apply forallb_is_Ok_true. intros j Hj.
      rewrite Forall_forall in Hall. apply Hall.
      apply completion_order_complete. lia. }
    exists 0%Q. rewrite Hok, Hlate.
    match goal with
    | |- bind ?m _ ?c0 = _ =>
        assert (Htry : m c0 =
          (Ok tt,
           mkCtx (InvoiceUpload.mkState [] false 0) w'
             (ev ++ ShowNotification (VStr (success_text n)) "success"
                    :: preview_revocations files ++ [NavigateTo "/invoices"])))
    end.
    { unfold try_finally.
      erewrite try_catch_Ok; cycle 1.
      { rewrite (bind_Ok _ _ _ _ _ Hrun).
        erewrite bind_Ok; [| reflexivity].
        rewrite (bind_Ok _ _ _ _ _ (revoke_previews_run files _)).
        unfold InvoiceUpload.setFiles.
        erewrite bind_Ok; [| reflexivity].
        reflexivity. }
      unfold with_progress, c1, success_text. cbn.
      rewrite <- !app_assoc. reflexivity. }
    rewrite (bind_Ok _ _ _ _ _ Htry). reflexivity.
  - (* some upload was rejected *)
    assert (Hbad : forallb is_Ok ps = false)
      by exact (forallb_is_Ok_false ps i e Hpi).
    assert (He : error_detail e = VUndefined).
    { pose proof (Forall_lookup_1 _ _ _ _ (upload_results_settled files w) Hpi)
        as [Hcontra | Hdetail]; [discriminate Hcontra | exact Hdetail]. }
    set (c2 := mkCtx (InvoiceUpload.mkState files false 0) w'
                 (ev ++ [ConsoleError "Upload failed:";
                         ShowNotification (VStr "Failed to upload invoices")
                           "error"])).
    destruct (run_late_progress n ps (InvoiceUpload.late_completions ps order) c2)
      as (p' & Hlate).
    exists p'. rewrite Hbad.
    match goal with
    | |- bind ?m _ ?c0 = _ => assert (Htry : m c0 = (Ok tt, c2))
    end.
    { unfold try_finally.
      rewrite (try_catch_Throw _ _ _ _ _ (bind_Throw _ _ _ _ _ Hrun)).
      rewrite He. unfold c2, c1, with_progress. cbn.
      rewrite <- app_assoc. reflexivity. }
    rewrite (bind_Ok _ _ _ _ _ Htry). rewrite Hlate. reflexivity.
Qed.

(** X20. With files selected, handleUpload never throws and never leaves
    the page in the uploading state, whatever the backend answers and in
    whatever order the uploads complete.  If every upload returned, the
    selection is emptied and the trace is the success notification, the
    revocation of the previews and the navigation to /invoices.  If any
    upload threw, the selection is kept, nothing is navigated, and the
    notification reads 'Failed to upload invoices': the message of the
    service's Error is not shown. *)
Theorem handleUpload_succeeds_or_reports
    (sched : list nat) (f : InvoiceUpload.UploadedFile)
    (fs : list InvoiceUpload.UploadedFile) (up : bool) (pr : Q)
    (w : world) (ev : list ui_event) :
  let r := InvoiceUpload.handleUpload sched
             (mkCtx (InvoiceUpload.mkState (f :: fs) up pr) w ev) in
  let all_ok := forallb is_Ok (upload_results (f :: fs) w) in
  fst r = Ok tt
  /\ InvoiceUpload.uploading (cstate (snd r)) = false
  /\ InvoiceUpload.files (cstate (snd r)) = (if all_ok then [] else f :: fs)
  /\ cevents (snd r) =
       ev ++ (if all_ok
              then ShowNotification (VStr (success_text (length (f :: fs))))
                     "success"
                   :: preview_revocations (f :: fs) ++ [NavigateTo "/invoices"]
              else [ConsoleError "Upload failed:";
                    ShowNotification (VStr "Failed to upload invoices") "error"]).
Proof.
  cbv zeta.
  destruct (handleUpload_outcome sched f fs up pr w ev) as (p & ->).
  destruct (forallb is_Ok (upload_results (f :: fs) w)); repeat split.
Qed.

(** X21. Against a backend that accepts every upload, handleUpload ends
    with an empty selection, uploading false and progress 0, after one
    request per file; it announces the number of uploaded invoices (with
    a plural 's' for more than one), revokes the previews and navigates
    to /invoices. *)
Theorem handleUpload_all_accepted
    (sched : list nat) (f : InvoiceUpload.UploadedFile)
    (fs : list InvoiceUpload.UploadedFile) (up : bool) (pr : Q)
    (w : world) (ev : list ui_event) :
  replies_2xx w ->
  InvoiceUpload.handleUpload sched
    (mkCtx (InvoiceUpload.mkState (f :: fs) up pr) w ev) =
    (Ok tt,
     mkCtx (InvoiceUpload.mkState [] false 0)
       (log_requests
          (map (fun g => request_of (UploadInvoice (InvoiceUpload.file g)) w)
             (f :: fs)) w)
       (ev ++ ShowNotification
                (VStr ("Successfully uploaded " +:+ pretty (length (f :: fs))
                       +:+ " invoice" +:+ (if fs is [] then "" else "s")))
                "success"
              :: preview_revocations (f :: fs) ++ [NavigateTo "/invoices"])).
Proof.
  intros Hw.
  destruct (handleUpload_outcome sched f fs up pr w ev) as (p & ->).
  rewrite (upload_results_2xx (f :: fs) w Hw).
  unfold success_text. destruct fs; reflexivity.
Qed.

Lemma handleUpload_all_accepted_witness :
  let a := InvoiceUpload.mkUploaded (mkFile "a.png" "image/png" 10)
             (Some "blob:a") in
  let w := world_answering (mkResponse 200 (VObj [("invoice_id", VNum 1)])) in
  replies_2xx w
  /\ cevents (snd (InvoiceUpload.handleUpload []
                     (mkCtx (InvoiceUpload.mkState [a] false 0) w [])))
     = [ShowNotification (VStr "Successfully uploaded 1 invoice") "success";
        RevokeObjectURL "blob:a"; NavigateTo "/invoices"].
Proof.
  assert (H : replies_2xx
                (world_answering (mkResponse 200 (VObj [("invoice_id", VNum 1)])))).
  { intros i r. eexists. split; reflexivity. }
  split; [exact H |].
  rewrite (handleUpload_all_accepted []
             (InvoiceUpload.mkUploaded (mkFile "a.png" "image/png" 10)
                (Some "blob:a")) [] false 0 _ [] H).
  reflexivity.
Defined.

(** * Further properties of the demo forms of App.js *)

Ltac run_demo :=
  cbv beta iota zeta delta
    [DemoLogin.handleSubmit DemoLogin.setLoading
     DemoUpload.handleUpload DemoUpload.setUploading DemoUpload.setResult
     bind try_catch ret throw get_pstate set_pstate liftP note fetch
     response_ok response_json get_prop to_text localStorage_setItem
     pstate pworld ptrace fst snd
     DemoLogin.email DemoLogin.password DemoLogin.loading
     DemoUpload.file DemoUpload.uploading DemoUpload.result
     demo_login_request demo_upload_request].

(** X22. The demo login never throws, always ends with loading false and
    issues exactly one request, without Authorization.  On a 2xx answer
    with a JSON body other than null whose access_token has a text, it
    stores that text under the key 'token' and calls onLogin; on an
    answer outside 2xx it alerts 'Login failed...'; without an answer,
    with a body that is not JSON or is null, or with an access_token
    that has no text (localStorage.setItem raises), it alerts 'Login
    error...'.  Only a successful login writes to localStorage, and only
    the key 'token'. *)
Theorem demo_login_outcomes
    (st : DemoLogin.state) (w : world) (tr : list demo_event) :
  let r := DemoLogin.handleSubmit (mkPage st w tr) in
  let w' := pworld (snd r) in
  fst r = Ok tt
  /\ pstate (snd r)
     = DemoLogin.mkState (DemoLogin.email st) (DemoLogin.password st) false
  /\ sent w' = sent w ++ [demo_login_request st]
  /\ req_headers (demo_login_request st) !! "Authorization" = None
  /\ match backend w (length (sent w)) (demo_login_request st) with
     | Reply resp =>
         if validateStatus (status resp) then
           if nullish (data resp) then
             localStorage w' = localStorage w
             /\ ptrace (snd r) =
                  tr ++ [DemoConsoleError "Login error:";
                         Alert "Login error. Backend might be starting up."]
           else
             match ToString (opt_get (data resp) "access_token") with
             | Some text =>
                 localStorage w' = <["token" := text]> (localStorage w)
                 /\ ptrace (snd r) =
                      tr ++ [OnLogin (opt_get (data resp) "access_token")]
             | None =>
                 localStorage w' = localStorage w
                 /\ ptrace (snd r) =
                      tr ++ [DemoConsoleError "Login error:";
                             Alert "Login error. Backend might be starting up."]
             end
         else
           localStorage w' = localStorage w
           /\ ptrace (snd r) =
                tr ++ [Alert "Login failed. Try with demo credentials or register new account."]
     | NetworkError =>
         localStorage w' = localStorage w
         /\ ptrace (snd r) =
              tr ++ [DemoConsoleError "Login error:";
                     Alert "Login error. Backend might be starting up."]
     end.
Proof.
  cbv zeta. run_demo.
  destruct (backend w (length (sent w)) _) as [resp|].
  - destruct (validateStatus (status resp)).
    + destruct (data resp) as [| |b|n|s|l|l];
        cbn [nullish opt_get ToString];
        try destruct (ToString (assoc "access_token" l));
        cbn [log_request set_localStorage localStorage sent];
        rewrite <- ?app_assoc; repeat split.
    + cbn [log_request localStorage sent];
        rewrite <- ?app_assoc; repeat split.
  - cbn [log_request localStorage sent]; rewrite <- ?app_assoc; repeat split.
Qed.

Example demo_login_token_without_text :
  let w := world_answering
             (mkResponse 200
                (VObj [("access_token", VObj [("toString", VNum 1)])])) in
  let r := DemoLogin.handleSubmit (mkPage DemoLogin.initial w []) in
  ptrace (snd r) = [DemoConsoleError "Login error:";
                    Alert "Login error. Backend might be starting up."]
  /\ localStorage (pworld (snd r)) = localStorage w.
Proof. split; reflexivity. Qed.

Lemma request_of_same_token (c : service_call) (w1 w2 : world) :
  REACT_APP_API_URL w1 = REACT_APP_API_URL w2 ->
  localStorage w1 !! "docbot_token" = localStorage w2 !! "docbot_token" ->
  request_of c w1 = request_of c w2.
Proof.
  intros Henv Htok.
  destruct c; unfold request_of, remote_base, local_base, base_url_of,
    stored_bearer; rewrite Henv, ?Htok; reflexivity.
Qed.

(** X23. The token the demo login stores is not the one the services
    send: whatever the backend answers to the demo login, every service
    method issues afterwards exactly the request it would have issued
    before, with the same Authorization header. *)
Theorem demo_login_token_is_unused
    (st : DemoLogin.state) (w : world) (tr : list demo_event)
    (c : service_call) :
  request_of c (pworld (snd (DemoLogin.handleSubmit (mkPage st w tr))))
  = request_of c w.
Proof.
  apply request_of_same_token; run_demo;
    (destruct (backend w (length (sent w)) _) as [resp|];
     [destruct (validateStatus (status resp));
      [destruct (data resp) as [| |b|n|s|l|l];
       cbn [nullish opt_get ToString];
       try destruct (ToString (assoc "access_token" l)) |] |]);
    cbn [log_request set_localStorage localStorage REACT_APP_API_URL];
    try reflexivity;
    apply (lookup_insert_ne (M:=gmap string)); discriminate.
Qed.

(** X24. The demo upload does nothing at all without a selected file: no
    request, no alert, no state change.  With a file it never throws,
    ends with uploading false, leaves localStorage alone and issues one
    POST that carries the file and no header, hence no Authorization
    even when a token is stored.  A 2xx answer with a JSON body becomes
    the result; another answer alerts 'Upload failed'; no answer, or a
    body that is not JSON, alerts 'Upload error'. *)
Theorem demo_upload_outcomes
    (st : DemoUpload.state) (w : world) (tr : list demo_event) :
  let r := DemoUpload.handleUpload (mkPage st w tr) in
  match DemoUpload.file st with
  | None => r = (Ok tt, mkPage st w tr)
  | Some f =>
      fst r = Ok tt
      /\ DemoUpload.uploading (pstate (snd r)) = false
      /\ DemoUpload.file (pstate (snd r)) = Some f
      /\ pworld (snd r) = log_request (demo_upload_request f) w
      /\ req_headers (demo_upload_request f) = ∅
      /\ match backend w (length (sent w)) (demo_upload_request f) with
         | Reply resp =>
             if validateStatus (status resp) then
               match data resp with
               | VUndefined =>
                   DemoUpload.result (pstate (snd r)) = DemoUpload.result st
                   /\ ptrace (snd r) =
                        tr ++ [DemoConsoleError "Upload error:";
                               Alert "Upload error"]
               | body =>
                   DemoUpload.result (pstate (snd r)) = body
                   /\ ptrace (snd r) = tr
               end
             else
               DemoUpload.result (pstate (snd r)) = DemoUpload.result st
               /\ ptrace (snd r) = tr ++ [Alert "Upload failed"]
         | NetworkError =>
             DemoUpload.result (pstate (snd r)) = DemoUpload.result st
             /\ ptrace (snd r) =
                  tr ++ [DemoConsoleError "Upload error:"; Alert "Upload error"]
         end
  end.
Proof.
  cbv zeta. destruct st as [[f|] up res]; run_demo; [| reflexivity].
  destruct (backend w (length (sent w)) _) as [resp|].
  - destruct (validateStatus (status resp)).
    + destruct (data resp) as [| |b|n|s|l|l];
        rewrite <- ?app_assoc; repeat split.
    + rewrite <- ?app_assoc; repeat split.
  - rewrite <- ?app_assoc; repeat split.
Qed.

(** * The query string of getInvoices *)

(** The serialised form of any list of parameters. *)
Lemma URLSearchParams_toString_shape (q : list (string * string)) :
  string_forall (fun c => urlencoded_char c || Ascii.eqb c "=" || Ascii.eqb c "&")
    (URLSearchParams_toString q) = true
  /\ count_char "=" (URLSearchParams_toString q) = length q
  /\ count_char "&" (URLSearchParams_toString q) = pred (length q).
Proof.
  unfold URLSearchParams_toString.
  set (Q := fun c => urlencoded_char c || Ascii.eqb c "=" || Ascii.eqb c "&").
  assert (Hentry : forall kv : string * string,
    string_forall Q (urlencode (fst kv) +:+ "=" +:+ urlencode (snd kv)) = true
    /\ count_char "=" (urlencode (fst kv) +:+ "=" +:+ urlencode (snd kv)) = 1%nat
    /\ count_char "&" (urlencode (fst kv) +:+ "=" +:+ urlencode (snd kv)) = 0%nat).
  { intros [k v]. cbn [fst snd].
    assert (HQ : forall s, string_forall Q (urlencode s) = true).
    { intros s. apply (string_forall_weaken urlencoded_char); [| apply urlencode_chars].
      intros c Hc. unfold Q. rewrite Hc. reflexivity. }
    rewrite !string_forall_app, !count_char_app, !HQ.
    rewrite !(count_char_excluded urlencoded_char "=" _ (urlencode_chars _) eq_refl).
    rewrite !(count_char_excluded urlencoded_char "&" _ (urlencode_chars _) eq_refl).
    repeat split. }
  induction q as [|kv rest IH]; [repeat split |].
  destruct (Hentry kv) as (Hc & He & Ha).
  destruct IH as (IHc & IHe & IHa).
  cbn [List.map String.concat length pred].
  revert Hc He Ha.
  generalize (urlencode (fst kv) +:+ "=" +:+ urlencode (snd kv)).
  intros entry Hc He Ha.
  destruct rest as [|kv' rest'].
  - cbn [List.map]. rewrite Hc, He, Ha. repeat split.
  - cbn [List.map] in *.
    revert IHc IHe IHa. generalize (String.concat "&"
      ((urlencode (fst kv') +:+ "=" +:+ urlencode (snd kv'))
       :: List.map (fun kv0 => urlencode (fst kv0) +:+ "=" +:+ urlencode (snd kv0))
            rest')).
    intros tail IHc IHe IHa.
    rewrite !string_forall_app, !count_char_app, Hc, He, Ha, IHc, IHe, IHa.
    cbn. repeat split.
Qed.

(** X25. The query string getInvoices puts after the '?' is made of
    form-urlencoded characters, one '=' per parameter and one '&' between
    two parameters: whatever text is passed as status_filter, it cannot
    add a parameter or end the query. *)
Theorem getInvoices_query_is_well_formed
    (params : option InvoiceService.InvoiceQuery) :
  let q := InvoiceService.queryParams params in
  let s := URLSearchParams_toString q in
  string_forall (fun c => urlencoded_char c || Ascii.eqb c "=" || Ascii.eqb c "&")
    s = true
  /\ count_char "=" s = length q
  /\ count_char "&" s = pred (length q)
  /\ count_char "#" s = 0%nat
  /\ count_char "?" s = 0%nat
  /\ (length q <= 3)%nat.
Proof.
  cbv zeta.
  destruct (URLSearchParams_toString_shape (InvoiceService.queryParams params))
    as (Hc & He & Ha).
  split; [exact Hc | split; [exact He | split; [exact Ha |]]].
  split; [| split].
  - apply (count_char_excluded _ _ _ Hc). reflexivity.
  - apply (count_char_excluded _ _ _ Hc). reflexivity.
  - rewrite queryParams_entries, !length_app.
    destruct (Number_prototype_toString <$>
                nonzero (params ≫= InvoiceService.skip));
      destruct (Number_prototype_toString <$>
                  nonzero (params ≫= InvoiceService.limit));
      destruct (nonempty (params ≫= InvoiceService.status_filter));
      cbn; lia.
Qed.

Example getInvoices_query_injection :
  URLSearchParams_toString
    (InvoiceService.queryParams
       (Some (InvoiceService.mkQuery None None (Some "x&limit=1000#"))))
  = "status_filter=x%26limit%3D1000%23".
Proof. reflexivity. Qed.

(** * What the pages do with a 401 *)

Lemma request_of_log_requests c rs w :
  request_of c (log_requests rs w) = request_of c w.
Proof. apply request_of_same_token; reflexivity. Qed.

Lemma answers_401_outcome c w :
  answers_401 w (length (sent w)) (request_of c w) ->
  exists resp, outcome_of c w = Throw (AxiosError (Some resp)).
Proof.
  intros (resp & Hreply & Hs). exists resp.
  unfold outcome_of. rewrite Hreply. apply status_401_rejected. exact Hs.
Qed.

(** The pending result of the upload at position [i] is what
    uploadInvoice gives once the requests of the uploads before it have
    been issued. *)
Lemma upload_results_lookup fs w i g :
  fs !! i = Some g ->
  upload_results fs w !! i =
    Some (fst (invoke (UploadInvoice (InvoiceUpload.file g))
                 (log_requests
                    (map (fun f => request_of (UploadInvoice (InvoiceUpload.file f)) w)
                       (take i fs)) w))).
Proof.
  revert w i. induction fs as [|f rest IH]; intros w i Hi; [discriminate Hi |].
  destruct i as [|i].
  - injection Hi as <-. cbn [take map upload_results].
    rewrite log_requests_nil. reflexivity.
  - cbn [upload_results].
    change (InvoiceService.uploadInvoice (InvoiceUpload.file f))
      with (invoke (UploadInvoice (InvoiceUpload.file f))).
    rewrite invoke_world.
    change ((?x :: ?l) !! S i) with (l !! i).
    rewrite (IH _ i Hi).
    rewrite (map_ext _ _
               (fun f' => request_of_log_request
                            (UploadInvoice (InvoiceUpload.file f')) _ w)).
    rewrite log_requests_cons. reflexivity.
Qed.

Lemma upload_results_401 fs w i g :
  fs !! i = Some g ->
  answers_401 w (length (sent w) + i)
    (request_of (UploadInvoice (InvoiceUpload.file g)) w) ->
  upload_results fs w !! i = Some (Throw (JsError "Authentication required")).
Proof.
  intros Hi (resp & Hreply & Hs).
  rewrite (upload_results_lookup fs w i g Hi).
  erewrite invoke_answers_401; [reflexivity | | reflexivity].
  rewrite request_of_log_requests. exists resp. split; [| exact Hs].
  cbn [log_requests backend sent].
  rewrite length_app, length_map, length_take.
  apply lookup_lt_Some in Hi.
  replace (i `min` length fs)%nat with i by lia. exact Hreply.
Qed.

Lemma handleUpload_answers_401 sched f fs up pr w ev i g :
  (f :: fs) !! i = Some g ->
  answers_401 w (length (sent w) + i)
    (request_of (UploadInvoice (InvoiceUpload.file g)) w) ->
  exists p,
    InvoiceUpload.handleUpload sched
      (mkCtx (InvoiceUpload.mkState (f :: fs) up pr) w ev) =
      (Ok tt,
       mkCtx (InvoiceUpload.mkState (f :: fs) false p)
         (log_requests
            (map (fun g => request_of (UploadInvoice (InvoiceUpload.file g)) w)
               (f :: fs)) w)
         (ev ++ [ConsoleError "Upload failed:";
                 ShowNotification (VStr "Failed to upload invoices") "error"])).
Proof.
  intros Hi H401.
  destruct (handleUpload_outcome sched f fs up pr w ev) as (p & Hrun).
  exists p. rewrite Hrun.
  rewrite (forallb_is_Ok_false _ i _ (upload_results_401 _ _ _ _ Hi H401)).
  reflexivity.
Qed.

Lemma fetchDashboardData_answers_401 b st w ev :
  answers_401 w (length (sent w)) (request_of GetStats w)
  \/ answers_401 w (S (length (sent w))) (request_of (GetRecentInvoices None) w) ->
  DashboardPage.fetchDashboardData b (mkCtx st w ev) =
    (Ok tt,
     mkCtx (DashboardPage.mkState (DashboardPage.stats st)
                                  (DashboardPage.recentInvoices st) false)
       (log_requests [request_of GetStats w;
                      request_of (GetRecentInvoices None) w] w)
       (ev ++ [ConsoleError "Failed to fetch dashboard data:";
               ShowNotification (VStr "Failed to load dashboard data") "error"])).
Proof.
  intros H. rewrite fetchDashboardData_run.
  change (DashboardService.getStats w) with (invoke GetStats w).
  change (DashboardService.getRecentInvoices None)
    with (invoke (GetRecentInvoices None)).
  rewrite !invoke_world, request_of_log_request, log_request_twice.
  destruct H as [H1 | H2].
  - rewrite (invoke_answers_401 GetStats w _ H1 eq_refl). reflexivity.
  - assert (H2' : answers_401 (log_request (request_of GetStats w) w)
                    (length (sent (log_request (request_of GetStats w) w)))
                    (request_of (GetRecentInvoices None)
                       (log_request (request_of GetStats w) w))).
    { destruct H2 as (resp & Hreply & Hs). exists resp. split; [| exact Hs].
      rewrite request_of_log_request. cbn [log_request backend sent].
      rewrite length_app, Nat.add_1_r. exact Hreply. }
    rewrite (invoke_answers_401 (GetRecentInvoices None) _ _ H2' eq_refl).
    destruct (fst (invoke GetStats w)); reflexivity.
Qed.

Lemma initAuth_answers_401 t st w ev :
  localStorage w !! "docbot_token" = Some t ->
  t <> "" ->
  answers_401 w (length (sent w)) (request_of (GetCurrentUser t) w) ->
  AuthContext.initAuth (mkCtx st w ev) =
    (Ok tt,
     mkCtx (AuthContext.mkState (AuthContext.user st) VNull false)
       (set_localStorage (delete "docbot_token" (localStorage w))
          (log_request (request_of (GetCurrentUser t) w) w))
       (ev ++ [ConsoleError "Failed to validate token:"])).
Proof.
  intros Hls Ht H401.
  destruct (answers_401_outcome _ _ H401) as (resp & Hout).
  exact (initAuth_rejected t st w ev _ Hls Ht Hout).
Qed.

Lemma login_answers_401 email password st w ev :
  answers_401 w (length (sent w)) (request_of (Login email password) w) ->
  AuthContext.login email password (mkCtx st w ev) =
    (Throw (JsError "Invalid email or password"),
     mkCtx st (log_request (request_of (Login email password) w) w) ev).
Proof.
  intros H401.
  pose proof (invoke_answers_401 (Login email password) w _ H401 eq_refl)
    as Hlogin.
  cbn [invoke] in Hlogin.
  unfold AuthContext.login.
  erewrite try_catch_Throw; [reflexivity |].
  apply bind_Throw. apply liftW_run. exact Hlogin.
Qed.

Lemma login_user_fetch_401 email password st w ev resp tok :
  outcome_of (Login email password) w = Ok resp ->
  nullish (data resp) = false ->
  ToString (opt_get (data resp) "access_token") = Some tok ->
  answers_401 w (S (length (sent w))) (request_of (GetCurrentUser tok) w) ->
  AuthContext.login email password (mkCtx st w ev) =
    (Throw (JsError "Invalid or expired token"),
     mkCtx (AuthContext.mkState (AuthContext.user st)
              (opt_get (data resp) "access_token") (AuthContext.loading st))
       (mkWorld (REACT_APP_API_URL w)
          (<["docbot_token" := tok]> (localStorage w))
          (backend w)
          (sent w ++ [request_of (Login email password) w;
                      request_of (GetCurrentUser tok) w]))
       ev).
Proof.
  intros Hout Hbody Htext (resp2 & Hreply & Hs).
  rewrite (login_resolved _ _ st w ev resp tok Hout Hbody Htext).
  set (w1 := set_localStorage _ _).
  assert (H401 : answers_401 w1 (length (sent w1))
                   (request_of (GetCurrentUser tok) w1)).
  { exists resp2. split; [| exact Hs].
    unfold w1. cbn [set_localStorage log_request backend sent].
    rewrite length_app, Nat.add_1_r. exact Hreply. }
  pose proof (invoke_answers_401 (GetCurrentUser tok) w1 _ H401 eq_refl)
    as Hget.
  cbn [invoke] in Hget. rewrite Hget.
  unfold w1, log_request, set_localStorage. cbn.
  rewrite <- app_assoc. reflexivity.
Qed.

(** Revoking previews is not a navigation. *)
Lemma preview_revocations_navigation fs path :
  NavigateTo path ∉ preview_revocations fs.
Proof.
  unfold preview_revocations. intros Hin.
  apply list_elem_of_omap in Hin as (g & _ & Hg).
  destruct (InvoiceUpload.preview g) as [url|];
    [destruct (truthy (VStr url)) |]; discriminate Hg.
Qed.

Lemma handleUpload_navigation sched st w ev path :
  NavigateTo path ∈
    cevents (snd (InvoiceUpload.handleUpload sched (mkCtx st w ev))) ->
  NavigateTo path ∈ ev
  \/ (path = "/invoices"
      /\ forallb is_Ok (upload_results (InvoiceUpload.files st) w) = true).
Proof.
  destruct st as [[|f fs] up pr].
  - cbn. rewrite elem_of_app, list_elem_of_singleton.
    intros [Hin | [=]]. left. exact Hin.
  - destruct (handleUpload_outcome sched f fs up pr w ev) as (p & ->).
    cbn [snd InvoiceUpload.files].
    destruct (forallb is_Ok _); cbn [cevents].
    + rewrite elem_of_app, elem_of_cons, elem_of_app, list_elem_of_singleton.
      intros [Hin | [[=] | [Hin | [= ->]]]].
      * left. exact Hin.
      * exfalso. exact (preview_revocations_navigation _ _ Hin).
      * right. split; reflexivity.
    + rewrite elem_of_app, elem_of_cons, list_elem_of_singleton.
      intros [Hin | [[=] | [=]]]. left. exact Hin.
Qed.

Lemma fetchDashboardData_navigation b st w ev path :
  NavigateTo path ∈
    cevents (snd (DashboardPage.fetchDashboardData b (mkCtx st w ev))) ->
  NavigateTo path ∈ ev.
Proof.
  rewrite fetchDashboardData_run. cbn [snd].
  destruct (fst (DashboardService.getStats w)) as [a|e1];
    destruct (fst (DashboardService.getRecentInvoices None
                     (snd (DashboardService.getStats w)))) as [r|e2];
    cbn [cevents]; try (intros Hin; exact Hin);
    rewrite elem_of_app, elem_of_cons, list_elem_of_singleton;
    (intros [Hin | [[=] | [=]]]; exact Hin).
Qed.

Lemma initAuth_navigation st w ev path :
  NavigateTo path ∈ cevents (snd (AuthContext.initAuth (mkCtx st w ev))) ->
  NavigateTo path ∈ ev.
Proof.
  destruct (localStorage w !! "docbot_token") as [t|] eqn:Hls.
  - destruct (decide (t = "")) as [-> | Ht].
    + rewrite (initAuth_no_token _ w ev (or_intror Hls)). intros Hin. exact Hin.
    + destruct (outcome_of (GetCurrentUser t) w) as [resp|e0] eqn:Hout.
      * rewrite (initAuth_resolved t _ w ev resp Hls Ht Hout).
        intros Hin. exact Hin.
      * rewrite (initAuth_rejected t _ w ev e0 Hls Ht Hout). cbn [snd cevents].
        rewrite elem_of_app, list_elem_of_singleton.
        intros [Hin | [=]]. exact Hin.
  - rewrite (initAuth_no_token _ w ev (or_introl Hls)). intros Hin. exact Hin.
Qed.

Lemma login_events email password st w ev :
  cevents (snd (AuthContext.login email password (mkCtx st w ev))) = ev.
Proof.
  destruct (outcome_of (Login email password) w) as [resp|e0] eqn:Hout.
  - destruct (nullish (data resp)) eqn:Hbody.
    + rewrite (login_null_body _ _ st w ev resp Hout Hbody). reflexivity.
    + destruct (ToString (opt_get (data resp) "access_token")) as [tok|]
        eqn:Htext.
      * rewrite (login_resolved _ _ st w ev resp tok Hout Hbody Htext).
        destruct (AuthService.getCurrentUser tok _) as [[u|e] w2]; reflexivity.
      * rewrite (login_without_text _ _ st w ev resp Hout Hbody Htext).
        reflexivity.
  - destruct (login_rejected _ _ st w ev e0 Hout) as (e & -> & _). reflexivity.
Qed.

(** C7 (as amended). A 401 answer never sends the user to the login page:
    the service method throws and the handler only reports it.  When one
    of the uploads of a batch is answered 401, whatever becomes of the
    others, handleUpload logs the failure and shows 'Failed to upload
    invoices', ends the uploading state and leaves the selected files in
    place.  When the stats request or the recent-invoices request is
    answered 401, the Dashboard page keeps its data, ends loading and
    shows 'Failed to load dashboard data'.  When the validation request
    of initAuth is answered 401, initAuth drops the stored token (token
    null, 'docbot_token' removed) and ends loading.  AuthContext.login
    rethrows 'Invalid email or password' when the login request is
    answered 401, and 'Invalid or expired token' when the user fetch
    after an accepted login is; the new token then stays stored.
    Whatever the backend answers, none of these handlers navigates
    anywhere but to /invoices, and there only after every upload
    succeeded. *)
Theorem status_401_is_reported_without_redirect (w : world) :
  (forall sched f fs up pr ev i g,
     (f :: fs) !! i = Some g ->
     answers_401 w (length (sent w) + i)
       (request_of (UploadInvoice (InvoiceUpload.file g)) w) ->
     exists p,
       InvoiceUpload.handleUpload sched
         (mkCtx (InvoiceUpload.mkState (f :: fs) up pr) w ev) =
         (Ok tt,
          mkCtx (InvoiceUpload.mkState (f :: fs) false p)
            (log_requests
               (map (fun g => request_of (UploadInvoice (InvoiceUpload.file g)) w)
                  (f :: fs)) w)
            (ev ++ [ConsoleError "Upload failed:";
                    ShowNotification (VStr "Failed to upload invoices") "error"])))
  /\ (forall b st ev,
        answers_401 w (length (sent w)) (request_of GetStats w)
        \/ answers_401 w (S (length (sent w)))
             (request_of (GetRecentInvoices None) w) ->
        DashboardPage.fetchDashboardData b (mkCtx st w ev) =
          (Ok tt,
           mkCtx (DashboardPage.mkState (DashboardPage.stats st)
                    (DashboardPage.recentInvoices st) false)
             (log_requests [request_of GetStats w;
                            request_of (GetRecentInvoices None) w] w)
             (ev ++ [ConsoleError "Failed to fetch dashboard data:";
                     ShowNotification (VStr "Failed to load dashboard data")
                       "error"])))
  /\ (forall t st ev,
        localStorage w !! "docbot_token" = Some t ->
        t <> "" ->
        answers_401 w (length (sent w)) (request_of (GetCurrentUser t) w) ->
        AuthContext.initAuth (mkCtx st w ev) =
          (Ok tt,
           mkCtx (AuthContext.mkState (AuthContext.user st) VNull false)
             (set_localStorage (delete "docbot_token" (localStorage w))
                (log_request (request_of (GetCurrentUser t) w) w))
             (ev ++ [ConsoleError "Failed to validate token:"])))
  /\ (forall email password st ev,
        answers_401 w (length (sent w)) (request_of (Login email password) w) ->
        AuthContext.login email password (mkCtx st w ev) =
          (Throw (JsError "Invalid email or password"),
           mkCtx st (log_request (request_of (Login email password) w) w) ev))
  /\ (forall email password st ev resp tok,
        outcome_of (Login email password) w = Ok resp ->
        nullish (data resp) = false ->
        ToString (opt_get (data resp) "access_token") = Some tok ->
        answers_401 w (S (length (sent w))) (request_of (GetCurrentUser tok) w) ->
        AuthContext.login email password (mkCtx st w ev) =
          (Throw (JsError "Invalid or expired token"),
           mkCtx (AuthContext.mkState (AuthContext.user st)
                    (opt_get (data resp) "access_token")
                    (AuthContext.loading st))
             (mkWorld (REACT_APP_API_URL w)
                (<["docbot_token" := tok]> (localStorage w))
                (backend w)
                (sent w ++ [request_of (Login email password) w;
                            request_of (GetCurrentUser tok) w]))
             ev))
  /\ (forall sched st ev path,
        NavigateTo path ∈
          cevents (snd (InvoiceUpload.handleUpload sched (mkCtx st w ev))) ->
        NavigateTo path ∈ ev
        \/ (path = "/invoices"
            /\ forallb is_Ok (upload_results (InvoiceUpload.files st) w) = true))
  /\ (forall b st ev path,
        NavigateTo path ∈
          cevents (snd (DashboardPage.fetchDashboardData b (mkCtx st w ev))) ->
        NavigateTo path ∈ ev)
  /\ (forall st ev path,
        NavigateTo path ∈ cevents (snd (AuthContext.initAuth (mkCtx st w ev))) ->
        NavigateTo path ∈ ev)
  /\ (forall email password st ev,
        cevents (snd (AuthContext.login email password (mkCtx st w ev))) = ev).
Proof.
  split; [| split; [| split; [| split; [| split; [| split; [| split; [| split]]]]]]].
  - intros sched f fs up pr ev i g. apply handleUpload_answers_401.
  - intros b st ev. apply fetchDashboardData_answers_401.
  - intros t st ev. apply initAuth_answers_401.
  - intros email password st ev. apply login_answers_401.
  - intros email password st ev resp tok. apply login_user_fetch_401.
  - intros sched st ev path. apply handleUpload_navigation.
  - intros b st ev path. apply fetchDashboardData_navigation.
  - intros st ev path. apply initAuth_navigation.
  - intros email password st ev. apply login_events.
Qed.

Lemma status_401_is_reported_without_redirect_witness :
  let a := InvoiceUpload.mkUploaded (mkFile "a.pdf" "application/pdf" 10) None in
  let b := InvoiceUpload.mkUploaded (mkFile "b.pdf" "application/pdf" 20) None in
  let w := mkWorld None (<["docbot_token" := "tok"]> ∅)
             (fun i _ => match i with
                         | O => Reply (mkResponse 200 (VObj []))
                         | _ => Reply (mkResponse 401 VNull)
                         end) [] in
  [a; b] !! 1%nat = Some b
  /\ answers_401 w (length (sent w) + 1)
       (request_of (UploadInvoice (InvoiceUpload.file b)) w)
  /\ exists p,
       InvoiceUpload.handleUpload [1%nat; 0%nat]
         (mkCtx (InvoiceUpload.mkState [a; b] false 0) w []) =
         (Ok tt,
          mkCtx (InvoiceUpload.mkState [a; b] false p)
            (log_requests
               (map (fun g => request_of (UploadInvoice (InvoiceUpload.file g)) w)
                  [a; b]) w)
            [ConsoleError "Upload failed:";
             ShowNotification (VStr "Failed to upload invoices") "error"]).
Proof.
  cbv zeta. split; [reflexivity |].
  split; [eexists; split; reflexivity |].
  apply (proj1 (status_401_is_reported_without_redirect _)
           [1%nat; 0%nat] _ _ false 0%Q [] 1%nat
           (InvoiceUpload.mkUploaded (mkFile "b.pdf" "application/pdf" 20) None));
    [reflexivity | eexists; split; reflexivity].
Defined.

(** C7, as stated, fails: an upload answered with 401 ends in an error
    notification; the trace of the handler holds no navigation, and the
    stored token is still there. *)
Lemma upload_401_does_not_redirect :
  let c := mkCtx (InvoiceUpload.mkState
                    [InvoiceUpload.mkUploaded
                       (mkFile "invoice.pdf" "application/pdf" 2048) None]
                    false 0)
             (world_answering
                (mkResponse 401 (VObj [("detail", VStr "Not authenticated")])))
             [] in
  cevents (snd (InvoiceUpload.handleUpload [] c))
  = [ConsoleError "Upload failed:";
     ShowNotification (VStr "Failed to upload invoices") "error"]
  /\ (NavigateTo "/login" ∉ cevents (snd (InvoiceUpload.handleUpload [] c)))
  /\ localStorage (cworld (snd (InvoiceUpload.handleUpload [] c)))
       !! "docbot_token" = Some "tok".
Proof.
  cbv zeta. split; [reflexivity | split; [| reflexivity]].
  intros Hin. apply elem_of_cons in Hin as [Heq | Hin]; [discriminate Heq |].
  apply elem_of_cons in Hin as [Heq | Hin]; [discriminate Heq |].
  by apply elem_of_nil in Hin.
Qed.

(** In a batch of two whose second upload is answered 401 and settles
    first, the first upload completes after the failure has been
    reported and moves the progress again. *)
Example upload_401_in_a_mixed_batch :
  let a := InvoiceUpload.mkUploaded (mkFile "a.pdf" "application/pdf" 10) None in
  let b := InvoiceUpload.mkUploaded (mkFile "b.pdf" "application/pdf" 20) None in
  let w := mkWorld None (<["docbot_token" := "tok"]> ∅)
             (fun i _ => match i with
                         | O => Reply (mkResponse 200 (VObj []))
                         | _ => Reply (mkResponse 401 VNull)
                         end) [] in
  let c' := snd (InvoiceUpload.handleUpload [1%nat; 0%nat]
                   (mkCtx (InvoiceUpload.mkState [a; b] false 0) w [])) in
  InvoiceUpload.files (cstate c') = [a; b]
  /\ InvoiceUpload.uploading (cstate c') = false
  /\ InvoiceUpload.uploadProgress (cstate c') = InvoiceUpload.progress_of 0 2
  /\ cevents c' = [ConsoleError "Upload failed:";
                   ShowNotification (VStr "Failed to upload invoices") "error"].
Proof. repeat split; reflexivity. Qed.
